(** * MarkForger: the conversion service

    A shallow embedding of [app/services/conversion_service.py] and the
    properties of its operations: allocation of a conversion directory,
    rendering of a batch of markdown documents, archiving, the preview
    reference and the retention sweep.

    Python strings are byte strings ([string]); the file system is a tree of
    directories and regular files; a method of [ConversionService] is a
    computation over the world (file system, clock, source of UUIDs) that
    either returns a value or raises, and keeps the effects that happened
    before the raise. *)

From Stdlib Require Import List String Ascii Bool Arith NArith ZArith QArith Lia.
Import ListNotations.
Close Scope Q_scope.
Local Open Scope string_scope.

(* ================================================================== *)
(** * Part I: definitions *)
(* ================================================================== *)

(** ** Python [str] methods *)

Module PyStr.

(** [s.startswith(p)] *)
Fixpoint startswith (s p : string) {struct p} : bool :=
  match p with
  | EmptyString => true
  | String c p' =>
      match s with
      | EmptyString => false
      | String d s' => Ascii.eqb c d && startswith s' p'
      end
  end.

(** [s.endswith(p)] *)
Fixpoint endswith (s p : string) : bool :=
  match s with
  | EmptyString => String.eqb p EmptyString
  | String _ s' => String.eqb s p || endswith s' p
  end.

(** [s[n:]] *)
Fixpoint drop (n : nat) (s : string) : string :=
  match n, s with
  | O, _ => s
  | S n', String _ s' => drop n' s'
  | S _, EmptyString => EmptyString
  end.

(** [s[:n]] *)
Fixpoint take (n : nat) (s : string) : string :=
  match n, s with
  | S n', String c s' => String c (take n' s')
  | _, _ => EmptyString
  end.

(** [s.replace(old, new)] for a non-empty [old]: the occurrences of [old]
    are found from left to right, without overlap, and each is replaced.
    [skip] counts the characters of the occurrence just replaced that are
    still to be passed over. *)
Fixpoint replace_from (skip : nat) (old new s : string) : string :=
  match s with
  | EmptyString => EmptyString
  | String c s' =>
      match skip with
      | S k => replace_from k old new s'
      | O =>
          if startswith s old
          then new ++ replace_from (String.length old - 1) old new s'
          else String c (replace_from 0 old new s')
      end
  end.

(** With an empty [old], Python puts [new] before every character and at
    the end. *)
Fixpoint intersperse (new s : string) : string :=
  match s with
  | EmptyString => new
  | String c s' => new ++ String c (intersperse new s')
  end.

Definition replace (s old new : string) : string :=
  match old with
  | EmptyString => intersperse new s
  | String _ _ => replace_from 0 old new s
  end.

(** [c in s] for a character *)
Fixpoint mem (c : ascii) (s : string) : bool :=
  match s with
  | EmptyString => false
  | String d s' => Ascii.eqb c d || mem c s'
  end.

(** [all(p(c) for c in s)] *)
Fixpoint forallb (p : ascii -> bool) (s : string) : bool :=
  match s with
  | EmptyString => true
  | String c s' => p c && forallb p s'
  end.

(** [sub in s] *)
Fixpoint contains (s sub : string) : bool :=
  startswith s sub ||
  match s with
  | EmptyString => false
  | String _ s' => contains s' sub
  end.

(** [sep.join(l)] *)
Fixpoint join (sep : string) (l : list string) : string :=
  match l with
  | [] => EmptyString
  | [x] => x
  | x :: rest => x ++ sep ++ join sep rest
  end.

(** The double quote and the line feed, which a literal cannot hold. *)
Definition dq : string := String "034"%char EmptyString.
Definition nl : string := String "010"%char EmptyString.

End PyStr.

(** ** [posixpath] *)

Module PosixPath.

Definition sep : ascii := "/"%char.
Definition nul : ascii := "000"%char.

(** [os.path.join(a, b)] *)
Definition join (a b : string) : string :=
  if PyStr.startswith b (String sep EmptyString) then b
  else if String.eqb a EmptyString || PyStr.endswith a (String sep EmptyString)
       then a ++ b
       else a ++ String sep b.

(** [p.split("/")]: the raw components, never an empty list. *)
Fixpoint split (p : string) : list string :=
  match p with
  | EmptyString => [EmptyString]
  | String c p' =>
      if Ascii.eqb c sep then EmptyString :: split p'
      else match split p' with
           | h :: t => String c h :: t
           | [] => [String c EmptyString]
           end
  end.

(** [os.path.basename(p)]: what follows the last separator. *)
Definition basename (p : string) : string := List.last (split p) EmptyString.

(** One step of the resolution of a path: empty components and [.] are
    passed over, [..] goes back to the parent (the root is its own
    parent), a name goes down. There are no symbolic links. *)
Definition step (acc : list string) (c : string) : list string :=
  if String.eqb c EmptyString || String.eqb c "." then acc
  else if String.eqb c ".." then List.removelast acc
  else (acc ++ [c])%list.

(** The names from the root of the tree to the file a path denotes. The
    working directory is the root of the tree, so a relative and an
    absolute path with the same components denote the same file. A path
    with a NUL character denotes none (the interpreter refuses it). *)
Definition components (p : string) : option (list string) :=
  if PyStr.mem nul p then None
  else Some (List.fold_left step (split p) []).

(** Length of the longest common prefix of two lists of names. *)
Fixpoint common (p q : list string) : nat :=
  match p, q with
  | x :: p', y :: q' => if String.eqb x y then S (common p' q') else O
  | _, _ => O
  end.

(** [os.path.relpath(path, start)], both resolved to their components:
    one [..] for each component of [start] off the common prefix, then
    the rest of [path]; [.] when nothing is left. *)
Definition relpath_of (p s : list string) : string :=
  let i := common p s in
  match (List.repeat ".." (List.length s - i) ++ List.skipn i p)%list with
  | [] => "."
  | rel => PyStr.join "/" rel
  end.

(** A usable file name: a single component that names an entry. *)
Definition plain_name (n : string) : bool :=
  negb (String.eqb n EmptyString) && negb (String.eqb n ".")
  && negb (String.eqb n "..") && negb (PyStr.mem sep n)
  && negb (PyStr.mem nul n).

End PosixPath.

(** ** The file system *)

(** The error numbers the operations below can meet, and the exceptions the
    interpreter makes of them: [OSError ENOENT] is [FileNotFoundError],
    [EEXIST] [FileExistsError], [ENOTDIR] [NotADirectoryError], [EISDIR]
    [IsADirectoryError], [EACCES] [PermissionError]. *)
Inductive errno := ENOENT | EEXIST | ENOTDIR | EISDIR | EACCES | EBUSY.

Inductive exn :=
| OSError (e : errno) (msg : string)
| ValueError (msg : string).

Definition FileNotFoundError (msg : string) : exn := OSError ENOENT msg.

(** A regular file holds its bytes; a directory lists its entries in the
    order [os.listdir] and [os.scandir] give them, and may be write
    protected: entries are created in it and removed from it only when it is
    [writable]. Times are seconds since the epoch (the floats of
    [os.path.getmtime], as exact rationals). *)
#[local] Set Warnings "-register-all".
Inductive node :=
| File (mtime : Q) (data : string)
| Dir (mtime : Q) (writable : bool) (entries : list (string * node)).

Definition is_dir (n : node) : bool :=
  match n with Dir _ _ _ => true | File _ _ => false end.

Definition is_file (n : node) : bool :=
  match n with File _ _ => true | Dir _ _ _ => false end.


Module Entries.

(** The entry of a name in a listing. *)
Fixpoint lookup (name : string) (es : list (string * node)) : option node :=
  match es with
  | [] => None
  | (k, v) :: rest => if String.eqb k name then Some v else lookup name rest
  end.

(** The entry of a name replaced, in place. *)
Fixpoint set (name : string) (v : node) (es : list (string * node))
  : list (string * node) :=
  match es with
  | [] => []
  | (k, x) :: rest =>
      if String.eqb k name then (k, v) :: rest else (k, x) :: set name v rest
  end.

(** The entry of a name removed. *)
Definition remove (name : string) (es : list (string * node))
  : list (string * node) :=
  List.filter (fun e => negb (String.eqb (fst e) name)) es.

Definition names (es : list (string * node)) : list string := List.map fst es.

End Entries.

Module Fs.

(** The node at the end of a list of names, from [n]. *)
Fixpoint find (p : list string) (n : node) : errno + node :=
  match p with
  | [] => inr n
  | name :: rest =>
      match n with
      | File _ _ => inl ENOTDIR
      | Dir _ _ es =>
          match Entries.lookup name es with
          | None => inl ENOENT
          | Some child => find rest child
          end
      end
  end.

(** The tree with the node at [p] replaced by [sub]. *)
Fixpoint plug (p : list string) (sub : node) (n : node) : node :=
  match p with
  | [] => sub
  | name :: rest =>
      match n with
      | File _ _ => n
      | Dir m w es =>
          match Entries.lookup name es with
          | None => n
          | Some child => Dir m w (Entries.set name (plug rest sub child) es)
          end
      end
  end.

(** [f name] applied to the directory that holds the last name of [p];
    the tree is rebuilt around what [f] leaves, whether [f] fails or
    not. *)
Fixpoint at_parent (p : list string)
    (f : string -> node -> option errno * node) (n : node)
  : option errno * node :=
  match p with
  | [] => (Some EBUSY, n)
  | [name] => f name n
  | name :: rest =>
      match n with
      | File _ _ => (Some ENOTDIR, n)
      | Dir m w es =>
          match Entries.lookup name es with
          | None => (Some ENOENT, n)
          | Some child =>
              let (e, child') := at_parent rest f child in
              (e, Dir m w (Entries.set name child' es))
          end
      end
  end.

(** [open(name, "w")], a write and the close, in directory [n]: an
    existing regular file is truncated and rewritten, an absent one is
    created at the end of the listing. *)
Definition write_entry (now : Q) (data : string) (name : string) (n : node)
  : option errno * node :=
  match n with
  | File _ _ => (Some ENOTDIR, n)
  | Dir m w es =>
      match Entries.lookup name es with
      | Some (File _ _) => (None, Dir m w (Entries.set name (File now data) es))
      | Some (Dir _ _ _) => (Some EISDIR, n)
      | None =>
          if w then (None, Dir now w (es ++ [(name, File now data)]))
          else (Some EACCES, n)
      end
  end.

(** [os.remove(name)] in directory [n]. *)
Definition remove_entry (now : Q) (name : string) (n : node)
  : option errno * node :=
  match n with
  | File _ _ => (Some ENOTDIR, n)
  | Dir m w es =>
      match Entries.lookup name es with
      | None => (Some ENOENT, n)
      | Some child =>
          if negb w then (Some EACCES, n)
          else if is_dir child then (Some EISDIR, n)
          else (None, Dir now w (Entries.remove name es))
      end
  end.



(** [os.makedirs(p, exist_ok=True)] from [n]: the directories on the way
    that are missing are created, writable and empty. *)
Fixpoint makedirs (now : Q) (p : list string) (n : node)
  : option errno * node :=
  match p with
  | [] => (if is_dir n then None else Some EEXIST, n)
  | name :: rest =>
      match n with
      | File _ _ => (Some ENOTDIR, n)
      | Dir m w es =>
          match Entries.lookup name es with
          | Some child =>
              let (e, child') := makedirs now rest child in
              (e, Dir m w (Entries.set name child' es))
          | None =>
              if w then
                let (e, child') := makedirs now rest (Dir now true []) in
                (e, Dir now w (es ++ [(name, child')]))
              else (Some EACCES, n)
          end
      end
  end.

Definition subdirs (es : list (string * node)) : list string :=
  Entries.names (List.filter (fun e => is_dir (snd e)) es).

Definition files (es : list (string * node)) : list string :=
  Entries.names (List.filter (fun e => is_file (snd e)) es).

(** [list(os.walk(top))] on the node [top] names: top down, each
    directory with the names of its subdirectories and of its files. What
    is not a directory gives nothing. *)
Fixpoint walk (top : string) (n : node)
  : list (string * list string * list string) :=
  match n with
  | File _ _ => []
  | Dir _ _ es =>
      (top, subdirs es, files es)
      :: List.flat_map
           (fun e => if is_dir (snd e)
                     then walk (PosixPath.join top (fst e)) (snd e)
                     else [])
           es
  end.

End Fs.

(** ** The world and the computations over it *)

(** [datetime.now()]: the fields of the local time, and the seconds since
    the epoch that [timestamp()] gives for it. *)
Record datetime := mkDatetime {
  year : N; month : N; day : N;
  hour : N; minute : N; second : N;
  posix : Q
}.

(** The fields of a time the clock can give: four digits of year, and the
    usual ranges. *)
Definition valid_datetime (t : datetime) : Prop :=
  (1000 <= year t <= 9999 /\ 1 <= month t <= 12 /\ 1 <= day t <= 31
   /\ hour t < 24 /\ minute t < 60 /\ second t < 60)%N.

(** The file tree (rooted at the working directory), the clock, and the
    random numbers [uuid.uuid4()] will draw, with how many were drawn. *)
Record world := mkWorld {
  fs : node;
  clock : datetime;
  entropy : nat -> N;
  drawn : nat
}.

Definition set_fs (w : world) (n : node) : world :=
  mkWorld n (clock w) (entropy w) (drawn w).

Inductive result (A : Type) :=
| Ok (a : A)
| Raise (e : exn).
Arguments Ok {A} a.
Arguments Raise {A} e.

(** A computation returns or raises, and leaves a world either way. *)
Definition M (A : Type) : Type := world -> result A * world.

Definition ret {A} (a : A) : M A := fun w => (Ok a, w).

Definition raise {A} (e : exn) : M A := fun w => (Raise e, w).

Definition bind {A B} (c : M A) (k : A -> M B) : M B :=
  fun w => match c w with
           | (Ok a, w') => k a w'
           | (Raise e, w') => (Raise e, w')
           end.

Declare Scope py_scope.
Delimit Scope py_scope with py.
Notation "x <- c ;; k" := (bind c (fun x => k))
  (at level 100, c at next level, right associativity) : py_scope.
Notation "c ;; k" := (bind c (fun _ => k))
  (at level 100, right associativity) : py_scope.
Local Open Scope py_scope.

(** [for x in l: body x] *)
Fixpoint for_each {A} (l : list A) (body : A -> M unit) : M unit :=
  match l with
  | [] => ret tt
  | x :: rest => body x ;; for_each rest body
  end.

(** A [for] loop that updates a local variable. *)
Fixpoint for_fold {A S} (l : list A) (body : S -> A -> M S) (s : S) : M S :=
  match l with
  | [] => ret s
  | x :: rest => s' <- body s x ;; for_fold rest body s'
  end.


Module Os.

(** A path resolved, or the [ValueError] of a NUL character. *)
Definition resolve (path : string) : M (list string) :=
  match PosixPath.components path with
  | Some p => ret p
  | None => raise (ValueError "embedded null byte")
  end.

(** The outcome of an operation on the tree, as a computation. *)
Definition commit (path : string) (r : option errno * node) : M unit :=
  fun w => match r with
           | (None, n) => (Ok tt, set_fs w n)
           | (Some e, n) => (Raise (OSError e path), set_fs w n)
           end.

Definition now_posix : M Q := fun w => (Ok (posix (clock w)), w).

(** [os.makedirs(path, exist_ok=True)] *)
Definition makedirs (path : string) : M unit :=
  p <- resolve path ;;
  now <- now_posix ;;
  fun w => commit path (Fs.makedirs now p (fs w)) w.

(** [with open(path, "w") as f: f.write(data)] *)
Definition write_text (path data : string) : M unit :=
  p <- resolve path ;;
  now <- now_posix ;;
  fun w => commit path (Fs.at_parent p (Fs.write_entry now data) (fs w)) w.

(** The bytes of a regular file. *)
Definition read_bytes (path : string) : M string :=
  p <- resolve path ;;
  fun w => match Fs.find p (fs w) with
           | inr (File _ data) => (Ok data, w)
           | inr (Dir _ _ _) => (Raise (OSError EISDIR path), w)
           | inl e => (Raise (OSError e path), w)
           end.

(** [os.path.exists(path)]; no exception leaves it. *)
Definition path_exists (path : string) : M bool :=
  fun w => match PosixPath.components path with
           | None => (Ok false, w)
           | Some p => match Fs.find p (fs w) with
                       | inr _ => (Ok true, w)
                       | inl _ => (Ok false, w)
                       end
           end.

(** [os.path.isdir(path)] *)
Definition path_isdir (path : string) : M bool :=
  fun w => match PosixPath.components path with
           | None => (Ok false, w)
           | Some p => match Fs.find p (fs w) with
                       | inr n => (Ok (is_dir n), w)
                       | inl _ => (Ok false, w)
                       end
           end.



(** [os.remove(path)] *)
Definition remove (path : string) : M unit :=
  p <- resolve path ;;
  now <- now_posix ;;
  fun w => commit path (Fs.at_parent p (Fs.remove_entry now) (fs w)) w.


(** [list(os.walk(top))]; an error on the way is passed over. *)
Definition walk (top : string) : M (list (string * list string * list string)) :=
  fun w => match PosixPath.components top with
           | None => (Ok [], w)
           | Some p => match Fs.find p (fs w) with
                       | inr n => (Ok (Fs.walk top n), w)
                       | inl _ => (Ok [], w)
                       end
           end.

(** [os.path.relpath(path, start)] *)
Definition relpath (path start : string) : M string :=
  p <- resolve path ;;
  s <- resolve start ;;
  ret (PosixPath.relpath_of p s).

End Os.

(** ** [datetime] and [uuid] *)

Definition digit (d : N) : ascii :=
  ascii_of_N (if (d <? 10)%N then 48 + d else 87 + d)%N.

(** The [width] low digits of [n] in base [base], most significant first:
    the zero padded writing of an [n] below [base ^ width]. *)
Fixpoint fixed (base : N) (width : nat) (n : N) : string :=
  match width with
  | O => EmptyString
  | S k => fixed base k (n / base) ++ String (digit (n mod base)) EmptyString
  end.

Definition datetime_now : M datetime := fun w => (Ok (clock w), w).

(** [t.strftime("%Y%m%d%H%M%S")] *)
Definition strftime_YmdHMS (t : datetime) : string :=
  fixed 10 4 (year t) ++ fixed 10 2 (month t) ++ fixed 10 2 (day t)
  ++ fixed 10 2 (hour t) ++ fixed 10 2 (minute t) ++ fixed 10 2 (second t).

(** [t.timestamp()] *)
Definition timestamp (t : datetime) : Q := posix t.

(** [uuid.uuid4()]: the next 128 random bits. *)
Definition uuid4 : M N :=
  fun w => (Ok (entropy w (drawn w) mod 2 ^ 128)%N,
            mkWorld (fs w) (clock w) (entropy w) (S (drawn w))).

(** [u.hex]: 32 lowercase hexadecimal digits. *)
Definition hex (u : N) : string := fixed 16 32 u.

(** ** The service *)

(** The stylesheet [_create_base_css] writes. *)
Definition BASE_CSS : string :=
  "
/* Base styles for MD to HTML conversion */
body {
    font-family: -apple-system, BlinkMacSystemFont, " ++ PyStr.dq ++ "Segoe UI" ++ PyStr.dq ++ ", Roboto, Helvetica, Arial, sans-serif;
    line-height: 1.6;
    color: #333;
    max-width: 800px;
    margin: 0 auto;
    padding: 20px;
}

h1, h2, h3, h4, h5, h6 {
    margin-top: 1.5em;
    margin-bottom: 0.5em;
    font-weight: 600;
}

h1 { font-size: 2em; }
h2 { font-size: 1.75em; }
h3 { font-size: 1.5em; }
h4 { font-size: 1.25em; }
h5 { font-size: 1em; }
h6 { font-size: 0.85em; }

p {
    margin: 1em 0;
}

a {
    color: #0366d6;
    text-decoration: none;
}

a:hover {
    text-decoration: underline;
}

code {
    font-family: SFMono-Regular, Consolas, " ++ PyStr.dq ++ "Liberation Mono" ++ PyStr.dq ++ ", Menlo, monospace;
    background-color: #f6f8fa;
    padding: 0.2em 0.4em;
    border-radius: 3px;
    font-size: 85%;
}

pre {
    background-color: #f6f8fa;
    border-radius: 3px;
    padding: 16px;
    overflow: auto;
}

pre code {
    background-color: transparent;
    padding: 0;
}

blockquote {
    padding: 0 1em;
    color: #6a737d;
    border-left: 0.25em solid #dfe2e5;
    margin: 1em 0;
}

ul, ol {
    padding-left: 2em;
    margin: 1em 0;
}

img {
    max-width: 100%;
    height: auto;
}

table {
    border-collapse: collapse;
    width: 100%;
    margin: 1em 0;
}

table th, table td {
    border: 1px solid #dfe2e5;
    padding: 6px 13px;
}

table th {
    background-color: #f6f8fa;
    font-weight: 600;
}

hr {
    height: 0.25em;
    padding: 0;
    margin: 24px 0;
    background-color: #e1e4e8;
    border: 0;
}
            ".

(** The page of one document: the text of the f-string of
    [convert_markdown_to_html]. *)
Definition html_page (html_filename html_content : string) : string :=
  "<!DOCTYPE html>
<html lang=" ++ PyStr.dq ++ "en" ++ PyStr.dq ++ ">
<head>
    <meta charset=" ++ PyStr.dq ++ "UTF-8" ++ PyStr.dq ++ ">
    <meta name=" ++ PyStr.dq ++ "viewport" ++ PyStr.dq ++ " content=" ++ PyStr.dq ++ "width=device-width, initial-scale=1.0" ++ PyStr.dq ++ ">
    <title>" ++ html_filename ++ "</title>
    <link rel=" ++ PyStr.dq ++ "stylesheet" ++ PyStr.dq ++ " href=" ++ PyStr.dq ++ "css/style.css" ++ PyStr.dq ++ ">
</head>
<body>
    " ++ html_content ++ "
</body>
</html>".

Section ConversionService.

(** [settings.STORAGE_PATH], from [app.core.config]. *)
Variable STORAGE_PATH : string.

(** [markdown.markdown(text, extensions=[extra, codehilite, tables, toc])]
    of the [markdown] package: a function of the text. *)
Variable markdown : string -> string.

(** The bytes the [zipfile] package writes for an archive with the given
    entries, each a name and the bytes of the member. *)
Variable zip_bytes : list (string * string) -> string.

(** [ConversionService.__init__] *)
Definition init : M unit := Os.makedirs STORAGE_PATH.

(** The truth value of an [Optional[str]]: [None] and the empty string are
    false. *)
Definition truthy (user_id : option string) : bool :=
  match user_id with
  | Some (String _ _) => true
  | _ => false
  end.

(** [f"{user_id}"] *)
Definition format (user_id : option string) : string :=
  match user_id with
  | Some s => s
  | None => "None"
  end.

Definition _create_conversion_dir (user_id : option string) : M string :=
  now <- datetime_now ;;
  let timestamp := strftime_YmdHMS now in
  dir_name <-
    (if truthy user_id then
       u <- uuid4 ;;
       ret (format user_id ++ "_" ++ timestamp ++ "_" ++ PyStr.take 8 (hex u))
     else
       u <- uuid4 ;;
       ret ("anonymous_" ++ timestamp ++ "_" ++ PyStr.take 8 (hex u))) ;;
  let conversion_dir := PosixPath.join STORAGE_PATH dir_name in
  Os.makedirs conversion_dir ;;
  ret conversion_dir.

Definition _create_base_css (output_dir : string) : M string :=
  let css_dir := PosixPath.join output_dir "css" in
  Os.makedirs css_dir ;;
  let css_file := PosixPath.join css_dir "style.css" in
  Os.write_text css_file BASE_CSS ;;
  ret css_file.

(** The name under which a document is saved: [filename] with [.md]
    appended unless it ends with it. *)
Definition md_filename (filename : string) : string :=
  if negb (PyStr.endswith filename ".md") then filename ++ ".md" else filename.

(** The name of the page of a document. *)
Definition html_filename (filename : string) : string :=
  PyStr.replace (md_filename filename) ".md" ".html".

(** The body of the loop of [convert_markdown_to_html]: one document saved
    and rendered. *)
Definition render (conversion_dir : string) (item : string * string) : M unit :=
  let (filename, md_content) := item in
  let filename := md_filename filename in
  let md_file_path := PosixPath.join conversion_dir filename in
  Os.write_text md_file_path md_content ;;
  let html_content := markdown md_content in
  let html_filename := PyStr.replace filename ".md" ".html" in
  let html_file_path := PosixPath.join conversion_dir html_filename in
  Os.write_text html_file_path (html_page html_filename html_content).

(** [content] is the list of the items of the dictionary, in its order. *)
Definition convert_markdown_to_html
    (content : list (string * string)) (user_id : option string)
  : M (string * string) :=
  conversion_dir <- _create_conversion_dir user_id ;;
  let conversion_id := PosixPath.basename conversion_dir in
  _create_base_css conversion_dir ;;
  for_each content (render conversion_dir) ;;
  ret (conversion_id, conversion_dir).

(** [zipf.write(file_path, arcname)] on the archive open at [zip_path],
    after the members [written]: the file is read and added. The archive on
    disk is kept equal to the encoding of the members written so far, which
    is what closing it leaves, also when the loop is left by an
    exception. *)
Definition zip_write (zip_path : string) (written : list (string * string))
    (file_path arcname : string) : M (list (string * string)) :=
  data <- Os.read_bytes file_path ;;
  let written := (written ++ [(arcname, data)])%list in
  Os.write_text zip_path (zip_bytes written) ;;
  ret written.

Definition create_zip (conversion_id : string) : M string :=
  let conversion_path := PosixPath.join STORAGE_PATH conversion_id in
  found <- Os.path_exists conversion_path ;;
  if negb found
  then raise (FileNotFoundError ("Conversion " ++ conversion_id ++ " not found"))
  else
    let zip_path := conversion_path ++ ".zip" in
    Os.write_text zip_path (zip_bytes []) ;;
    tree <- Os.walk conversion_path ;;
    for_fold tree
      (fun written '(root, _, files) =>
         for_fold files
           (fun written file =>
              let file_path := PosixPath.join root file in
              arcname <- Os.relpath file_path conversion_path ;;
              zip_write zip_path written file_path arcname)
           written)
      [] ;;
    ret zip_path.

Definition get_preview_url (conversion_id : string) : M string :=
  ret ("/preview/" ++ conversion_id).




(** ** What the properties are stated with *)

Definition is_digit (c : ascii) : bool :=
  let n := N_of_ascii c in ((48 <=? n) && (n <=? 57))%N.

(** A character of [[0-9a-f]]. *)
Definition lower_hex (c : ascii) : bool :=
  let n := N_of_ascii c in is_digit c || ((97 <=? n) && (n <=? 102))%N.

(** The number a string of decimal digits writes, after [acc]. *)
Fixpoint number (acc : N) (s : string) : N :=
  match s with
  | EmptyString => acc
  | String c s' => number (10 * acc + (N_of_ascii c - 48))%N s'
  end.

(** An identifier of the form [identity_stamp_suffix], the suffix eight
    characters of [[0-9a-f]]. *)
Definition id_has_form (identity stamp id : string) : Prop :=
  exists suffix,
    id = identity ++ "_" ++ stamp ++ "_" ++ suffix
    /\ String.length suffix = 8
    /\ PyStr.forallb lower_hex suffix = true.

(** The identity of an identifier as the specification words it: the hint
    when one is supplied, [anonymous] when none is. *)
Definition hint_or_anonymous (user_id : option string) : string :=
  match user_id with
  | Some hint => hint
  | None => "anonymous"
  end.

(** The identity of an identifier as the service makes it. *)
Definition identity_of (user_id : option string) : string :=
  if truthy user_id then format user_id else "anonymous".

(** The two files of each document of a batch, as [render] leaves them at
    time [now]: the markdown file, then the page. *)
Definition document_files (now : Q) (content : list (string * string))
  : list (string * node) :=
  List.flat_map
    (fun item =>
       [(md_filename (fst item), File now (snd item));
        (html_filename (fst item),
         File now (html_page (html_filename (fst item)) (markdown (snd item))))])
    content.

(** The [css] directory of a conversion made at time [now]. *)
Definition css_directory (now : Q) : node :=
  Dir now true [("style.css", File now BASE_CSS)].






(** Whether the names of a list are pairwise distinct. *)
Fixpoint distinct (names : list string) : bool :=
  match names with
  | [] => true
  | n :: rest => negb (List.existsb (String.eqb n) rest) && distinct rest
  end.

(** A tree as a file system keeps it: in every directory the names are
    plain and pairwise distinct. *)
Fixpoint well_formed (n : node) : bool :=
  match n with
  | File _ _ => true
  | Dir _ _ es =>
      List.forallb (fun e => PosixPath.plain_name (fst e)) es
      && distinct (Entries.names es)
      && List.forallb (fun e => well_formed (snd e)) es
  end.

(** The regular files of a tree, each with its path from the root of the
    tree (below [rel]) written with [/], and its bytes: the files of a
    directory first, then those of its subdirectories. *)
Fixpoint members (rel : list string) (n : node) : list (string * string) :=
  match n with
  | File _ _ => []
  | Dir _ _ es =>
      (List.flat_map
         (fun e => match snd e with
                   | File _ data => [(PyStr.join "/" (rel ++ [fst e]), data)]
                   | Dir _ _ _ => []
                   end)
         es
       ++ List.flat_map
            (fun e => if is_dir (snd e)
                      then members (rel ++ [fst e]) (snd e)
                      else [])
            es)%list
  end.

(** Whether a regular file of a given name can be written in a
    directory: the name is that of a regular file, or it is free and the
    directory is writable. *)
Definition can_write (name : string) (n : node) : bool :=
  match n with
  | File _ _ => false
  | Dir _ w es =>
      match Entries.lookup name es with
      | Some (File _ _) => true
      | Some (Dir _ _ _) => false
      | None => w
      end
  end.

(** A directory with a regular file of a given name written in it. *)
Definition with_file (now : Q) (name data : string) (n : node) : node :=
  snd (Fs.write_entry now data name n).

(** The world with a regular file of a given name written in the directory
    at [d]. *)
Definition write_in (d : list string) (name data : string) (w : world) : world :=
  match Fs.find d (fs w) with
  | inr n => set_fs w (Fs.plug d (with_file (posix (clock w)) name data n) (fs w))
  | inl _ => w
  end.



(** A node put under a name of a listing: in the place of the entry of that
    name, or at the end when the name is free. *)
Definition put (name : string) (v : node) (es : list (string * node))
  : list (string * node) :=
  match Entries.lookup name es with
  | Some _ => Entries.set name v es
  | None => (es ++ [(name, v)])%list
  end.

(** The directories of a listing are named [css]. *)
Definition css_only (acc : list (string * node)) : Prop :=
  forall n x, Entries.lookup n acc = Some x -> is_dir x = true -> n = "css".

(** The page of a document. *)
Definition page_of (item : string * string) : string :=
  html_page (html_filename (fst item)) (markdown (snd item)).

(** A listing after the documents of a batch are rendered into it, in
    order, at time [now]: each puts its markdown file, then its page. *)
Definition rendered (now : Q) (content : list (string * string))
    (acc : list (string * node)) : list (string * node) :=
  List.fold_left
    (fun acc item =>
       put (html_filename (fst item)) (File now (page_of item))
         (put (md_filename (fst item)) (File now (snd item)) acc))
    content acc.


(** ** Sample data *)

Definition sample_markdown (text : string) : string := "<p>" ++ text ++ "</p>".

Definition sample_zip_bytes (members : list (string * string)) : string :=
  PyStr.join ";" (List.map (fun m => fst m ++ "=" ++ snd m) members).

(** 2024-01-01T00:00:00 *)
Definition new_year : datetime := mkDatetime 2024 1 1 0 0 0 (1704067200 # 1).

Definition sample_entropy (i : nat) : N :=
  match i with
  | O => 182996295014842519613913876174221606912%N
  | S _ => 24197857161011715162171839636988778104%N
  end.

(** An empty storage root [storage] under the working directory. *)
Definition empty_world : world :=
  mkWorld (Dir 0 true [("storage", Dir 0 true [])]) new_year sample_entropy 0.

(** A world whose storage root [storage] has the given entries. *)
Definition stored (ws : bool) (es : list (string * node)) : world :=
  mkWorld (Dir 0 true [("storage", Dir 0 ws es)]) new_year sample_entropy 0.

(** A conversion with the files [a] and [b/c]. *)
Definition small_site : node :=
  Dir 1704000000 true
    [("a", File 1704000000 "alpha");
     ("b", Dir 1704000000 true [("c", File 1704000000 "gamma")])].


(* ================================================================ *)
(** * Part II: properties *)
(* ================================================================ *)

Arguments Ascii.eqb : simpl never.
Arguments String.eqb : simpl never.

(** ** Strings *)

Lemma append_nil_r (s : string) : s ++ "" = s.
Proof. induction s; simpl; congruence. Qed.

Lemma append_assoc (a b c : string) : (a ++ b) ++ c = a ++ b ++ c.
Proof. induction a; simpl; congruence. Qed.

Lemma length_append (a b : string) :
  String.length (a ++ b) = String.length a + String.length b.
Proof. induction a; simpl; congruence. Qed.

Lemma append_inv_head (a b c : string) : a ++ b = a ++ c -> b = c.
Proof. induction a; simpl; intros H; [assumption | injection H; auto]. Qed.

Lemma startswith_app (p s : string) : PyStr.startswith (p ++ s) p = true.
Proof. induction p; simpl; [reflexivity | now rewrite Ascii.eqb_refl]. Qed.

Lemma startswith_inv (s p : string) :
  PyStr.startswith s p = true -> exists r, s = p ++ r.
Proof.
  revert s; induction p as [|c p IH]; intros s H; simpl in *.
  - now exists s.
  - destruct s as [|d s]; [discriminate|].
    apply andb_true_iff in H as [Hc Hs]. apply Ascii.eqb_eq in Hc; subst d.
    destruct (IH _ Hs) as [r ->]. now exists r.
Qed.

Lemma contains_here (s sub : string) :
  PyStr.startswith s sub = true -> PyStr.contains s sub = true.
Proof. intros H; destruct s; simpl in *; rewrite H; reflexivity. Qed.

Lemma contains_app (a sub b : string) : PyStr.contains (a ++ sub ++ b) sub = true.
Proof.
  induction a as [|c a IH]; simpl.
  - apply contains_here, startswith_app.
  - rewrite IH. apply orb_true_r.
Qed.

Lemma mem_app (c : ascii) (a b : string) :
  PyStr.mem c (a ++ b) = PyStr.mem c a || PyStr.mem c b.
Proof. induction a; simpl; [reflexivity | now rewrite IHa, orb_assoc]. Qed.

Lemma forallb_app (p : ascii -> bool) (a b : string) :
  PyStr.forallb p (a ++ b) = PyStr.forallb p a && PyStr.forallb p b.
Proof. induction a; simpl; [reflexivity | now rewrite IHa, andb_assoc]. Qed.

Lemma forallb_take (p : ascii -> bool) (n : nat) (s : string) :
  PyStr.forallb p s = true -> PyStr.forallb p (PyStr.take n s) = true.
Proof.
  revert n; induction s as [|c s IH]; intros [|n] H; simpl in *; auto.
  apply andb_true_iff in H as [-> H]. now apply IH.
Qed.

Lemma length_take (n : nat) (s : string) :
  n <= String.length s -> String.length (PyStr.take n s) = n.
Proof.
  revert n; induction s as [|c s IH]; intros [|n] H; simpl in *; try lia.
  rewrite IH; lia.
Qed.

(** A character that satisfies [p] is no character [c] that does not. *)
Lemma forallb_mem (p : ascii -> bool) (c : ascii) (s : string) :
  p c = false -> PyStr.forallb p s = true -> PyStr.mem c s = false.
Proof.
  intros Hc; induction s as [|d s IH]; simpl; [reflexivity|].
  intros H; apply andb_true_iff in H as [Hd Hs].
  rewrite (IH Hs), orb_false_r. apply Ascii.eqb_neq. congruence.
Qed.

Lemma endswith_app (a p : string) : PyStr.endswith (a ++ p) p = true.
Proof.
  induction a as [|c a IH]; simpl.
  - destruct p; [reflexivity|].
    cbn [PyStr.endswith append]. now rewrite String.eqb_refl.
  - rewrite IH. apply orb_true_r.
Qed.

Lemma endswith_inv (s p : string) :
  PyStr.endswith s p = true -> exists a, s = a ++ p.
Proof.
  induction s as [|c s IH]; cbn [PyStr.endswith]; intros H.
  - apply String.eqb_eq in H; subst. now exists "".
  - apply orb_true_iff in H as [H|H].
    + apply String.eqb_eq in H. exists "". simpl. congruence.
    + destruct (IH H) as [a ->]. now exists (String c a).
Qed.

(** ** Paths *)

Lemma split_nonempty (p : string) : PosixPath.split p <> [].
Proof.
  destruct p as [|c p]; simpl; [discriminate|].
  destruct (Ascii.eqb c PosixPath.sep); [discriminate|].
  destruct (PosixPath.split p); discriminate.
Qed.

Lemma split_app_sep (a b : string) :
  PosixPath.split (a ++ String PosixPath.sep b)
  = (PosixPath.split a ++ PosixPath.split b)%list.
Proof.
  induction a as [|c a IH]; simpl.
  - reflexivity.
  - destruct (Ascii.eqb c PosixPath.sep) eqn:E.
    + simpl. now rewrite IH.
    + rewrite IH. pose proof (split_nonempty a) as Ha.
      destruct (PosixPath.split a); [contradiction | reflexivity].
Qed.

Lemma split_plain (n : string) :
  PyStr.mem PosixPath.sep n = false -> PosixPath.split n = [n].
Proof.
  induction n as [|c n IH]; simpl; intros H; [reflexivity|].
  apply orb_false_iff in H as [Hc Hn].
  rewrite Ascii.eqb_sym, Hc. now rewrite (IH Hn).
Qed.

Lemma plain_name_inv (n : string) :
  PosixPath.plain_name n = true ->
  n <> "" /\ n <> "." /\ n <> ".."
  /\ PyStr.mem PosixPath.sep n = false /\ PyStr.mem PosixPath.nul n = false.
Proof.
  unfold PosixPath.plain_name; intros H.
  repeat (apply andb_true_iff in H as [H ?]).
  repeat match goal with
         | H : negb _ = true |- _ => apply negb_true_iff in H
         end.
  repeat split; try assumption; now apply String.eqb_neq.
Qed.

Lemma step_plain (acc : list string) (n : string) :
  PosixPath.plain_name n = true -> PosixPath.step acc n = (acc ++ [n])%list.
Proof.
  intros H; apply plain_name_inv in H as (H1 & H2 & H3 & _).
  unfold PosixPath.step.
  apply String.eqb_neq in H1, H2, H3. now rewrite H1, H2, H3.
Qed.

Lemma components_Some (p : string) (l : list string) :
  PosixPath.components p = Some l ->
  PyStr.mem PosixPath.nul p = false
  /\ l = fold_left PosixPath.step (PosixPath.split p) [].
Proof.
  unfold PosixPath.components.
  destruct (PyStr.mem PosixPath.nul p); [discriminate|].
  intros H; injection H as <-. auto.
Qed.

(** A plain name joined to a directory is one more step down. *)
Lemma components_join (d n : string) (sp : list string) :
  PosixPath.components d = Some sp ->
  PosixPath.plain_name n = true ->
  PosixPath.components (PosixPath.join d n) = Some (sp ++ [n])%list.
Proof.
  intros Hd Hn. pose proof (plain_name_inv _ Hn) as (Hne & _ & _ & Hsep & Hnul).
  apply components_Some in Hd as [Hdn ->].
  unfold PosixPath.join.
  assert (Hs : PyStr.startswith n (String PosixPath.sep "") = false).
  { destruct n as [|c n]; [reflexivity|]. simpl in *.
    apply orb_false_iff in Hsep as [Hc _].
    now rewrite Hc. }
  rewrite Hs.
  destruct (String.eqb d "") eqn:Ed; simpl.
  { apply String.eqb_eq in Ed; subst d. simpl.
    unfold PosixPath.components. rewrite Hnul, (split_plain _ Hsep). simpl.
    now rewrite step_plain. }
  destruct (PyStr.endswith d (String PosixPath.sep "")) eqn:Ee.
  - apply endswith_inv in Ee as [a ->].
    rewrite append_assoc. simpl.
    unfold PosixPath.components.
    rewrite mem_app in Hdn |- *. simpl in *. rewrite Hnul.
    destruct (PyStr.mem PosixPath.nul a); [discriminate|]. simpl.
    rewrite !split_app_sep, (split_plain _ Hsep). simpl.
    rewrite !fold_left_app. simpl. now rewrite step_plain.
  - unfold PosixPath.components.
    rewrite mem_app. simpl. rewrite Hdn, Hnul. simpl.
    rewrite split_app_sep, (split_plain _ Hsep), fold_left_app. simpl.
    now rewrite step_plain.
Qed.

Lemma plain_name_app (n s : string) :
  PosixPath.plain_name n = true ->
  PyStr.mem PosixPath.sep s = false -> PyStr.mem PosixPath.nul s = false ->
  s <> "" -> PyStr.mem "."%char s = true ->
  String.length s > 2 ->
  PosixPath.plain_name (n ++ s) = true.
Proof.
  intros Hn Hs1 Hs2 Hs Hdot Hlen.
  apply plain_name_inv in Hn as (Hne & _ & _ & Hsep & Hnul).
  unfold PosixPath.plain_name. rewrite !mem_app, Hsep, Hnul, Hs1, Hs2. simpl.
  assert (L : String.length (n ++ s) > 2) by (rewrite length_append; lia).
  repeat (apply andb_true_iff; split); try reflexivity;
    apply negb_true_iff, String.eqb_neq; intros E; rewrite E in L;
    simpl in L; lia.
Qed.

Lemma join_app (d n s : string) :
  PosixPath.plain_name n = true ->
  PosixPath.join d (n ++ s) = PosixPath.join d n ++ s.
Proof.
  intros Hn. apply plain_name_inv in Hn as (Hne & _ & _ & Hsep & _).
  unfold PosixPath.join. destruct n as [|c n]; [congruence|].
  simpl in *. apply orb_false_iff in Hsep as [Hc _]. rewrite Hc. simpl.
  destruct (String.eqb d "" || PyStr.endswith d (String PosixPath.sep "")).
  - now rewrite append_assoc.
  - rewrite append_assoc. reflexivity.
Qed.

Lemma last_app_nonempty {A} (l1 l2 : list A) (d : A) :
  l2 <> [] -> List.last (l1 ++ l2) d = List.last l2 d.
Proof.
  intros H. induction l1 as [|x l1 IH]; simpl; [reflexivity|].
  rewrite IH. destruct (l1 ++ l2)%list eqn:E; [|reflexivity].
  apply app_eq_nil in E as [_ ?]. contradiction.
Qed.

(** The base name of a joined path is the base name of what was joined. *)
Lemma basename_join (d n : string) :
  PosixPath.basename (PosixPath.join d n) = PosixPath.basename n.
Proof.
  unfold PosixPath.basename, PosixPath.join.
  destruct (PyStr.startswith n (String PosixPath.sep "")); [reflexivity|].
  destruct (String.eqb d "") eqn:Ed; simpl.
  { apply String.eqb_eq in Ed; now subst. }
  destruct (PyStr.endswith d (String PosixPath.sep "")) eqn:Ee.
  - apply endswith_inv in Ee as [a ->]. rewrite append_assoc. simpl.
    rewrite split_app_sep. apply last_app_nonempty, split_nonempty.
  - rewrite split_app_sep. apply last_app_nonempty, split_nonempty.
Qed.

Lemma basename_plain (n : string) :
  PyStr.mem PosixPath.sep n = false -> PosixPath.basename n = n.
Proof. intros H. unfold PosixPath.basename. now rewrite split_plain. Qed.

(** ** Listings *)

Lemma lookup_set_same (n : string) (v x : node) es :
  Entries.lookup n es = Some x -> Entries.lookup n (Entries.set n v es) = Some v.
Proof.
  induction es as [|[k y] es IH]; simpl; [discriminate|].
  destruct (String.eqb k n) eqn:E; simpl; rewrite E; auto.
Qed.

Lemma lookup_set_other (n n' : string) (v : node) es :
  n <> n' -> Entries.lookup n' (Entries.set n v es) = Entries.lookup n' es.
Proof.
  intros Hn. induction es as [|[k y] es IH]; simpl; [reflexivity|].
  destruct (String.eqb k n) eqn:E; simpl.
  - apply String.eqb_eq in E; subst k.
    apply String.eqb_neq in Hn. now rewrite Hn.
  - now rewrite IH.
Qed.

Lemma set_lookup_id (n : string) (x : node) es :
  Entries.lookup n es = Some x -> Entries.set n x es = es.
Proof.
  induction es as [|[k y] es IH]; simpl; [reflexivity|].
  destruct (String.eqb k n) eqn:E; intros H.
  - now injection H as ->.
  - now rewrite IH.
Qed.

Lemma set_set (n : string) (v1 v2 : node) es :
  Entries.set n v2 (Entries.set n v1 es) = Entries.set n v2 es.
Proof.
  induction es as [|[k y] es IH]; simpl; [reflexivity|].
  destruct (String.eqb k n) eqn:E; simpl; rewrite E; [reflexivity|].
  now rewrite IH.
Qed.

Lemma set_absent (n : string) (v : node) es :
  Entries.lookup n es = None -> Entries.set n v es = es.
Proof.
  induction es as [|[k y] es IH]; simpl; [reflexivity|].
  destruct (String.eqb k n); [discriminate|]. intros H. now rewrite IH.
Qed.

Lemma names_set (n : string) (v : node) es :
  Entries.names (Entries.set n v es) = Entries.names es.
Proof.
  unfold Entries.names.
  induction es as [|[k y] es IH]; simpl; [reflexivity|].
  destruct (String.eqb k n); simpl; [reflexivity|]. now rewrite IH.
Qed.

Lemma lookup_app (n : string) es es' :
  Entries.lookup n (es ++ es')
  = match Entries.lookup n es with
    | Some v => Some v
    | None => Entries.lookup n es'
    end.
Proof.
  induction es as [|[k y] es IH]; simpl; [reflexivity|].
  destruct (String.eqb k n); auto.
Qed.



Lemma lookup_None_names (n : string) es :
  Entries.lookup n es = None <-> ~ In n (Entries.names es).
Proof.
  induction es as [|[k y] es IH]; simpl.
  - split; [intros _ [] | reflexivity].
  - destruct (String.eqb k n) eqn:E.
    + apply String.eqb_eq in E. split; [discriminate|].
      intros H. exfalso. apply H. now left.
    + apply String.eqb_neq in E. split.
      * intros H [H1|H1]; [contradiction | now apply IH in H].
      * intros H. apply IH. intros H1. apply H. now right.
Qed.

Lemma lookup_Some_In (n : string) (x : node) es :
  Entries.lookup n es = Some x -> In (n, x) es.
Proof.
  induction es as [|[k y] es IH]; simpl; [discriminate|].
  destruct (String.eqb k n) eqn:E; intros H.
  - apply String.eqb_eq in E. injection H as ->. left; congruence.
  - right; auto.
Qed.

Lemma In_lookup (n : string) (x : node) es :
  NoDup (Entries.names es) -> In (n, x) es -> Entries.lookup n es = Some x.
Proof.
  induction es as [|[k y] es IH]; simpl; [intros _ []|].
  intros Hnd [H|H].
  - injection H as -> ->. now rewrite String.eqb_refl.
  - inversion Hnd as [|? ? Hk Hnd']; subst.
    destruct (String.eqb k n) eqn:E; [|auto].
    apply String.eqb_eq in E; subst k. exfalso. apply Hk.
    change n with (fst (n, x)). now apply in_map.
Qed.

(** ** The tree *)

Lemma find_app (p q : list string) (n : node) :
  Fs.find (p ++ q) n
  = match Fs.find p n with
    | inr m => Fs.find q m
    | inl e => inl e
    end.
Proof.
  revert n; induction p as [|name p IH]; intros n; simpl; [reflexivity|].
  destruct n as [|m w es]; [reflexivity|].
  destruct (Entries.lookup name es); auto.
Qed.

Lemma find_cons_inv (name : string) (p : list string) (n x : node) :
  Fs.find (name :: p) n = inr x ->
  exists m w es c, n = Dir m w es /\ Entries.lookup name es = Some c
                   /\ Fs.find p c = inr x.
Proof.
  simpl. destruct n as [|m w es]; [discriminate|].
  destruct (Entries.lookup name es) as [c|] eqn:E; [|discriminate].
  intros H. now exists m, w, es, c.
Qed.

Lemma find_plug (p : list string) (n x y : node) :
  Fs.find p n = inr x -> Fs.find p (Fs.plug p y n) = inr y.
Proof.
  revert n; induction p as [|name p IH]; intros n H; [reflexivity|].
  apply find_cons_inv in H as (m & w & es & c & -> & Hc & Hx).
  simpl. rewrite Hc. simpl. rewrite (lookup_set_same _ _ _ _ Hc). eauto.
Qed.

Lemma plug_plug (p : list string) (n x y z : node) :
  Fs.find p n = inr x -> Fs.plug p z (Fs.plug p y n) = Fs.plug p z n.
Proof.
  revert n; induction p as [|name p IH]; intros n H; [reflexivity|].
  apply find_cons_inv in H as (m & w & es & c & -> & Hc & Hx).
  simpl. rewrite Hc. simpl. rewrite (lookup_set_same _ _ _ _ Hc), set_set.
  now rewrite (IH _ Hx).
Qed.

Lemma plug_self (p : list string) (n x : node) :
  Fs.find p n = inr x -> Fs.plug p x n = n.
Proof.
  revert n; induction p as [|name p IH]; intros n H.
  - simpl in *. congruence.
  - apply find_cons_inv in H as (m & w & es & c & -> & Hc & Hx).
    simpl. rewrite Hc, (IH _ Hx). now rewrite set_lookup_id.
Qed.

(** An operation in a directory below [p] is the operation from the node
    at [p], and the tree around that node stays. *)
Lemma at_parent_focus (p q : list string) f (n d : node) :
  Fs.find p n = inr d -> q <> [] ->
  Fs.at_parent (p ++ q) f n
  = (fst (Fs.at_parent q f d), Fs.plug p (snd (Fs.at_parent q f d)) n).
Proof.
  intros H Hq. revert n H; induction p as [|name p IH]; intros n H.
  - simpl in *. injection H as ->. now destruct (Fs.at_parent q f d).
  - apply find_cons_inv in H as (m & w & es & c & -> & Hc & Hx).
    change ((name :: p) ++ q)%list with (name :: (p ++ q))%list.
    specialize (IH _ Hx).
    destruct (p ++ q)%list eqn:E.
    { apply app_eq_nil in E as [_ ?]; contradiction. }
    cbn [Fs.at_parent Fs.plug] in *. rewrite Hc, IH. reflexivity.
Qed.

Lemma makedirs_focus now (p q : list string) (n d : node) :
  Fs.find p n = inr d ->
  Fs.makedirs now (p ++ q) n
  = (fst (Fs.makedirs now q d), Fs.plug p (snd (Fs.makedirs now q d)) n).
Proof.
  revert n; induction p as [|name p IH]; intros n H.
  - simpl in *. injection H as ->. now destruct (Fs.makedirs now q d).
  - apply find_cons_inv in H as (m & w & es & c & -> & Hc & Hx).
    simpl. rewrite Hc, (IH _ Hx). reflexivity.
Qed.

Lemma find_focus (p q : list string) (n d : node) :
  Fs.find p n = inr d -> Fs.find (p ++ q) n = Fs.find q d.
Proof. intros H. now rewrite find_app, H. Qed.

Lemma plug_app (p q : list string) (n d x : node) :
  Fs.find p n = inr d -> Fs.plug (p ++ q) x n = Fs.plug p (Fs.plug q x d) n.
Proof.
  revert n; induction p as [|name p IH]; intros n H.
  - simpl in *. congruence.
  - apply find_cons_inv in H as (m & w & es & c & -> & Hc & Hx).
    simpl. rewrite Hc. now rewrite (IH _ Hx).
Qed.

(** ** Computations *)

Lemma bind_Ok {A B} (c : M A) (k : A -> M B) (w w' : world) (a : A) :
  c w = (Ok a, w') -> bind c k w = k a w'.
Proof. unfold bind. now intros ->. Qed.

Lemma bind_Raise {A B} (c : M A) (k : A -> M B) (w w' : world) (e : exn) :
  c w = (Raise e, w') -> bind c k w = (Raise e, w').
Proof. unfold bind. now intros ->. Qed.

Lemma for_fold_app {A S} (l1 l2 : list A) (body : S -> A -> M S) (s : S)
    (w : world) :
  for_fold (l1 ++ l2) body s w
  = (s' <- for_fold l1 body s ;; for_fold l2 body s') w.
Proof.
  revert s w; induction l1 as [|x l1 IH]; intros s w; simpl.
  - reflexivity.
  - unfold bind in *. destruct (body s x w) as [[s'|e] w']; [|reflexivity].
    apply IH.
Qed.


Lemma commit_None (path : string) (n : node) (w : world) :
  Os.commit path (None, n) w = (Ok tt, set_fs w n).
Proof. reflexivity. Qed.

Lemma commit_Some (path : string) (e : errno) (n : node) (w : world) :
  Os.commit path (Some e, n) w = (Raise (OSError e path), set_fs w n).
Proof. reflexivity. Qed.

Lemma set_fs_set_fs (w : world) (n n' : node) :
  set_fs (set_fs w n) n' = set_fs w n'.
Proof. reflexivity. Qed.

Lemma set_fs_self (w : world) : set_fs w (fs w) = w.
Proof. now destruct w. Qed.

(** The operations of [os] on a path below a directory [d] of the tree
    act on that directory alone. *)
Section Focus.

Variables (path : string) (d q : list string) (D : node) (w : world).
Hypothesis Hpath : PosixPath.components path = Some (d ++ q)%list.
Hypothesis HD : Fs.find d (fs w) = inr D.

Lemma resolve_ok : Os.resolve path w = (Ok (d ++ q)%list, w).
Proof. unfold Os.resolve. now rewrite Hpath. Qed.

Lemma write_text_focus (data : string) :
  q <> [] ->
  let r := Fs.at_parent q (Fs.write_entry (posix (clock w)) data) D in
  Os.write_text path data w
  = Os.commit path (fst r, Fs.plug d (snd r) (fs w)) w.
Proof.
  intros Hq r. unfold Os.write_text.
  rewrite (bind_Ok _ _ _ _ _ resolve_ok).
  unfold bind, Os.now_posix. now rewrite (at_parent_focus _ _ _ _ _ HD Hq).
Qed.



Lemma makedirs_focus_os :
  let r := Fs.makedirs (posix (clock w)) q D in
  Os.makedirs path w = Os.commit path (fst r, Fs.plug d (snd r) (fs w)) w.
Proof.
  intros r. unfold Os.makedirs.
  rewrite (bind_Ok _ _ _ _ _ resolve_ok).
  unfold bind, Os.now_posix. now rewrite (makedirs_focus _ _ _ _ _ HD).
Qed.

Lemma path_exists_focus :
  Os.path_exists path w
  = (Ok (match Fs.find q D with inr _ => true | inl _ => false end), w).
Proof.
  unfold Os.path_exists. rewrite Hpath, (find_focus _ _ _ _ HD).
  now destruct (Fs.find q D).
Qed.



Lemma read_bytes_focus (m : Q) (data : string) :
  Fs.find q D = inr (File m data) -> Os.read_bytes path w = (Ok data, w).
Proof.
  intros Hn. unfold Os.read_bytes.
  rewrite (bind_Ok _ _ _ _ _ resolve_ok).
  now rewrite (find_focus _ _ _ _ HD), Hn.
Qed.

End Focus.

(** ** Reading what was written *)

Lemma find_file_nil (p : list string) (m : Q) (x : string) (n : node) :
  Fs.find p (File m x) = inr n -> p = [].
Proof. destruct p; simpl; [reflexivity | discriminate]. Qed.

Lemma write_entry_find now data (name : string) (n n' : node) :
  Fs.write_entry now data name n = (None, n') ->
  Fs.find [name] n' = inr (File now data).
Proof.
  unfold Fs.write_entry. destruct n as [|m w es]; [discriminate|].
  destruct (Entries.lookup name es) as [[|]|] eqn:E; try discriminate.
  - intros H; injection H as <-. simpl.
    now rewrite (lookup_set_same _ _ _ _ E).
  - destruct w; [|discriminate]. intros H; injection H as <-. simpl.
    rewrite lookup_app, E. simpl. now rewrite String.eqb_refl.
Qed.

Lemma at_parent_cons (name : string) (p : list string) f (n : node) :
  p <> [] ->
  Fs.at_parent (name :: p) f n
  = match n with
    | File _ _ => (Some ENOTDIR, n)
    | Dir m w es =>
        match Entries.lookup name es with
        | None => (Some ENOENT, n)
        | Some child =>
            let (e, child') := Fs.at_parent p f child in
            (e, Dir m w (Entries.set name child' es))
        end
    end.
Proof. destruct p; [congruence | reflexivity]. Qed.

Lemma at_parent_write_find now data (p : list string) (n n' : node) :
  Fs.at_parent p (Fs.write_entry now data) n = (None, n') ->
  Fs.find p n' = inr (File now data).
Proof.
  revert n n'; induction p as [|name p IH]; intros n n' H; [discriminate|].
  destruct p as [|name' p].
  - now apply write_entry_find in H.
  - rewrite at_parent_cons in H by discriminate.
    destruct n as [|m w es]; [discriminate|].
    destruct (Entries.lookup name es) as [c|] eqn:E; [|discriminate].
    destruct (Fs.at_parent (name' :: p) _ c) as [e c'] eqn:Ec.
    injection H as -> <-.
    cbn [Fs.find]. rewrite (lookup_set_same _ _ _ _ E). eauto.
Qed.

(** A write leaves the other regular files as they are. *)
Lemma at_parent_write_frame now data (p2 p1 : list string) (n n' : node)
    (m : Q) (x : string) :
  Fs.at_parent p2 (Fs.write_entry now data) n = (None, n') ->
  p1 <> p2 ->
  Fs.find p1 n = inr (File m x) -> Fs.find p1 n' = inr (File m x).
Proof.
  revert p1 n n'; induction p2 as [|name2 p2 IH]; intros p1 n n' H Hne Hf;
    [discriminate|].
  destruct n as [|mn w es].
  { destruct p2; discriminate. }
  destruct p1 as [|name1 p1]; [discriminate|].
  cbn [Fs.find] in Hf.
  destruct (Entries.lookup name1 es) as [c1|] eqn:E1; [|discriminate].
  destruct p2 as [|name2' p2].
  - cbn [Fs.at_parent Fs.write_entry] in H.
    destruct (String.eqb name2 name1) eqn:En.
    + apply String.eqb_eq in En; subst name2. rewrite E1 in H.
      destruct c1 as [mc xc|]; [|discriminate].
      apply find_file_nil in Hf. congruence.
    + apply String.eqb_neq in En.
      destruct (Entries.lookup name2 es) as [[|]|] eqn:E2; try discriminate.
      * injection H as <-. cbn [Fs.find].
        now rewrite (lookup_set_other _ _ _ _ En), E1.
      * destruct w; [|discriminate]. injection H as <-. cbn [Fs.find].
        now rewrite lookup_app, E1.
  - rewrite at_parent_cons in H by discriminate.
    destruct (Entries.lookup name2 es) as [c2|] eqn:E2; [|discriminate].
    destruct (Fs.at_parent (name2' :: p2) _ c2) as [e c2'] eqn:Ec.
    injection H as -> <-. cbn [Fs.find].
    destruct (String.eqb name2 name1) eqn:En.
    + apply String.eqb_eq in En; subst name2.
      rewrite (lookup_set_same _ _ _ _ E2).
      assert (c1 = c2) by congruence; subst c1.
      eapply IH; eauto. congruence.
    + apply String.eqb_neq in En.
      now rewrite (lookup_set_other _ _ _ _ En), E1.
Qed.

(** Writing to a file the bytes and the time it has changes nothing. *)
Lemma at_parent_write_same now data (p : list string) (n : node) :
  p <> [] ->
  Fs.find p n = inr (File now data) ->
  Fs.at_parent p (Fs.write_entry now data) n = (None, n).
Proof.
  revert n; induction p as [|name p IH]; intros n Hp H; [congruence|].
  apply find_cons_inv in H as (m & w & es & c & -> & Hc & Hx).
  destruct p as [|name' p].
  - simpl in Hx. injection Hx as ->. cbn [Fs.at_parent Fs.write_entry].
    rewrite Hc. now rewrite set_lookup_id.
  - rewrite at_parent_cons by discriminate. rewrite Hc.
    rewrite (IH c) by (discriminate || assumption).
    now rewrite set_lookup_id.
Qed.

Lemma write_text_inv (path data : string) (w w' : world) :
  Os.write_text path data w = (Ok tt, w') ->
  exists p n',
    PosixPath.components path = Some p
    /\ Fs.at_parent p (Fs.write_entry (posix (clock w)) data) (fs w) = (None, n')
    /\ w' = set_fs w n'.
Proof.
  unfold Os.write_text, bind, Os.resolve, Os.now_posix.
  destruct (PosixPath.components path) as [p|]; [|discriminate].
  unfold ret. unfold Os.commit.
  destruct (Fs.at_parent p _ (fs w)) as [[e|] n'] eqn:E; [discriminate|].
  intros H; injection H as <-. now exists p, n'.
Qed.

Lemma write_text_same (path data : string) (p : list string) (w : world) :
  PosixPath.components path = Some p -> p <> [] ->
  Fs.find p (fs w) = inr (File (posix (clock w)) data) ->
  Os.write_text path data w = (Ok tt, w).
Proof.
  intros Hp Hn Hf. unfold Os.write_text, bind, Os.resolve, Os.now_posix.
  rewrite Hp. unfold ret. rewrite (at_parent_write_same _ _ _ _ Hn Hf).
  cbn [Os.commit]. now rewrite set_fs_self.
Qed.

Lemma read_bytes_find (path : string) (p : list string) (w : world)
    (m : Q) (data : string) :
  PosixPath.components path = Some p ->
  Fs.find p (fs w) = inr (File m data) ->
  Os.read_bytes path w = (Ok data, w).
Proof.
  intros Hp Hf. unfold Os.read_bytes, bind, Os.resolve.
  rewrite Hp. unfold ret. now rewrite Hf.
Qed.

(** ** The names of the two files of a document *)

Lemma append_inv_last (x y : string) (c d : ascii) :
  x ++ String c "" = y ++ String d "" -> x = y /\ c = d.
Proof.
  revert y; induction x as [|a x IH]; intros [|b y] H; simpl in H.
  - injection H as ->. auto.
  - injection H as -> H. destruct y; discriminate.
  - injection H as -> H. destruct x; discriminate.
  - injection H as -> H. apply IH in H as [-> ->]. auto.
Qed.

Lemma md_neq_html (x y : string) : x ++ ".md" <> y ++ ".html".
Proof.
  change (x ++ ".md") with (x ++ ".m" ++ "d").
  change (y ++ ".html") with (y ++ ".htm" ++ "l").
  rewrite <- !append_assoc. intros H.
  apply append_inv_last in H as [_ H]. discriminate.
Qed.

Lemma replace_from_skip (k : nat) (old new s : string) :
  PyStr.replace_from k old new s = PyStr.replace_from 0 old new (PyStr.drop k s).
Proof.
  revert k; induction s as [|c s IH]; intros [|k]; try reflexivity.
  simpl. apply IH.
Qed.

(** The normalized name is some stem and [.md]. *)
Lemma md_filename_stem (filename : string) :
  exists a, md_filename filename = a ++ ".md".
Proof.
  unfold md_filename. destruct (PyStr.endswith filename ".md") eqn:E; simpl.
  - now apply endswith_inv.
  - now exists filename.
Qed.

(** What [replace] makes of a name that ends with [.md] ends with
    [.html]. *)
Lemma replace_md_ends (a : string) :
  exists b, PyStr.replace (a ++ ".md") ".md" ".html" = b ++ ".html".
Proof.
  unfold PyStr.replace.
  remember (String.length a) as k eqn:Hk.
  revert a Hk; induction k as [k IH] using lt_wf_ind; intros a Hk.
  destruct a as [|c1 a1].
  - now exists "".
  - cbn [append PyStr.replace_from].
    destruct (PyStr.startswith (String c1 (a1 ++ ".md")) ".md") eqn:Es.
    + cbn [PyStr.startswith] in Es.
      apply andb_true_iff in Es as [_ Es].
      destruct a1 as [|c2 [|c3 a2]]; cbn [append] in Es;
        try (apply andb_true_iff in Es as [E2 Es];
             apply andb_true_iff in Es as [E3 _];
             apply Ascii.eqb_eq in E2, E3; discriminate).
      simpl PyStr.replace_from.
      destruct (IH (String.length a2)) with (a := a2) as [b Hb];
        [simpl in Hk; lia | reflexivity |].
      rewrite Hb. now exists (".html" ++ b).
    + destruct (IH (String.length a1)) with (a := a1) as [b Hb];
        [simpl in Hk; lia | reflexivity |].
      rewrite Hb. now exists (String c1 b).
Qed.

Lemma html_filename_ends (filename : string) :
  exists b, html_filename filename = b ++ ".html".
Proof.
  unfold html_filename. destruct (md_filename_stem filename) as [a ->].
  apply replace_md_ends.
Qed.

Lemma split_app_plain (x s : string) :
  PyStr.mem PosixPath.sep s = false ->
  exists init lc,
    PosixPath.split x = (init ++ [lc])%list
    /\ PosixPath.split (x ++ s) = (init ++ [(lc ++ s)%string])%list.
Proof.
  intros Hs. induction x as [|c x (init & lc & H1 & H2)].
  - exists [], "". simpl. now rewrite split_plain.
  - cbn [append PosixPath.split].
    destruct (Ascii.eqb c PosixPath.sep).
    + exists ("" :: init), lc. now rewrite H1, H2.
    + rewrite H1, H2. destruct init as [|h t].
      * now exists [], (String c lc).
      * now exists (String c h :: t), lc.
Qed.

Lemma join_suffix (d a s : string) :
  exists x, PosixPath.join d (a ++ s) = x ++ s.
Proof.
  unfold PosixPath.join.
  destruct (PyStr.startswith (a ++ s) _); [now exists a|].
  destruct (_ || _).
  - exists (d ++ a). now rewrite append_assoc.
  - exists (d ++ String PosixPath.sep a). now rewrite append_assoc.
Qed.

(** A path that ends with an extension names an entry that ends with
    it. *)
Lemma components_suffix (x s : string) (l : list string) :
  PyStr.mem PosixPath.sep s = false -> String.length s > 2 ->
  PosixPath.components (x ++ s) = Some l ->
  exists l0 lc, l = (l0 ++ [(lc ++ s)%string])%list.
Proof.
  intros Hs Hlen H. apply components_Some in H as [_ ->].
  destruct (split_app_plain x s Hs) as (init & lc & _ & ->).
  rewrite fold_left_app. simpl.
  exists (fold_left PosixPath.step init []), lc.
  unfold PosixPath.step.
  assert (L : String.length (lc ++ s) > 2) by (rewrite length_append; lia).
  repeat match goal with
         | |- context [String.eqb ?u ?v] =>
             destruct (String.eqb_spec u v) as [E|_];
             [rewrite E in L; simpl in L; lia|]
         end.
  reflexivity.
Qed.

(** The markdown file and the page of a document are two files. *)
Lemma md_html_paths_differ (dir filename : string) (p1 p2 : list string) :
  PosixPath.components (PosixPath.join dir (md_filename filename)) = Some p1 ->
  PosixPath.components (PosixPath.join dir (html_filename filename)) = Some p2 ->
  p1 <> p2.
Proof.
  destruct (md_filename_stem filename) as [a ->].
  destruct (html_filename_ends filename) as [b ->].
  destruct (join_suffix dir a ".md") as [x ->].
  destruct (join_suffix dir b ".html") as [y ->].
  intros H1 H2.
  apply components_suffix in H1 as (l1 & c1 & ->); [|reflexivity | simpl; lia].
  apply components_suffix in H2 as (l2 & c2 & ->); [|reflexivity | simpl; lia].
  intros E. apply app_inj_tail in E as [_ E]. now apply md_neq_html in E.
Qed.

(** ** The page of a document *)

Lemma contains_skip (c : ascii) (s sub : string) :
  PyStr.contains s sub = true -> PyStr.contains (String c s) sub = true.
Proof. intros H. cbn [PyStr.contains]. rewrite H. apply orb_true_r. Qed.

Lemma contains_skip_app (x s sub : string) :
  PyStr.contains s sub = true -> PyStr.contains (x ++ s) sub = true.
Proof. intros H. induction x; simpl; [assumption | now apply contains_skip]. Qed.

Lemma startswith_app_both (x r p : string) :
  PyStr.startswith (x ++ r) (x ++ p) = PyStr.startswith r p.
Proof. induction x; simpl; [reflexivity | now rewrite Ascii.eqb_refl]. Qed.

Ltac here :=
  apply contains_here;
  solve [ reflexivity
        | cbn [PyStr.startswith append]; rewrite startswith_app_both;
          reflexivity
        | apply startswith_app ].

Ltac find_sub :=
  repeat first [ here | apply contains_skip | apply contains_skip_app ].

Lemma endswith_refl (p : string) : PyStr.endswith p p = true.
Proof. apply (endswith_app "" p). Qed.

Lemma endswith_skip (c : ascii) (s p : string) :
  PyStr.endswith s p = true -> PyStr.endswith (String c s) p = true.
Proof. intros H. cbn [PyStr.endswith]. rewrite H. apply orb_true_r. Qed.

Lemma endswith_skip_app (x s p : string) :
  PyStr.endswith s p = true -> PyStr.endswith (x ++ s) p = true.
Proof. intros H. induction x; simpl; [assumption | now apply endswith_skip]. Qed.

Lemma html_page_parts (name body : string) :
  let page := html_page name body in
  PyStr.startswith page "<!DOCTYPE html>" = true
  /\ PyStr.contains page ("<meta charset=" ++ PyStr.dq ++ "UTF-8" ++ PyStr.dq ++ ">")
     = true
  /\ PyStr.contains page
       ("<meta name=" ++ PyStr.dq ++ "viewport" ++ PyStr.dq ++ " content="
        ++ PyStr.dq ++ "width=device-width, initial-scale=1.0" ++ PyStr.dq ++ ">")
     = true
  /\ PyStr.contains page ("<title>" ++ name ++ "</title>") = true
  /\ PyStr.contains page
       ("<link rel=" ++ PyStr.dq ++ "stylesheet" ++ PyStr.dq ++ " href="
        ++ PyStr.dq ++ "css/style.css" ++ PyStr.dq ++ ">")
     = true
  /\ PyStr.contains page ("<body>" ++ PyStr.nl ++ "    " ++ body ++ PyStr.nl ++ "</body>")
     = true
  /\ PyStr.endswith page "</html>" = true.
Proof.
  unfold html_page, PyStr.dq, PyStr.nl. cbn [append].
  repeat apply conj.
  - reflexivity.
  - find_sub.
  - find_sub.
  - find_sub.
  - find_sub.
  - find_sub.
  - repeat first [ apply endswith_refl | apply endswith_skip
                 | apply endswith_skip_app ].
Qed.

Lemma render_inv (conversion_dir filename md_content : string) (w w' : world) :
  render conversion_dir (filename, md_content) w = (Ok tt, w') ->
  exists w1,
    Os.write_text (PosixPath.join conversion_dir (md_filename filename))
      md_content w = (Ok tt, w1)
    /\ Os.write_text (PosixPath.join conversion_dir (html_filename filename))
         (html_page (html_filename filename) (markdown md_content)) w1
       = (Ok tt, w').
Proof.
  unfold render, bind, html_filename.
  destruct (Os.write_text _ md_content w) as [[[]|e] w1]; [|discriminate].
  intros H. now exists w1.
Qed.

(** What the two files of a document hold once it is rendered. *)
Lemma render_files (conversion_dir filename md_content : string) (w w' : world) :
  render conversion_dir (filename, md_content) w = (Ok tt, w') ->
  exists p1 p2,
    PosixPath.components (PosixPath.join conversion_dir (md_filename filename))
    = Some p1
    /\ PosixPath.components (PosixPath.join conversion_dir (html_filename filename))
       = Some p2
    /\ p1 <> [] /\ p2 <> []
    /\ Fs.find p1 (fs w') = inr (File (posix (clock w)) md_content)
    /\ Fs.find p2 (fs w')
       = inr (File (posix (clock w))
                (html_page (html_filename filename) (markdown md_content)))
    /\ clock w' = clock w.
Proof.
  intros H. apply render_inv in H as (w1 & H1 & H2).
  apply write_text_inv in H1 as (p1 & n1 & Hp1 & Hw1 & ->).
  apply write_text_inv in H2 as (p2 & n2 & Hp2 & Hw2 & ->).
  simpl in Hw2. exists p1, p2.
  pose proof (md_html_paths_differ _ _ _ _ Hp1 Hp2) as Hne.
  repeat apply conj; auto.
  - intros ->. discriminate.
  - intros ->. discriminate.
  - simpl. eapply at_parent_write_frame; eauto.
    eapply at_parent_write_find; eauto.
  - simpl. eapply at_parent_write_find; eauto.
Qed.

(** C7. Once a document is rendered, the file at the name of its page
    holds a standalone HTML document around the rendered fragment: it opens
    with the doctype, declares the UTF-8 charset and the responsive
    viewport, has the name of the file as its title, links the stylesheet
    [css/style.css], and carries the fragment in its body. *)
Theorem page_is_standalone_document
    (conversion_dir filename md_content : string) (w w' : world) :
  render conversion_dir (filename, md_content) w = (Ok tt, w') ->
  let name := html_filename filename in
  let page := html_page name (markdown md_content) in
  Os.read_bytes (PosixPath.join conversion_dir name) w' = (Ok page, w')
  /\ PyStr.startswith page "<!DOCTYPE html>" = true
  /\ PyStr.contains page ("<meta charset=" ++ PyStr.dq ++ "UTF-8" ++ PyStr.dq ++ ">")
     = true
  /\ PyStr.contains page
       ("<meta name=" ++ PyStr.dq ++ "viewport" ++ PyStr.dq ++ " content="
        ++ PyStr.dq ++ "width=device-width, initial-scale=1.0" ++ PyStr.dq ++ ">")
     = true
  /\ PyStr.contains page ("<title>" ++ name ++ "</title>") = true
  /\ PyStr.contains page
       ("<link rel=" ++ PyStr.dq ++ "stylesheet" ++ PyStr.dq ++ " href="
        ++ PyStr.dq ++ "css/style.css" ++ PyStr.dq ++ ">")
     = true
  /\ PyStr.contains page ("<body>" ++ PyStr.nl ++ "    " ++ markdown md_content
                          ++ PyStr.nl ++ "</body>")
     = true
  /\ PyStr.endswith page "</html>" = true.
Proof.
  intros H name page.
  apply render_files in H as (p1 & p2 & _ & Hp2 & _ & _ & _ & Hf & _).
  split; [eapply read_bytes_find; eauto|].
  apply html_page_parts.
Qed.

(** C8. Rendering saves the markdown text as it is, and what the two files
    hold depends on the name and the text alone: two renders of the same
    document, in any two directories of any two worlds, leave the same
    bytes in the markdown file and the same bytes in the page; and a
    second render of the document in the place of the first changes
    nothing. *)
Theorem render_verbatim_and_idempotent
    (filename md_content : string)
    (dir1 dir2 : string) (w1 w1' w2 w2' : world) :
  render dir1 (filename, md_content) w1 = (Ok tt, w1') ->
  render dir2 (filename, md_content) w2 = (Ok tt, w2') ->
  Os.read_bytes (PosixPath.join dir1 (md_filename filename)) w1'
  = (Ok md_content, w1')
  /\ fst (Os.read_bytes (PosixPath.join dir2 (md_filename filename)) w2')
     = fst (Os.read_bytes (PosixPath.join dir1 (md_filename filename)) w1')
  /\ fst (Os.read_bytes (PosixPath.join dir2 (html_filename filename)) w2')
     = fst (Os.read_bytes (PosixPath.join dir1 (html_filename filename)) w1')
  /\ render dir1 (filename, md_content) w1' = (Ok tt, w1').
Proof.
  intros H1 H2.
  apply render_files in H1 as (p1 & q1 & Hp1 & Hq1 & Hn1 & Hm1 & Hf1 & Hg1 & Hc1).
  apply render_files in H2 as (p2 & q2 & Hp2 & Hq2 & _ & _ & Hf2 & Hg2 & _).
  rewrite (read_bytes_find _ _ _ _ _ Hp1 Hf1).
  rewrite (read_bytes_find _ _ _ _ _ Hp2 Hf2).
  rewrite (read_bytes_find _ _ _ _ _ Hq1 Hg1).
  rewrite (read_bytes_find _ _ _ _ _ Hq2 Hg2).
  repeat apply conj; try reflexivity.
  rewrite <- Hc1 in Hf1, Hg1.
  unfold render. fold (html_filename filename).
  rewrite (bind_Ok _ _ _ _ _ (write_text_same _ _ _ _ Hp1 Hn1 Hf1)).
  apply (write_text_same _ _ _ _ Hq1 Hm1 Hg1).
Qed.

(** C10. The preview reference of an identifier is [/preview/] and the
    identifier, in every world: nothing is looked up, nothing is written,
    nothing is raised, and the world plays no part in the answer. *)
Theorem get_preview_url_exact (conversion_id : string) (w : world) :
  get_preview_url conversion_id w = (Ok ("/preview/" ++ conversion_id), w)
  /\ forall w2 : world,
       fst (get_preview_url conversion_id w2)
       = fst (get_preview_url conversion_id w).
Proof. split; reflexivity. Qed.

(** ** Identifiers *)

Lemma length_fixed (base : N) (width : nat) (n : N) :
  String.length (fixed base width n) = width.
Proof.
  revert n; induction width as [|k IH]; intros n; simpl; [reflexivity|].
  rewrite length_append, IH. simpl. lia.
Qed.

Lemma digit_decimal (d : N) : (d < 10)%N -> is_digit (digit d) = true.
Proof.
  intros H. unfold is_digit, digit.
  destruct (N.ltb_spec d 10); [|lia].
  rewrite N_ascii_embedding by lia.
  apply andb_true_iff; split; apply N.leb_le; lia.
Qed.

Lemma digit_hex (d : N) : (d < 16)%N -> lower_hex (digit d) = true.
Proof.
  intros H. unfold lower_hex, is_digit, digit.
  destruct (N.ltb_spec d 10); rewrite N_ascii_embedding by lia.
  - apply orb_true_iff; left.
    apply andb_true_iff; split; apply N.leb_le; lia.
  - apply orb_true_iff; right.
    apply andb_true_iff; split; apply N.leb_le; lia.
Qed.

Lemma fixed_decimal (width : nat) (n : N) :
  PyStr.forallb is_digit (fixed 10 width n) = true.
Proof.
  revert n; induction width as [|k IH]; intros n; simpl; [reflexivity|].
  rewrite forallb_app, IH. simpl.
  rewrite digit_decimal; [reflexivity|]. apply N.mod_lt. lia.
Qed.

Lemma fixed_hex (width : nat) (n : N) :
  PyStr.forallb lower_hex (fixed 16 width n) = true.
Proof.
  revert n; induction width as [|k IH]; intros n; simpl; [reflexivity|].
  rewrite forallb_app, IH. simpl.
  rewrite digit_hex; [reflexivity|]. apply N.mod_lt. lia.
Qed.

Lemma number_app (acc : N) (a b : string) :
  number acc (a ++ b) = number (number acc a) b.
Proof. revert acc; induction a; intros acc; simpl; auto. Qed.

(** A number below [10 ^ width] is read back from its [width] digits. *)
Lemma number_fixed (width : nat) (acc n : N) :
  (n < 10 ^ N.of_nat width)%N ->
  number acc (fixed 10 width n) = (acc * 10 ^ N.of_nat width + n)%N.
Proof.
  revert acc n; induction width as [|k IH]; intros acc n H.
  - simpl in *. lia.
  - cbn [fixed]. rewrite number_app.
    rewrite Nat2N.inj_succ, N.pow_succ_r' in *.
    assert (Hq : (n / 10 < 10 ^ N.of_nat k)%N)
      by (apply N.Div0.div_lt_upper_bound; lia).
    rewrite (IH _ _ Hq). cbn [number].
    unfold digit. pose proof (N.mod_lt n 10 ltac:(lia)) as Hm.
    destruct (N.ltb_spec (n mod 10) 10); [|lia].
    rewrite N_ascii_embedding by lia.
    rewrite (N.add_comm 48), N.add_sub.
    rewrite (N.div_mod n 10) at 3 by discriminate. ring.
Qed.

Lemma strftime_shape (t : datetime) :
  String.length (strftime_YmdHMS t) = 14
  /\ PyStr.forallb is_digit (strftime_YmdHMS t) = true.
Proof.
  unfold strftime_YmdHMS. split.
  - rewrite !length_append, !length_fixed. reflexivity.
  - rewrite !forallb_app, !fixed_decimal. reflexivity.
Qed.

(** The fourteen digits read as year, month, day, hour, minute, second. *)
Lemma strftime_number (t : datetime) :
  valid_datetime t ->
  number 0 (strftime_YmdHMS t)
  = (year t * 10 ^ 10 + month t * 10 ^ 8 + day t * 10 ^ 6
     + hour t * 10 ^ 4 + minute t * 10 ^ 2 + second t)%N.
Proof.
  intros (Hy & Hm & Hd & Hh & Hmi & Hs). unfold strftime_YmdHMS.
  rewrite !number_app.
  rewrite (number_fixed 4) by (simpl; lia).
  rewrite !(number_fixed 2) by (simpl; lia).
  simpl N.of_nat. lia.
Qed.

Lemma suffix_shape (u : N) :
  String.length (PyStr.take 8 (hex u)) = 8
  /\ PyStr.forallb lower_hex (PyStr.take 8 (hex u)) = true.
Proof.
  unfold hex. split.
  - apply length_take. rewrite length_fixed. lia.
  - apply forallb_take, fixed_hex.
Qed.

Lemma create_conversion_dir_inv (user_id : option string) (w w' : world)
    (dir : string) :
  _create_conversion_dir user_id w = (Ok dir, w') ->
  let u := (entropy w (drawn w) mod 2 ^ 128)%N in
  let name := identity_of user_id ++ "_" ++ strftime_YmdHMS (clock w) ++ "_"
              ++ PyStr.take 8 (hex u) in
  let w1 := mkWorld (fs w) (clock w) (entropy w) (S (drawn w)) in
  dir = PosixPath.join STORAGE_PATH name
  /\ Os.makedirs dir w1 = (Ok tt, w').
Proof.
  unfold _create_conversion_dir, identity_of, bind, datetime_now, uuid4, ret.
  destruct (truthy user_id); cbn beta iota;
    match goal with
    | |- context [Os.makedirs ?d ?w1] =>
        destruct (Os.makedirs d w1) as [[[]|e] w2] eqn:E;
        [|discriminate]
    end;
    intros H; injection H as <- <-; auto.
Qed.

Lemma sep_not_digit : is_digit PosixPath.sep = false.
Proof. reflexivity. Qed.

Lemma sep_not_hex : lower_hex PosixPath.sep = false.
Proof. reflexivity. Qed.

Lemma nul_not_digit : is_digit PosixPath.nul = false.
Proof. reflexivity. Qed.

Lemma nul_not_hex : lower_hex PosixPath.nul = false.
Proof. reflexivity. Qed.

(** The characters after the identity of a directory name: none is [c]
    when [c] is no underscore, no digit and no letter of [[a-f]]. *)
Lemma mem_tail (c : ascii) (t : datetime) (u : N) :
  is_digit c = false -> lower_hex c = false -> Ascii.eqb c "_" = false ->
  PyStr.mem c ("_" ++ strftime_YmdHMS t ++ "_" ++ PyStr.take 8 (hex u)) = false.
Proof.
  intros Hd Hh Hu. rewrite !mem_app. cbn [PyStr.mem]. rewrite Hu.
  rewrite (forallb_mem _ _ _ Hd (proj2 (strftime_shape t))).
  rewrite (forallb_mem _ _ _ Hh (proj2 (suffix_shape u))). reflexivity.
Qed.

(** C6, as the service has it. The directory of a new conversion is
    [STORAGE_PATH] joined with [identity_stamp_suffix]: the identity is the
    hint when one is supplied and is not empty, and [anonymous] when the
    hint is absent or empty; the stamp is the fourteen digits of the year,
    month, day, hour, minute and second of the clock; the suffix is eight
    characters of [[0-9a-f]]. When the identity has no [/], that name is
    the base name of the directory, which is the conversion identifier. *)
Theorem conversion_id_form (user_id : option string) (w w' : world)
    (dir : string) :
  valid_datetime (clock w) ->
  _create_conversion_dir user_id w = (Ok dir, w') ->
  let identity := identity_of user_id in
  let stamp := strftime_YmdHMS (clock w) in
  let suffix := PyStr.take 8 (hex (entropy w (drawn w) mod 2 ^ 128)%N) in
  let name := identity ++ "_" ++ stamp ++ "_" ++ suffix in
  dir = PosixPath.join STORAGE_PATH name
  /\ id_has_form identity stamp name
  /\ String.length stamp = 14
  /\ PyStr.forallb is_digit stamp = true
  /\ number 0 stamp
     = (year (clock w) * 10 ^ 10 + month (clock w) * 10 ^ 8
        + day (clock w) * 10 ^ 6 + hour (clock w) * 10 ^ 4
        + minute (clock w) * 10 ^ 2 + second (clock w))%N
  /\ (PyStr.mem PosixPath.sep identity = false ->
      PosixPath.basename dir = name).
Proof.
  intros Hv H identity stamp suffix name.
  apply create_conversion_dir_inv in H as [-> _].
  fold identity stamp suffix name.
  split; [reflexivity|].
  split; [exists suffix; split; [reflexivity | apply suffix_shape]|].
  split; [apply strftime_shape|].
  split; [apply strftime_shape|].
  split; [now apply strftime_number|].
  intros Hid. rewrite basename_join. apply basename_plain.
  unfold name. rewrite mem_app, Hid, orb_false_l.
  apply mem_tail; reflexivity.
Qed.

(** ** Plain names *)

Lemma plain_name_intro (n : string) :
  String.length n > 2 ->
  PyStr.mem PosixPath.sep n = false -> PyStr.mem PosixPath.nul n = false ->
  PosixPath.plain_name n = true.
Proof.
  intros L Hs Hn. unfold PosixPath.plain_name. rewrite Hs, Hn.
  repeat (apply andb_true_iff; split); try reflexivity;
    apply negb_true_iff, String.eqb_neq; intros E; rewrite E in L;
    simpl in L; lia.
Qed.

Lemma mem_replace_from (c : ascii) (k : nat) (old new s : string) :
  PyStr.mem c s = false -> PyStr.mem c new = false ->
  PyStr.mem c (PyStr.replace_from k old new s) = false.
Proof.
  intros Hs Hn. revert k Hs; induction s as [|d s IH]; intros k Hs;
    [reflexivity|].
  cbn [PyStr.mem] in Hs. apply orb_false_iff in Hs as [Hd Hs].
  cbn [PyStr.replace_from]. destruct k as [|k]; [|auto].
  destruct (PyStr.startswith (String d s) old).
  - rewrite mem_app, Hn. simpl. auto.
  - cbn [PyStr.mem]. rewrite Hd. simpl. auto.
Qed.

(** The page of a document has a plain name when its markdown file has. *)
Lemma plain_html_filename (filename : string) :
  PosixPath.plain_name (md_filename filename) = true ->
  PosixPath.plain_name (html_filename filename) = true.
Proof.
  intros H. apply plain_name_inv in H as (_ & _ & _ & Hs & Hn).
  apply plain_name_intro.
  - destruct (html_filename_ends filename) as [b ->].
    rewrite length_append. simpl. lia.
  - unfold html_filename, PyStr.replace. now apply mem_replace_from.
  - unfold html_filename, PyStr.replace. now apply mem_replace_from.
Qed.

Lemma md_filename_neq_html (k k' : string) : md_filename k <> html_filename k'.
Proof.
  destruct (md_filename_stem k) as [a ->].
  destruct (html_filename_ends k') as [b ->]. apply md_neq_html.
Qed.

Lemma md_filename_neq_css (k : string) : md_filename k <> "css".
Proof.
  destruct (md_filename_stem k) as [a ->].
  change (a ++ ".md") with (a ++ ".m" ++ "d"). change "css" with ("cs" ++ "s").
  rewrite <- append_assoc. intros E. apply append_inv_last in E as [_ E].
  discriminate.
Qed.

Lemma html_filename_neq_css (k : string) : html_filename k <> "css".
Proof.
  destruct (html_filename_ends k) as [a ->].
  change (a ++ ".html") with (a ++ ".htm" ++ "l"). change "css" with ("cs" ++ "s").
  rewrite <- append_assoc. intros E. apply append_inv_last in E as [_ E].
  discriminate.
Qed.

(** The name of a conversion directory is plain when its identity has no
    separator and no NUL. *)
Lemma plain_dir_name (identity : string) (t : datetime) (u : N) :
  PyStr.mem PosixPath.sep identity = false ->
  PyStr.mem PosixPath.nul identity = false ->
  PosixPath.plain_name
    (identity ++ "_" ++ strftime_YmdHMS t ++ "_" ++ PyStr.take 8 (hex u)) = true.
Proof.
  intros Hs Hn. apply plain_name_intro.
  - rewrite !length_append. rewrite (proj1 (strftime_shape t)). simpl. lia.
  - rewrite mem_app, Hs, orb_false_l. apply mem_tail; reflexivity.
  - rewrite mem_app, Hn, orb_false_l. apply mem_tail; reflexivity.
Qed.

(** ** Entries added at the end of a listing *)

Lemma lookup_snoc (n : string) (x : node) es :
  Entries.lookup n es = None -> Entries.lookup n (es ++ [(n, x)]) = Some x.
Proof.
  intros H. rewrite lookup_app, H. simpl. now rewrite String.eqb_refl.
Qed.

Lemma lookup_snoc_other (n n' : string) (x : node) es :
  n <> n' -> Entries.lookup n' (es ++ [(n, x)]) = Entries.lookup n' es.
Proof.
  intros H. rewrite lookup_app. simpl.
  apply String.eqb_neq in H. rewrite H. now destruct (Entries.lookup n' es).
Qed.

Lemma set_snoc (n : string) (x v : node) es :
  Entries.lookup n es = None ->
  Entries.set n v (es ++ [(n, x)]) = (es ++ [(n, v)])%list.
Proof.
  induction es as [|[k y] es IH]; simpl.
  - now rewrite String.eqb_refl.
  - destruct (String.eqb k n); [discriminate|]. intros H. now rewrite IH.
Qed.

(** ** Running a conversion *)

Lemma create_conversion_dir_run (user_id : option string) (w : world) :
  let u := (entropy w (drawn w) mod 2 ^ 128)%N in
  let name := identity_of user_id ++ "_" ++ strftime_YmdHMS (clock w) ++ "_"
              ++ PyStr.take 8 (hex u) in
  let w1 := mkWorld (fs w) (clock w) (entropy w) (S (drawn w)) in
  let dir := PosixPath.join STORAGE_PATH name in
  _create_conversion_dir user_id w
  = match Os.makedirs dir w1 with
    | (Ok _, w') => (Ok dir, w')
    | (Raise e, w') => (Raise e, w')
    end.
Proof.
  unfold _create_conversion_dir, identity_of, bind, datetime_now, uuid4, ret.
  destruct (truthy user_id); cbn beta iota; cbn [append];
    match goal with
    | |- context [Os.makedirs ?d ?w1] =>
        destruct (Os.makedirs d w1) as [[[]|e] w2]; reflexivity
    end.
Qed.

Section InStorage.

Variable sp : list string.
Hypothesis Hsp : PosixPath.components STORAGE_PATH = Some sp.

(** The allocation of a directory whose name is free in a writable storage
    root. *)
Lemma create_conversion_dir_fresh (user_id : option string) (w : world)
    (ms : Q) (es : list (string * node)) :
  let now := posix (clock w) in
  let u := (entropy w (drawn w) mod 2 ^ 128)%N in
  let name := identity_of user_id ++ "_" ++ strftime_YmdHMS (clock w) ++ "_"
              ++ PyStr.take 8 (hex u) in
  Fs.find sp (fs w) = inr (Dir ms true es) ->
  PosixPath.plain_name name = true ->
  Entries.lookup name es = None ->
  _create_conversion_dir user_id w
  = (Ok (PosixPath.join STORAGE_PATH name),
     mkWorld (Fs.plug sp (Dir now true (es ++ [(name, Dir now true [])])) (fs w))
       (clock w) (entropy w) (S (drawn w))).
Proof.
  intros now u name Hst Hplain Hfree.
  rewrite create_conversion_dir_run. fold u name.
  set (w1 := mkWorld (fs w) (clock w) (entropy w) (S (drawn w))).
  pose proof (components_join _ _ _ Hsp Hplain) as Hc.
  rewrite (makedirs_focus_os _ _ _ _ w1 Hc Hst).
  cbn [Fs.makedirs]. rewrite Hfree. reflexivity.
Qed.

(** The stylesheet written into a writable directory that has no [css]. *)
Lemma create_base_css_fresh (output_dir : string) (d : list string) (w : world)
    (m : Q) (es : list (string * node)) :
  let now := posix (clock w) in
  PosixPath.components output_dir = Some d ->
  Fs.find d (fs w) = inr (Dir m true es) ->
  Entries.lookup "css" es = None ->
  _create_base_css output_dir w
  = (Ok (PosixPath.join (PosixPath.join output_dir "css") "style.css"),
     set_fs w
       (Fs.plug d
          (Dir now true
             (es ++ [("css", Dir now true [("style.css", File now BASE_CSS)])]))
          (fs w))).
Proof.
  intros now Hd Hf Hfree. unfold _create_base_css.
  pose proof (components_join _ "css" _ Hd eq_refl) as Hc.
  pose proof (components_join _ "style.css" _ Hc eq_refl) as Hs.
  rewrite <- app_assoc in Hs.
  erewrite bind_Ok.
  2:{ rewrite (makedirs_focus_os _ _ _ _ w Hc Hf).
      cbn [Fs.makedirs]. rewrite Hfree. reflexivity. }
  cbn [fst snd]. fold now.
  set (D1 := Dir now true (es ++ [("css", Dir now true [])])).
  assert (Hf1 : Fs.find d (fs (set_fs w (Fs.plug d D1 (fs w)))) = inr D1)
    by (simpl; eapply find_plug; eauto).
  erewrite bind_Ok.
  2:{ rewrite (write_text_focus _ _ _ _ _ Hs Hf1) by discriminate.
      unfold D1. cbn [app clock set_fs].
      rewrite at_parent_cons by discriminate.
      rewrite (lookup_snoc _ _ _ Hfree).
      cbn [Fs.at_parent Fs.write_entry Entries.lookup app].
      rewrite (set_snoc _ _ _ _ Hfree).
      reflexivity. }
  unfold ret. cbn [fst snd set_fs fs clock entropy drawn].
  now rewrite (plug_plug _ _ _ _ _ Hf).
Qed.

(** A document rendered into a writable directory that has neither of its
    two names: the two files are added at the end of the listing. *)
Lemma render_fresh (dir : string) (d : list string) (w : world) (m : Q)
    (acc : list (string * node)) (k text : string) :
  let now := posix (clock w) in
  PosixPath.components dir = Some d ->
  Fs.find d (fs w) = inr (Dir m true acc) ->
  PosixPath.plain_name (md_filename k) = true ->
  Entries.lookup (md_filename k) acc = None ->
  Entries.lookup (html_filename k) acc = None ->
  render dir (k, text) w
  = (Ok tt,
     set_fs w (Fs.plug d (Dir now true (acc ++ document_files now [(k, text)]))
                 (fs w))).
Proof.
  intros now Hd Hf Hplain Hmd Hhtml. unfold render.
  fold (html_filename k).
  pose proof (components_join _ _ _ Hd Hplain) as Hc1.
  pose proof (components_join _ _ _ Hd (plain_html_filename _ Hplain)) as Hc2.
  erewrite bind_Ok.
  2:{ rewrite (write_text_focus _ _ _ _ _ Hc1 Hf) by discriminate.
      cbn [Fs.at_parent Fs.write_entry]. rewrite Hmd. reflexivity. }
  cbn [fst snd]. fold now.
  set (D1 := Dir now true (acc ++ [(md_filename k, File now text)])).
  assert (Hf1 : Fs.find d (fs (set_fs w (Fs.plug d D1 (fs w)))) = inr D1)
    by (simpl; eapply find_plug; eauto).
  rewrite (write_text_focus _ _ _ _ _ Hc2 Hf1) by discriminate.
  unfold D1. cbn [Fs.at_parent Fs.write_entry clock set_fs].
  rewrite lookup_snoc_other by apply md_filename_neq_html.
  rewrite Hhtml. cbn [Os.commit fst snd]. fold now.
  rewrite set_fs_set_fs. cbn [fs set_fs].
  rewrite (plug_plug _ _ _ _ _ Hf), <- app_assoc. reflexivity.
Qed.

(** A batch rendered into a writable directory that has none of its names,
    when the names of the batch are pairwise distinct. *)
Lemma render_all_fresh (dir : string) (d : list string)
    (content : list (string * string)) :
  forall (w : world) (acc : list (string * node)),
  let now := posix (clock w) in
  PosixPath.components dir = Some d ->
  Fs.find d (fs w) = inr (Dir now true acc) ->
  Forall (fun k => PosixPath.plain_name (md_filename k) = true)
    (map fst content) ->
  NoDup (map md_filename (map fst content)) ->
  NoDup (map html_filename (map fst content)) ->
  (forall k, In k (map fst content) ->
             Entries.lookup (md_filename k) acc = None
             /\ Entries.lookup (html_filename k) acc = None) ->
  for_each content (render dir) w
  = (Ok tt,
     set_fs w (Fs.plug d (Dir now true (acc ++ document_files now content))
                 (fs w))).
Proof.
  induction content as [|[k text] rest IH];
    intros w acc now Hd Hf Hplain Hnd1 Hnd2 Hfree.
  - simpl. unfold ret, document_files. simpl. rewrite app_nil_r.
    now rewrite (plug_self _ _ _ Hf), set_fs_self.
  - cbn [for_each map fst] in *.
    inversion Hplain as [|? ? Hk Hplain']; subst.
    inversion Hnd1 as [|? ? Hk1 Hnd1']; subst.
    inversion Hnd2 as [|? ? Hk2 Hnd2']; subst.
    destruct (Hfree k (or_introl eq_refl)) as [Hmd Hhtml].
    rewrite (bind_Ok _ _ _ _ _
               (render_fresh dir d w now acc k text Hd Hf Hk Hmd Hhtml)).
    fold now.
    set (acc1 := (acc ++ document_files now [(k, text)])%list).
    set (w1 := set_fs w (Fs.plug d (Dir now true acc1) (fs w))).
    assert (Hf1 : Fs.find d (fs w1) = inr (Dir (posix (clock w1)) true acc1))
      by (simpl; eapply find_plug; eauto).
    rewrite (IH w1 acc1 Hd Hf1 Hplain' Hnd1' Hnd2').
    + unfold w1. cbn [set_fs fs clock entropy drawn]. fold now.
      rewrite (plug_plug _ _ _ _ _ Hf). unfold acc1.
      rewrite <- app_assoc. reflexivity.
    + intros k' Hk'. destruct (Hfree k' (or_intror Hk')) as [H1 H2].
      unfold acc1, document_files. cbn [flat_map fst snd app].
      rewrite !lookup_app, H1, H2. cbn [Entries.lookup].
      assert (E1 : md_filename k <> md_filename k').
      { intros E. apply Hk1. rewrite E. now apply in_map. }
      assert (E2 : html_filename k <> html_filename k').
      { intros E. apply Hk2. rewrite E. now apply in_map. }
      assert (E3 : html_filename k <> md_filename k')
        by (intros E; symmetry in E; now apply md_filename_neq_html in E).
      pose proof (md_filename_neq_html k k') as E4.
      apply String.eqb_neq in E1, E2, E3, E4.
      now rewrite E1, E2, E3, E4.
Qed.

(** A batch converted into a writable storage root in which the name of the
    new directory is free. *)
Lemma convert_run (content : list (string * string))
    (user_id : option string) (w : world) (ms : Q) (es : list (string * node)) :
  let now := posix (clock w) in
  let name := identity_of user_id ++ "_" ++ strftime_YmdHMS (clock w) ++ "_"
              ++ PyStr.take 8 (hex (entropy w (drawn w) mod 2 ^ 128)%N) in
  Fs.find sp (fs w) = inr (Dir ms true es) ->
  PyStr.mem PosixPath.sep (identity_of user_id) = false ->
  PyStr.mem PosixPath.nul (identity_of user_id) = false ->
  Entries.lookup name es = None ->
  Forall (fun k => PosixPath.plain_name (md_filename k) = true)
    (map fst content) ->
  NoDup (map md_filename (map fst content)) ->
  NoDup (map html_filename (map fst content)) ->
  convert_markdown_to_html content user_id w
  = (Ok (name, PosixPath.join STORAGE_PATH name),
     mkWorld
       (Fs.plug sp
          (Dir now true
             (es ++ [(name,
                      Dir now true
                        (("css", css_directory now)
                         :: document_files now content))]))
          (fs w))
       (clock w) (entropy w) (S (drawn w))).
Proof.
  intros now name Hst Hsep Hnul Hfree Hplain Hnd1 Hnd2.
  pose proof (plain_dir_name _ (clock w) (entropy w (drawn w) mod 2 ^ 128)%N
                Hsep Hnul) as Hname.
  fold name in Hname.
  unfold convert_markdown_to_html.
  rewrite (bind_Ok _ _ _ _ _
             (create_conversion_dir_fresh user_id w ms es Hst Hname Hfree)).
  fold now name.
  set (S1 := Dir now true (es ++ [(name, Dir now true [])])).
  set (w2 := mkWorld (Fs.plug sp S1 (fs w)) (clock w) (entropy w) (S (drawn w))).
  pose proof (components_join _ _ _ Hsp Hname) as Hc.
  assert (Hs2 : Fs.find sp (fs w2) = inr S1)
    by (simpl; eapply find_plug; eauto).
  assert (Hf2 : Fs.find (sp ++ [name]) (fs w2) = inr (Dir now true [])).
  { rewrite (find_focus _ _ _ _ Hs2). unfold S1. cbn [Fs.find].
    now rewrite (lookup_snoc _ _ _ Hfree). }
  rewrite (bind_Ok _ _ _ _ _
             (create_base_css_fresh _ _ w2 now [] Hc Hf2 eq_refl)).
  cbn [app]. change (posix (clock w2)) with now.
  fold (css_directory now).
  set (w3 := set_fs w2 _).
  assert (Hf3 : Fs.find (sp ++ [name]) (fs w3)
                = inr (Dir (posix (clock w3)) true [("css", css_directory now)]))
    by (simpl; eapply find_plug; eauto).
  rewrite (bind_Ok _ _ _ _ _
             (render_all_fresh _ _ content w3 _ Hc Hf3 Hplain Hnd1 Hnd2
                ltac:(intros k _; cbn [Entries.lookup];
                      pose proof (md_filename_neq_css k) as E1;
                      pose proof (html_filename_neq_css k) as E2;
                      apply not_eq_sym in E1, E2;
                      apply String.eqb_neq in E1, E2;
                      now rewrite E1, E2))).
  unfold ret. rewrite basename_join.
  rewrite (basename_plain name)
    by (apply plain_name_inv in Hname as (_ & _ & _ & Hs & _); exact Hs).
  f_equal. unfold w3, w2, set_fs. cbn [fs clock entropy drawn app].
  fold now. f_equal.
  rewrite (plug_plug _ _ _ _ _ Hf2).
  assert (Hs1 : Fs.find sp (Fs.plug sp S1 (fs w)) = inr S1)
    by (eapply find_plug; eauto).
  rewrite (plug_app _ _ _ _ _ Hs1), (plug_plug _ _ _ _ _ Hst).
  f_equal. unfold S1. cbn [Fs.plug].
  rewrite (lookup_snoc _ _ _ Hfree), (set_snoc _ _ _ _ Hfree). reflexivity.
Qed.

(** ** The retention sweep *)


Lemma zip_name_plain (item : string) :
  PosixPath.plain_name item = true ->
  PosixPath.plain_name (item ++ ".zip") = true.
Proof.
  intros H. apply plain_name_app; try reflexivity; try assumption.
  - discriminate.
  - simpl. lia.
Qed.

Lemma zip_name_neq (item : string) : item <> item ++ ".zip".
Proof.
  intros E. apply (f_equal String.length) in E.
  rewrite length_append in E. simpl in E. lia.
Qed.

Lemma find_entry (name : string) (m : Q) (ws : bool) es :
  Fs.find [name] (Dir m ws es)
  = match Entries.lookup name es with
    | Some c => inr c
    | None => inl ENOENT
    end.
Proof. reflexivity. Qed.

















(** ** The archive *)

Lemma write_entry_can now (data name : string) (n : node) :
  can_write name n = true ->
  Fs.write_entry now data name n = (None, with_file now name data n).
Proof.
  unfold can_write, with_file, Fs.write_entry.
  destruct n as [|m w es]; [discriminate|].
  destruct (Entries.lookup name es) as [[|]|]; try discriminate; [reflexivity|].
  now intros ->.
Qed.

Lemma with_file_lookup now (data name : string) (m : Q) (w : bool) es :
  can_write name (Dir m w es) = true ->
  exists m1 es1,
    with_file now name data (Dir m w es) = Dir m1 w es1
    /\ Entries.lookup name es1 = Some (File now data)
    /\ (forall n, n <> name -> Entries.lookup n es1 = Entries.lookup n es).
Proof.
  unfold can_write, with_file, Fs.write_entry.
  destruct (Entries.lookup name es) as [[mf df|]|] eqn:E; try discriminate.
  - intros _. exists m, (Entries.set name (File now data) es).
    split; [reflexivity|]. split.
    + now apply (lookup_set_same _ _ _ _ E).
    + intros n Hn. apply lookup_set_other. congruence.
  - intros ->. exists now, (es ++ [(name, File now data)])%list.
    split; [reflexivity|]. split.
    + now apply lookup_snoc.
    + intros n Hn. apply lookup_snoc_other. congruence.
Qed.

Lemma with_file_can now (data name : string) (n : node) :
  can_write name n = true -> can_write name (with_file now name data n) = true.
Proof.
  intros H. destruct n as [|m w es]; [discriminate|].
  destruct (with_file_lookup now data name m w es H) as (m1 & es1 & -> & Hl & _).
  unfold can_write. now rewrite Hl.
Qed.

(** Writing a file again leaves what writing it once with the last bytes
    leaves. *)
Lemma with_file_twice now (d1 d2 name : string) (n : node) :
  can_write name n = true ->
  with_file now name d2 (with_file now name d1 n) = with_file now name d2 n.
Proof.
  unfold can_write, with_file, Fs.write_entry.
  destruct n as [|m w es]; [discriminate|].
  destruct (Entries.lookup name es) as [[mf df|]|] eqn:E; try discriminate.
  - intros _. cbn [snd]. rewrite (lookup_set_same _ _ _ _ E). cbn [snd].
    now rewrite set_set.
  - intros ->. cbn [snd]. rewrite (lookup_snoc _ _ _ E). cbn [snd].
    now rewrite (set_snoc _ _ _ _ E).
Qed.

(** Nothing is at the path: the archive is refused and nothing is
    written. *)
Lemma create_zip_absent (conversion_id : string) (w : world) :
  Os.path_exists (PosixPath.join STORAGE_PATH conversion_id) w = (Ok false, w) ->
  create_zip conversion_id w
  = (Raise (FileNotFoundError ("Conversion " ++ conversion_id ++ " not found")),
     w).
Proof.
  intros H. unfold create_zip. now rewrite (bind_Ok _ _ _ _ _ H).
Qed.

(** X4. When no file and no directory is at the path of a conversion
    identifier in the storage root, [create_zip] raises [FileNotFoundError]
    with the identifier in its message, and the world is as it was: no
    archive is created. *)
Theorem create_zip_not_found (conversion_id : string) (w : world) :
  (forall p,
      PosixPath.components (PosixPath.join STORAGE_PATH conversion_id) = Some p ->
      exists e, Fs.find p (fs w) = inl e) ->
  create_zip conversion_id w
  = (Raise (FileNotFoundError ("Conversion " ++ conversion_id ++ " not found")),
     w).
Proof.
  intros H. apply create_zip_absent. unfold Os.path_exists.
  destruct (PosixPath.components (PosixPath.join STORAGE_PATH conversion_id))
    as [p|]; [|reflexivity].
  destruct (H p eq_refl) as [e ->]. reflexivity.
Qed.

Lemma clock_write_in (d : list string) (name data : string) (w : world) :
  clock (write_in d name data w) = clock w.
Proof. unfold write_in. now destruct (Fs.find d (fs w)). Qed.

Section Archive.

Variables (w : world) (ms : Q) (ws : bool) (es : list (string * node)).
Variables (conversion_id : string) (conv : node).
Hypothesis Hst : Fs.find sp (fs w) = inr (Dir ms ws es).
Hypothesis Hid : PosixPath.plain_name conversion_id = true.
Hypothesis Hconv : Entries.lookup conversion_id es = Some conv.
Hypothesis Hslot : can_write (conversion_id ++ ".zip") (Dir ms ws es) = true.

Let zn := conversion_id ++ ".zip".
Let conversion_path := PosixPath.join STORAGE_PATH conversion_id.
Let zip_path := conversion_path ++ ".zip".

Lemma conversion_path_components :
  PosixPath.components conversion_path = Some (sp ++ [conversion_id])%list.
Proof. now apply components_join. Qed.

Lemma zip_path_components :
  PosixPath.components zip_path = Some (sp ++ [zn])%list.
Proof.
  unfold zip_path, conversion_path. rewrite <- (join_app _ _ _ Hid).
  apply components_join; [assumption | now apply zip_name_plain].
Qed.

Lemma write_in_storage (data : string) :
  write_in sp zn data w
  = set_fs w (Fs.plug sp (with_file (posix (clock w)) zn data (Dir ms ws es))
                (fs w)).
Proof. unfold write_in. now rewrite Hst. Qed.

Lemma find_storage_written (data : string) :
  Fs.find sp (fs (write_in sp zn data w))
  = inr (with_file (posix (clock w)) zn data (Dir ms ws es)).
Proof. rewrite write_in_storage. simpl. eapply find_plug; eauto. Qed.

(** The archive opened, or written again. *)
Lemma zip_open (data : string) :
  Os.write_text zip_path data w = (Ok tt, write_in sp zn data w).
Proof.
  rewrite (write_text_focus _ _ _ _ _ zip_path_components Hst) by discriminate.
  cbn [Fs.at_parent]. rewrite (write_entry_can _ _ _ _ Hslot).
  cbn [fst snd Os.commit]. now rewrite write_in_storage.
Qed.

Lemma zip_rewrite (d1 d2 : string) :
  Os.write_text zip_path d2 (write_in sp zn d1 w)
  = (Ok tt, write_in sp zn d2 w).
Proof.
  rewrite (write_text_focus _ _ _ _ _ zip_path_components
             (find_storage_written d1)) by discriminate.
  cbn [Fs.at_parent]. rewrite clock_write_in.
  rewrite (write_entry_can _ _ _ _ (with_file_can _ _ _ _ Hslot)).
  cbn [fst snd Os.commit].
  rewrite (with_file_twice _ _ _ _ _ Hslot).
  rewrite !write_in_storage, set_fs_set_fs. cbn [fs set_fs].
  now rewrite (plug_plug _ _ _ _ _ Hst).
Qed.

(** The conversion is not touched by the writing of its archive. *)
Lemma find_conversion_written (data : string) (q : list string) :
  Fs.find (sp ++ conversion_id :: q) (fs (write_in sp zn data w))
  = Fs.find q conv.
Proof.
  rewrite (find_focus _ _ _ _ (find_storage_written data)).
  destruct (with_file_lookup (posix (clock w)) data zn ms ws es Hslot)
    as (m1 & es1 & -> & _ & Hother).
  cbn [Fs.find]. rewrite (Hother conversion_id (zip_name_neq _)), Hconv.
  reflexivity.
Qed.

Lemma distinct_NoDup (l : list string) : distinct l = true -> NoDup l.
Proof.
  induction l as [|x l IH]; simpl; intros H; [constructor|].
  apply andb_true_iff in H as [Hx Hl]. constructor; [|auto].
  intros Hin. apply negb_true_iff in Hx.
  assert (existsb (String.eqb x) l = true); [|congruence].
  apply existsb_exists. exists x. split; [assumption | apply String.eqb_refl].
Qed.

Lemma well_formed_dir (m : Q) (wd : bool) (des : list (string * node)) :
  well_formed (Dir m wd des) = true ->
  Forall (fun e => PosixPath.plain_name (fst e) = true) des
  /\ NoDup (Entries.names des)
  /\ Forall (fun e => well_formed (snd e) = true) des.
Proof.
  cbn [well_formed]. intros H.
  apply andb_true_iff in H as [H H3]. apply andb_true_iff in H as [H1 H2].
  repeat split.
  - now apply Forall_forall, forallb_forall.
  - now apply distinct_NoDup.
  - now apply Forall_forall, forallb_forall.
Qed.

(** Induction on a tree, with the property at hand for every entry of a
    directory. *)
Lemma node_tree_ind (P : node -> Prop) :
  (forall m data, P (File m data)) ->
  (forall m wd des, Forall (fun e => P (snd e)) des -> P (Dir m wd des)) ->
  forall n, P n.
Proof.
  intros HF HD. fix IH 1. intros [m data|m wd des].
  - apply HF.
  - apply HD. induction des as [|[k c] des IHdes]; constructor.
    + apply IH.
    + apply IHdes.
Qed.

Lemma common_app (p r : list string) :
  PosixPath.common (p ++ r) p = List.length p.
Proof.
  induction p as [|x p IH]; simpl.
  - now destruct r.
  - now rewrite String.eqb_refl, IH.
Qed.

(** The relative path of a file below a directory is the names that lead to
    it from the directory, with [/] between them. *)
Lemma relpath_below (p r : list string) :
  r <> [] -> PosixPath.relpath_of (p ++ r) p = PyStr.join "/" r.
Proof.
  intros Hr. unfold PosixPath.relpath_of.
  rewrite common_app, Nat.sub_diag, skipn_app, skipn_all, Nat.sub_diag.
  simpl. destruct r; [congruence | reflexivity].
Qed.

(** One member added to the archive: the file is read where the conversion
    has it, and the archive is written with one member more. *)
Lemma zip_write_step (written : list (string * string)) (file_path arcname : string)
    (q : list string) (mf : Q) (data : string) :
  PosixPath.components file_path = Some (sp ++ conversion_id :: q)%list ->
  Fs.find q conv = inr (File mf data) ->
  zip_write zip_path written file_path arcname
    (write_in sp zn (zip_bytes written) w)
  = (Ok (written ++ [(arcname, data)])%list,
     write_in sp zn (zip_bytes (written ++ [(arcname, data)])) w).
Proof.
  intros Hp Hq. unfold zip_write.
  erewrite bind_Ok.
  2:{ eapply read_bytes_find; [exact Hp|].
      rewrite find_conversion_written. exact Hq. }
  fold zip_path. now rewrite (bind_Ok _ _ _ _ _ (zip_rewrite _ _)).
Qed.

Let inner (root : string) :=
  fun (written : list (string * string)) (file : string) =>
    let file_path := PosixPath.join root file in
    (arcname <- Os.relpath file_path conversion_path ;;
     zip_write zip_path written file_path arcname)%py.

Let body :=
  fun (written : list (string * string))
      (t : string * list string * list string) =>
    let '(root, _, files) := t in for_fold files (inner root) written.

Lemma relpath_member (file_path : string) (r : list string) (w0 : world) :
  PosixPath.components file_path = Some (sp ++ conversion_id :: r)%list ->
  r <> [] ->
  Os.relpath file_path conversion_path w0 = (Ok (PyStr.join "/" r), w0).
Proof.
  intros Hp Hr. unfold Os.relpath, bind, Os.resolve.
  rewrite Hp, conversion_path_components. unfold ret.
  change (sp ++ conversion_id :: r)%list
    with (sp ++ [conversion_id] ++ r)%list.
  now rewrite app_assoc, relpath_below.
Qed.

(** The files of one directory of the conversion, added in the order of
    its listing. *)
Lemma files_loop (top : string) (rel : list string) (m : Q) (wd : bool)
    (des : list (string * node)) :
  PosixPath.components top = Some (sp ++ conversion_id :: rel)%list ->
  Fs.find rel conv = inr (Dir m wd des) ->
  Forall (fun e => PosixPath.plain_name (fst e) = true) des ->
  NoDup (Entries.names des) ->
  forall fl, incl fl des ->
  forall L,
    for_fold (Fs.files fl) (inner top) L (write_in sp zn (zip_bytes L) w)
    = (let L' := (L ++ flat_map
                         (fun e => match snd e with
                                   | File _ data =>
                                       [(PyStr.join "/" (rel ++ [fst e]), data)]
                                   | Dir _ _ _ => []
                                   end) fl)%list in
       (Ok L', write_in sp zn (zip_bytes L') w)).
Proof.
  intros Htop Hrel Hplain Hnd.
  induction fl as [|[name c] fl IH]; intros Hincl L.
  - simpl. now rewrite app_nil_r.
  - assert (Hin : In (name, c) des) by (apply Hincl; now left).
    assert (Hincl' : incl fl des) by (intros e He; apply Hincl; now right).
    destruct c as [mf data|mc wc sub].
    + unfold Fs.files. cbn [filter snd is_file Entries.names map fst].
      fold (Entries.names (filter (fun e => is_file (snd e)) fl)).
      fold (Fs.files fl).
      cbn [for_fold flat_map snd fst].
      pose proof (proj1 (Forall_forall _ _) Hplain _ Hin) as Hname.
      cbn [fst] in Hname.
      pose proof (components_join _ _ _ Htop Hname) as Hp.
      rewrite <- app_assoc in Hp. cbn [app] in Hp.
      assert (Hq : Fs.find (rel ++ [name]) conv = inr (File mf data)).
      { rewrite (find_focus _ _ _ _ Hrel), find_entry.
        now rewrite (In_lookup _ _ _ Hnd Hin). }
      unfold inner at 1.
      erewrite bind_Ok.
      2:{ rewrite (bind_Ok _ _ _ _ _
                     (relpath_member _ _ _ Hp
                        ltac:(intros E; apply app_eq_nil in E as [_ E];
                              discriminate))).
          apply (zip_write_step _ _ _ _ _ _ Hp Hq). }
      rewrite IH by assumption. cbv zeta.
      now rewrite <- !app_assoc.
    + unfold Fs.files. cbn [filter snd is_file flat_map app].
      apply IH. assumption.
Qed.

(** The walk of a well formed tree of the conversion adds its members. *)
Lemma walk_loop (n : node) :
  forall (top : string) (rel : list string) (L : list (string * string)),
    PosixPath.components top = Some (sp ++ conversion_id :: rel)%list ->
    Fs.find rel conv = inr n ->
    well_formed n = true ->
    for_fold (Fs.walk top n) body L (write_in sp zn (zip_bytes L) w)
    = (Ok (L ++ members rel n)%list,
       write_in sp zn (zip_bytes (L ++ members rel n)) w).
Proof.
  induction n as [m data|m wd des IHdes] using node_tree_ind;
    intros top rel L Htop Hrel Hwf.
  - simpl. now rewrite app_nil_r.
  - apply well_formed_dir in Hwf as (Hplain & Hnd & Hsub).
    cbn [Fs.walk for_fold]. unfold body at 1.
    rewrite (bind_Ok _ _ _ _ _
               (files_loop top rel m wd des Htop Hrel Hplain Hnd des
                  (incl_refl des) L)).
    cbn [members]. rewrite app_assoc.
    set (L1 := (L ++ flat_map _ des)%list).
    assert (Hsubs : forall fl, incl fl des -> forall L0,
               for_fold
                 (flat_map (fun e => if is_dir (snd e)
                                     then Fs.walk (PosixPath.join top (fst e)) (snd e)
                                     else []) fl)
                 body L0 (write_in sp zn (zip_bytes L0) w)
               = (let L' := (L0 ++ flat_map
                                     (fun e => if is_dir (snd e)
                                               then members (rel ++ [fst e]) (snd e)
                                               else []) fl)%list in
                  (Ok L', write_in sp zn (zip_bytes L') w))).
    { induction fl as [|[name c] fl IHfl]; intros Hincl L0.
      - simpl. now rewrite app_nil_r.
      - assert (Hin : In (name, c) des) by (apply Hincl; now left).
        assert (Hincl' : incl fl des) by (intros e He; apply Hincl; now right).
        cbn [flat_map fst snd]. destruct (is_dir c) eqn:Ed.
        + rewrite for_fold_app.
          pose proof (proj1 (Forall_forall _ _) Hplain _ Hin) as Hname.
          pose proof (proj1 (Forall_forall _ _) Hsub _ Hin) as Hwfc.
          pose proof (proj1 (Forall_forall _ _) IHdes _ Hin) as IHc.
          cbn [fst snd] in Hname, Hwfc, IHc.
          pose proof (components_join _ _ _ Htop Hname) as Hp.
          rewrite <- app_assoc in Hp. cbn [app] in Hp.
          assert (Hq : Fs.find (rel ++ [name]) conv = inr c).
          { rewrite (find_focus _ _ _ _ Hrel), find_entry.
            now rewrite (In_lookup _ _ _ Hnd Hin). }
          rewrite (bind_Ok _ _ _ _ _ (IHc _ _ L0 Hp Hq Hwfc)).
          rewrite IHfl by assumption. cbv zeta. now rewrite <- !app_assoc.
        + cbn [app]. now apply IHfl. }
    apply (Hsubs des (incl_refl des) L1).
Qed.


Lemma create_zip_run :
  well_formed conv = true ->
  create_zip conversion_id w
  = (Ok zip_path, write_in sp zn (zip_bytes (members [] conv)) w).
Proof.
  intros Hwf. unfold create_zip. fold conversion_path zip_path.
  erewrite bind_Ok.
  2:{ rewrite (path_exists_focus _ _ _ _ _ conversion_path_components Hst).
      rewrite find_entry, Hconv. reflexivity. }
  cbn [negb].
  rewrite (bind_Ok _ _ _ _ _ (zip_open (zip_bytes []))).
  erewrite bind_Ok.
  2:{ unfold Os.walk. rewrite conversion_path_components.
      change (sp ++ [conversion_id])%list with (sp ++ conversion_id :: [])%list.
      rewrite find_conversion_written. reflexivity. }
  erewrite bind_Ok.
  2:{ apply (walk_loop conv conversion_path [] []);
        [apply conversion_path_components | reflexivity | exact Hwf]. }
  reflexivity.
Qed.


(** X6. An identifier that names a regular file of the storage root is not
    refused: [create_zip] does not raise, and writes beside the file an
    archive with no member. *)
Theorem create_zip_of_regular_file (mf : Q) (df : string) :
  conv = File mf df ->
  let w' := write_in sp (conversion_id ++ ".zip") (zip_bytes []) w in
  create_zip conversion_id w
  = (Ok (PosixPath.join STORAGE_PATH conversion_id ++ ".zip"), w')
  /\ Fs.find (sp ++ [conversion_id ++ ".zip"]) (fs w')
     = inr (File (posix (clock w)) (zip_bytes [])).
Proof.
  intros Hc w'. split.
  - rewrite create_zip_run by (rewrite Hc; reflexivity).
    now rewrite Hc.
  - unfold w'. rewrite (find_focus _ _ _ _ (find_storage_written _)).
    destruct (with_file_lookup (posix (clock w)) (zip_bytes []) zn ms ws es Hslot)
      as (m1 & es1 & -> & Hl & _).
    rewrite find_entry. fold zn. now rewrite Hl.
Qed.

End Archive.

(** ** When the sweep comes to its end *)





(** X1. A batch converted into a writable storage root in which the name of
    the new directory is free, when the identity has no separator, the
    markdown names of the documents are plain and pairwise distinct, and
    their page names are pairwise distinct: the call returns the name of the
    directory and its path, one random number is drawn, and the storage root
    gains exactly one entry, the directory, which holds [css/style.css] and
    then, for each document in order, its markdown file with the text as it
    was given and its page. Nothing else of the tree changes. *)
Theorem convert_builds_site (content : list (string * string))
    (user_id : option string) (w : world) (ms : Q) (es : list (string * node)) :
  let now := posix (clock w) in
  let name := identity_of user_id ++ "_" ++ strftime_YmdHMS (clock w) ++ "_"
              ++ PyStr.take 8 (hex (entropy w (drawn w) mod 2 ^ 128)%N) in
  let site := Dir now true (("css", css_directory now)
                            :: document_files now content) in
  Fs.find sp (fs w) = inr (Dir ms true es) ->
  PyStr.mem PosixPath.sep (identity_of user_id) = false ->
  PyStr.mem PosixPath.nul (identity_of user_id) = false ->
  Entries.lookup name es = None ->
  Forall (fun k => PosixPath.plain_name (md_filename k) = true)
    (map fst content) ->
  NoDup (map md_filename (map fst content)) ->
  NoDup (map html_filename (map fst content)) ->
  exists w',
    convert_markdown_to_html content user_id w
    = (Ok (name, PosixPath.join STORAGE_PATH name), w')
    /\ Fs.find (sp ++ [name]) (fs w') = inr site
    /\ fs w' = Fs.plug sp (Dir now true (es ++ [(name, site)])) (fs w)
    /\ drawn w' = S (drawn w).
Proof.
  intros now name site Hst Hsep Hnul Hfree Hplain Hnd1 Hnd2.
  eexists. split; [now apply (convert_run content user_id w ms es)|].
  cbn [fs drawn]. fold now name site. repeat split.
  rewrite (find_focus _ _ _ _ (find_plug _ _ _ _ Hst)), find_entry.
  now rewrite (lookup_snoc _ _ _ Hfree).
Qed.

(** X8. An empty batch is converted like any other: the directory is
    allocated, the stylesheet is written into it, and the name and the path
    of the directory are returned; the directory holds [css/style.css] and
    nothing else. *)
Theorem convert_empty_mapping (user_id : option string) (w : world) (ms : Q)
    (es : list (string * node)) :
  let now := posix (clock w) in
  let name := identity_of user_id ++ "_" ++ strftime_YmdHMS (clock w) ++ "_"
              ++ PyStr.take 8 (hex (entropy w (drawn w) mod 2 ^ 128)%N) in
  Fs.find sp (fs w) = inr (Dir ms true es) ->
  PyStr.mem PosixPath.sep (identity_of user_id) = false ->
  PyStr.mem PosixPath.nul (identity_of user_id) = false ->
  Entries.lookup name es = None ->
  exists w',
    convert_markdown_to_html [] user_id w
    = (Ok (name, PosixPath.join STORAGE_PATH name), w')
    /\ Fs.find (sp ++ [name]) (fs w')
       = inr (Dir now true
                [("css", Dir now true [("style.css", File now BASE_CSS)])])
    /\ Os.read_bytes
         (PosixPath.join
            (PosixPath.join (PosixPath.join STORAGE_PATH name) "css") "style.css")
         w'
       = (Ok BASE_CSS, w').
Proof.
  intros now name Hst Hsep Hnul Hfree.
  pose proof (plain_dir_name _ (clock w) (entropy w (drawn w) mod 2 ^ 128)%N
                Hsep Hnul) as Hname.
  fold name in Hname.
  eexists. split.
  { apply (convert_run [] user_id w ms es Hst Hsep Hnul Hfree);
      constructor. }
  fold now name.
  assert (Hsite : Fs.find (sp ++ [name])
                    (Fs.plug sp
                       (Dir now true
                          (es ++ [(name,
                                   Dir now true
                                     (("css", css_directory now)
                                      :: document_files now []))]))
                       (fs w))
                  = inr (Dir now true
                           [("css", Dir now true
                                      [("style.css", File now BASE_CSS)])])).
  { rewrite (find_focus _ _ _ _ (find_plug _ _ _ _ Hst)), find_entry.
    now rewrite (lookup_snoc _ _ _ Hfree). }
  split; [exact Hsite|].
  pose proof (components_join _ _ _ Hsp Hname) as H1.
  pose proof (components_join _ "css" _ H1 eq_refl) as H2.
  pose proof (components_join _ "style.css" _ H2 eq_refl) as H3.
  rewrite <- !app_assoc in H3.
  eapply read_bytes_find; [exact H3|]. cbn [fs].
  rewrite app_assoc, (find_focus _ _ _ _ Hsite). reflexivity.
Qed.

(** ** Batches whose names collide *)

Lemma lookup_put (name n : string) (v : node) es :
  Entries.lookup n (put name v es)
  = if String.eqb name n then Some v else Entries.lookup n es.
Proof.
  unfold put. destruct (String.eqb name n) eqn:E.
  - apply String.eqb_eq in E; subst n.
    destruct (Entries.lookup name es) as [x|] eqn:El.
    + now apply (lookup_set_same _ _ x).
    + now apply lookup_snoc.
  - apply String.eqb_neq in E.
    destruct (Entries.lookup name es) as [x|] eqn:El.
    + now apply lookup_set_other.
    + now apply lookup_snoc_other.
Qed.

Lemma names_put (name : string) (v : node) es :
  Entries.names (put name v es)
  = match Entries.lookup name es with
    | Some _ => Entries.names es
    | None => (Entries.names es ++ [name])%list
    end.
Proof.
  unfold put. destruct (Entries.lookup name es).
  - apply names_set.
  - unfold Entries.names. now rewrite map_app.
Qed.

Lemma In_names_put (name n : string) (v : node) es :
  In n (Entries.names (put name v es)) <-> n = name \/ In n (Entries.names es).
Proof.
  rewrite names_put. destruct (Entries.lookup name es) as [x|] eqn:El.
  - split; [now right|]. intros [->|H]; [|exact H].
    unfold Entries.names. apply (in_map fst _ _ (lookup_Some_In _ _ _ El)).
  - rewrite in_app_iff. simpl. split.
    + intros [H|[H|[]]]; [now right | now left].
    + intros [->|H]; [right; now left | now left].
Qed.

Lemma NoDup_names_put (name : string) (v : node) es :
  NoDup (Entries.names es) -> NoDup (Entries.names (put name v es)).
Proof.
  intros Hnd. rewrite names_put.
  destruct (Entries.lookup name es) eqn:El; [exact Hnd|].
  apply NoDup_app; [exact Hnd | repeat constructor; intros [] |].
  intros x Hx [<-|[]]. now apply lookup_None_names in Hx.
Qed.

Lemma write_entry_put now (data name : string) (acc : list (string * node)) :
  (forall x, Entries.lookup name acc = Some x -> is_dir x = false) ->
  Fs.write_entry now data name (Dir now true acc)
  = (None, Dir now true (put name (File now data) acc)).
Proof.
  intros Hfile. unfold Fs.write_entry, put.
  destruct (Entries.lookup name acc) as [[mf df|md wd sub]|] eqn:E;
    try reflexivity.
  specialize (Hfile _ eq_refl). discriminate Hfile.
Qed.

Lemma css_only_put (name : string) (m : Q) (data : string) acc :
  css_only acc -> css_only (put name (File m data) acc).
Proof.
  intros H n x. rewrite lookup_put.
  destruct (String.eqb name n); [|apply H].
  intros E. injection E as <-. discriminate.
Qed.

Lemma css_only_file (name : string) acc :
  css_only acc -> name <> "css" ->
  forall x, Entries.lookup name acc = Some x -> is_dir x = false.
Proof.
  intros H Hn x Hx. destruct (is_dir x) eqn:E; [|reflexivity].
  apply (H _ _ Hx) in E. contradiction.
Qed.

(** A document rendered into a writable directory whose only directories
    are named [css]: its two files are put into the listing. *)
Lemma render_put (dir : string) (d : list string) (w : world)
    (acc : list (string * node)) (k text : string) :
  let now := posix (clock w) in
  PosixPath.components dir = Some d ->
  Fs.find d (fs w) = inr (Dir now true acc) ->
  PosixPath.plain_name (md_filename k) = true ->
  css_only acc ->
  render dir (k, text) w
  = (Ok tt,
     set_fs w (Fs.plug d (Dir now true (rendered now [(k, text)] acc)) (fs w))).
Proof.
  intros now Hd Hf Hplain Hcss. unfold render.
  fold (html_filename k).
  pose proof (components_join _ _ _ Hd Hplain) as Hc1.
  pose proof (components_join _ _ _ Hd (plain_html_filename _ Hplain)) as Hc2.
  erewrite bind_Ok.
  2:{ rewrite (write_text_focus _ _ _ _ _ Hc1 Hf) by discriminate.
      cbn [Fs.at_parent]. fold now.
      rewrite write_entry_put
        by (apply css_only_file; [exact Hcss | apply md_filename_neq_css]).
      reflexivity. }
  cbn [fst snd]. fold now.
  set (acc1 := put (md_filename k) (File now text) acc).
  assert (Hf1 : Fs.find d (fs (set_fs w (Fs.plug d (Dir now true acc1) (fs w))))
                = inr (Dir now true acc1))
    by (simpl; eapply find_plug; eauto).
  rewrite (write_text_focus _ _ _ _ _ Hc2 Hf1) by discriminate.
  cbn [Fs.at_parent clock set_fs]. fold now.
  rewrite write_entry_put
    by (apply css_only_file;
        [apply css_only_put; exact Hcss | apply html_filename_neq_css]).
  cbn [Os.commit fst snd].
  rewrite set_fs_set_fs. cbn [fs set_fs].
  rewrite (plug_plug _ _ _ _ _ Hf). reflexivity.
Qed.

Lemma rendered_cons now (item : string * string)
    (rest : list (string * string)) acc :
  rendered now (item :: rest) acc = rendered now rest (rendered now [item] acc).
Proof. reflexivity. Qed.

Lemma rendered_app now (l1 l2 : list (string * string)) acc :
  rendered now (l1 ++ l2) acc = rendered now l2 (rendered now l1 acc).
Proof. unfold rendered. apply fold_left_app. Qed.

Lemma css_only_rendered now (content : list (string * string)) :
  forall acc, css_only acc -> css_only (rendered now content acc).
Proof.
  induction content as [|item rest IH]; intros acc H; [exact H|].
  rewrite rendered_cons. apply IH. unfold rendered. cbn [fold_left].
  now apply css_only_put, css_only_put.
Qed.

(** A batch rendered into such a directory, whatever names collide. *)
Lemma render_all_put (dir : string) (d : list string)
    (content : list (string * string)) :
  forall (w : world) (acc : list (string * node)),
  let now := posix (clock w) in
  PosixPath.components dir = Some d ->
  Fs.find d (fs w) = inr (Dir now true acc) ->
  Forall (fun k => PosixPath.plain_name (md_filename k) = true)
    (map fst content) ->
  css_only acc ->
  for_each content (render dir) w
  = (Ok tt,
     set_fs w (Fs.plug d (Dir now true (rendered now content acc)) (fs w))).
Proof.
  induction content as [|[k text] rest IH]; intros w acc now Hd Hf Hplain Hcss.
  - simpl. unfold ret.
    now rewrite (plug_self _ _ _ Hf), set_fs_self.
  - cbn [for_each map fst] in *.
    inversion Hplain as [|? ? Hk Hplain']; subst.
    rewrite (bind_Ok _ _ _ _ _ (render_put dir d w acc k text Hd Hf Hk Hcss)).
    fold now.
    set (acc1 := rendered now [(k, text)] acc).
    set (w1 := set_fs w (Fs.plug d (Dir now true acc1) (fs w))).
    assert (Hf1 : Fs.find d (fs w1) = inr (Dir (posix (clock w1)) true acc1))
      by (simpl; eapply find_plug; eauto).
    rewrite (IH w1 acc1 Hd Hf1 Hplain').
    + unfold w1. cbn [set_fs fs clock entropy drawn]. fold now.
      rewrite (plug_plug _ _ _ _ _ Hf). reflexivity.
    + unfold acc1. now apply css_only_rendered.
Qed.

(** A batch converted into a writable storage root in which the name of the
    new directory is free, whatever names collide. *)
Lemma convert_run_put (content : list (string * string))
    (user_id : option string) (w : world) (ms : Q) (es : list (string * node)) :
  let now := posix (clock w) in
  let name := identity_of user_id ++ "_" ++ strftime_YmdHMS (clock w) ++ "_"
              ++ PyStr.take 8 (hex (entropy w (drawn w) mod 2 ^ 128)%N) in
  Fs.find sp (fs w) = inr (Dir ms true es) ->
  PyStr.mem PosixPath.sep (identity_of user_id) = false ->
  PyStr.mem PosixPath.nul (identity_of user_id) = false ->
  Entries.lookup name es = None ->
  Forall (fun k => PosixPath.plain_name (md_filename k) = true)
    (map fst content) ->
  convert_markdown_to_html content user_id w
  = (Ok (name, PosixPath.join STORAGE_PATH name),
     mkWorld
       (Fs.plug sp
          (Dir now true
             (es ++ [(name,
                      Dir now true
                        (rendered now content [("css", css_directory now)]))]))
          (fs w))
       (clock w) (entropy w) (S (drawn w))).
Proof.
  intros now name Hst Hsep Hnul Hfree Hplain.
  pose proof (plain_dir_name _ (clock w) (entropy w (drawn w) mod 2 ^ 128)%N
                Hsep Hnul) as Hname.
  fold name in Hname.
  unfold convert_markdown_to_html.
  rewrite (bind_Ok _ _ _ _ _
             (create_conversion_dir_fresh user_id w ms es Hst Hname Hfree)).
  fold now name.
  set (S1 := Dir now true (es ++ [(name, Dir now true [])])).
  set (w2 := mkWorld (Fs.plug sp S1 (fs w)) (clock w) (entropy w) (S (drawn w))).
  pose proof (components_join _ _ _ Hsp Hname) as Hc.
  assert (Hs2 : Fs.find sp (fs w2) = inr S1)
    by (simpl; eapply find_plug; eauto).
  assert (Hf2 : Fs.find (sp ++ [name]) (fs w2) = inr (Dir now true [])).
  { rewrite (find_focus _ _ _ _ Hs2). unfold S1. cbn [Fs.find].
    now rewrite (lookup_snoc _ _ _ Hfree). }
  rewrite (bind_Ok _ _ _ _ _
             (create_base_css_fresh _ _ w2 now [] Hc Hf2 eq_refl)).
  cbn [app]. change (posix (clock w2)) with now.
  fold (css_directory now).
  set (w3 := set_fs w2 _).
  assert (Hf3 : Fs.find (sp ++ [name]) (fs w3)
                = inr (Dir (posix (clock w3)) true [("css", css_directory now)]))
    by (simpl; eapply find_plug; eauto).
  assert (Hcss : css_only [("css", css_directory now)]).
  { intros n x. cbn [Entries.lookup].
    destruct (String.eqb "css" n) eqn:E; [|discriminate].
    apply String.eqb_eq in E. now subst n. }
  rewrite (bind_Ok _ _ _ _ _
             (render_all_put _ _ content w3 _ Hc Hf3 Hplain Hcss)).
  unfold ret. rewrite basename_join.
  rewrite (basename_plain name)
    by (apply plain_name_inv in Hname as (_ & _ & _ & Hs & _); exact Hs).
  f_equal. unfold w3, w2, set_fs. cbn [fs clock entropy drawn app].
  fold now. f_equal.
  rewrite (plug_plug _ _ _ _ _ Hf2).
  assert (Hs1 : Fs.find sp (Fs.plug sp S1 (fs w)) = inr S1)
    by (eapply find_plug; eauto).
  rewrite (plug_app _ _ _ _ _ Hs1), (plug_plug _ _ _ _ _ Hst).
  f_equal. unfold S1. cbn [Fs.plug].
  rewrite (lookup_snoc _ _ _ Hfree), (set_snoc _ _ _ _ Hfree). reflexivity.
Qed.

Lemma lookup_rendered_other now (content : list (string * string)) (n : string) :
  forall acc,
  ~ In n (map md_filename (map fst content)) ->
  ~ In n (map html_filename (map fst content)) ->
  Entries.lookup n (rendered now content acc) = Entries.lookup n acc.
Proof.
  induction content as [|[k text] rest IH]; intros acc H1 H2; [reflexivity|].
  rewrite rendered_cons, IH.
  - unfold rendered. cbn [fold_left fst snd]. rewrite !lookup_put.
    destruct (String.eqb (html_filename k) n) eqn:E1.
    { apply String.eqb_eq in E1. exfalso. apply H2. now left. }
    destruct (String.eqb (md_filename k) n) eqn:E2; [|reflexivity].
    apply String.eqb_eq in E2. exfalso. apply H1. now left.
  - intros H. apply H1. now right.
  - intros H. apply H2. now right.
Qed.

Lemma not_In_md_names (k : string) (keys : list string) :
  ~ In (html_filename k) (map md_filename keys).
Proof.
  intros H. apply in_map_iff in H as (k' & E & _).
  now apply md_filename_neq_html in E.
Qed.

Lemma not_In_html_names (k : string) (keys : list string) :
  ~ In (md_filename k) (map html_filename keys).
Proof.
  intros H. apply in_map_iff in H as (k' & E & _).
  symmetry in E. now apply md_filename_neq_html in E.
Qed.

(** The markdown file of a name holds the text of the last document of the
    batch saved under that name. *)
Lemma lookup_rendered_md now (pre post : list (string * string))
    (k text : string) acc :
  ~ In (md_filename k) (map md_filename (map fst post)) ->
  Entries.lookup (md_filename k) (rendered now (pre ++ (k, text) :: post) acc)
  = Some (File now text).
Proof.
  intros Hlast.
  rewrite rendered_app, rendered_cons,
    (lookup_rendered_other _ _ _ _ Hlast (not_In_html_names _ _)).
  unfold rendered at 1. cbn [fold_left fst snd]. rewrite !lookup_put.
  pose proof (md_filename_neq_html k k) as E. apply not_eq_sym in E.
  apply String.eqb_neq in E. rewrite E.
  now rewrite String.eqb_refl.
Qed.

(** The page of a name is that of the last document of the batch rendered
    under that name. *)
Lemma lookup_rendered_html now (pre post : list (string * string))
    (k text : string) acc :
  ~ In (html_filename k) (map html_filename (map fst post)) ->
  Entries.lookup (html_filename k) (rendered now (pre ++ (k, text) :: post) acc)
  = Some (File now (page_of (k, text))).
Proof.
  intros Hlast.
  rewrite rendered_app, rendered_cons,
    (lookup_rendered_other _ _ _ _ (not_In_md_names _ _) Hlast).
  unfold rendered at 1. cbn [fold_left fst snd]. rewrite !lookup_put.
  now rewrite String.eqb_refl.
Qed.

Lemma In_names_rendered now (content : list (string * string)) (n : string) :
  forall acc,
  In n (Entries.names (rendered now content acc))
  <-> In n (Entries.names acc)
      \/ exists k, In k (map fst content)
                   /\ (n = md_filename k \/ n = html_filename k).
Proof.
  induction content as [|[k text] rest IH]; intros acc.
  - simpl. split; [now left|]. intros [H|(k & [] & _)]. exact H.
  - rewrite rendered_cons, IH. unfold rendered at 1.
    cbn [fold_left fst snd map]. rewrite !In_names_put. split.
    + intros [[->|[->|H]]|(k' & Hk' & Hn)].
      * right. exists k. split; [now left | now right].
      * right. exists k. split; [now left | now left].
      * now left.
      * right. exists k'. split; [now right | exact Hn].
    + intros [H|(k' & [<-|Hk'] & Hn)].
      * left. right. now right.
      * left. destruct Hn as [->| ->]; [right; now left | now left].
      * right. now exists k'.
Qed.

Lemma NoDup_names_rendered now (content : list (string * string)) :
  forall acc,
  NoDup (Entries.names acc) -> NoDup (Entries.names (rendered now content acc)).
Proof.
  induction content as [|item rest IH]; intros acc H; [exact H|].
  rewrite rendered_cons. apply IH. unfold rendered. cbn [fold_left].
  now apply NoDup_names_put, NoDup_names_put.
Qed.

(** X19. A batch converted into a writable storage root in which the name of
    the new directory is free, when the identity has no separator and the
    markdown names of the documents are plain, whatever names collide: the
    call returns the name of the directory and its path; the names of the
    directory are pairwise distinct, and they are [css], the markdown names
    and the page names of the batch; the markdown file of a name holds the
    text of the last document saved under that name, and the page of a name
    is that of the last document rendered under that name. So two documents
    of one markdown name leave one markdown file and one page, those of the
    later. *)
Theorem convert_last_document_wins (content : list (string * string))
    (user_id : option string) (w : world) (ms : Q) (es : list (string * node)) :
  let now := posix (clock w) in
  let name := identity_of user_id ++ "_" ++ strftime_YmdHMS (clock w) ++ "_"
              ++ PyStr.take 8 (hex (entropy w (drawn w) mod 2 ^ 128)%N) in
  Fs.find sp (fs w) = inr (Dir ms true es) ->
  PyStr.mem PosixPath.sep (identity_of user_id) = false ->
  PyStr.mem PosixPath.nul (identity_of user_id) = false ->
  Entries.lookup name es = None ->
  Forall (fun k => PosixPath.plain_name (md_filename k) = true)
    (map fst content) ->
  exists w' site,
    convert_markdown_to_html content user_id w
    = (Ok (name, PosixPath.join STORAGE_PATH name), w')
    /\ Fs.find (sp ++ [name]) (fs w') = inr (Dir now true site)
    /\ NoDup (Entries.names site)
    /\ (forall n,
          In n (Entries.names site)
          <-> n = "css"
              \/ exists k, In k (map fst content)
                           /\ (n = md_filename k \/ n = html_filename k))
    /\ (forall pre k text post,
          content = (pre ++ (k, text) :: post)%list ->
          ~ In (md_filename k) (map md_filename (map fst post)) ->
          Entries.lookup (md_filename k) site = Some (File now text))
    /\ (forall pre k text post,
          content = (pre ++ (k, text) :: post)%list ->
          ~ In (html_filename k) (map html_filename (map fst post)) ->
          Entries.lookup (html_filename k) site
          = Some (File now (html_page (html_filename k) (markdown text)))).
Proof.
  intros now name Hst Hsep Hnul Hfree Hplain.
  exists (mkWorld
            (Fs.plug sp
               (Dir now true
                  (es ++ [(name,
                           Dir now true
                             (rendered now content
                                [("css", css_directory now)]))]))
               (fs w))
            (clock w) (entropy w) (S (drawn w))),
    (rendered now content [("css", css_directory now)]).
  split; [now apply (convert_run_put content user_id w ms es)|].
  cbn [fs]. repeat apply conj.
  - rewrite (find_focus _ _ _ _ (find_plug _ _ _ _ Hst)), find_entry.
    now rewrite (lookup_snoc _ _ _ Hfree).
  - apply NoDup_names_rendered. repeat constructor. intros [].
  - intros n. rewrite In_names_rendered. cbn [Entries.names map fst In].
    split.
    + intros [[<-|[]]|H]; [now left | now right].
    + intros [->|H]; [left; now left | now right].
  - intros pre k text post -> Hlast. now apply lookup_rendered_md.
  - intros pre k text post -> Hlast.
    now apply (lookup_rendered_html now pre post k text).
Qed.

(** ** A batch converted, then archived *)








(** ** The sign of the days to keep *)





(** ** Keys with a separator *)

Lemma endswith_contains (s p : string) :
  PyStr.endswith s p = true -> PyStr.contains s p = true.
Proof.
  intros H. apply endswith_inv in H as [a ->].
  rewrite <- (append_nil_r p) at 1. apply contains_app.
Qed.

Lemma replace_simple (a : string) :
  PyStr.contains a ".md" = false ->
  PyStr.replace_from 0 ".md" ".html" (a ++ ".md") = a ++ ".html".
Proof.
  induction a as [|c a IH]; intros H; [reflexivity|].
  cbn [PyStr.contains] in H. apply orb_false_iff in H as [Hs Hc].
  cbn [append PyStr.replace_from].
  assert (Hno : PyStr.startswith (String c (a ++ ".md")) ".md" = false).
  { destruct a as [|c2 [|c3 a3]].
    - cbn [append PyStr.startswith].
      destruct (Ascii.eqb "." c); reflexivity.
    - cbn [append PyStr.startswith].
      destruct (Ascii.eqb "." c), (Ascii.eqb "m" c2); reflexivity.
    - exact Hs. }
  rewrite Hno. now rewrite IH.
Qed.

(** A relative path joined to a directory: its components are walked from
    those of the directory. *)
Lemma components_join_steps (d s : string) (l : list string) :
  PosixPath.components d = Some l ->
  PyStr.mem PosixPath.nul s = false ->
  PyStr.startswith s (String PosixPath.sep "") = false ->
  PosixPath.components (PosixPath.join d s)
  = Some (fold_left PosixPath.step (PosixPath.split s) l).
Proof.
  intros Hd Hnul Hs.
  apply components_Some in Hd as [Hdn ->].
  unfold PosixPath.join. rewrite Hs.
  destruct (String.eqb d "") eqn:Ed; cbn [orb].
  { apply String.eqb_eq in Ed; subst d. cbn [append].
    unfold PosixPath.components. rewrite Hnul. reflexivity. }
  destruct (PyStr.endswith d (String PosixPath.sep "")) eqn:Ee.
  - apply endswith_inv in Ee as [a ->].
    rewrite append_assoc. cbn [append].
    unfold PosixPath.components.
    rewrite mem_app in Hdn |- *. cbn [PyStr.mem] in Hdn |- *. rewrite Hnul.
    rewrite Hdn.
    rewrite !split_app_sep, !fold_left_app. reflexivity.
  - unfold PosixPath.components.
    rewrite mem_app. cbn [PyStr.mem]. rewrite Hdn, Hnul.
    assert (E : Ascii.eqb PosixPath.nul PosixPath.sep = false) by reflexivity.
    rewrite E. cbn [orb].
    now rewrite split_app_sep, fold_left_app.
Qed.

Lemma md_filename_simple (key : string) :
  PyStr.contains key ".md" = false -> md_filename key = key ++ ".md".
Proof.
  intros H. unfold md_filename.
  destruct (PyStr.endswith key ".md") eqn:E; [|reflexivity].
  apply endswith_contains in E. congruence.
Qed.

Lemma html_filename_simple (key : string) :
  PyStr.contains key ".md" = false -> html_filename key = key ++ ".html".
Proof.
  intros H. unfold html_filename. rewrite (md_filename_simple _ H).
  now apply replace_simple.
Qed.

(** The conversion of a batch is that of the empty batch, and then the
    loop. *)
Lemma convert_split (content : list (string * string))
    (user_id : option string) (w : world) :
  convert_markdown_to_html content user_id w
  = match convert_markdown_to_html [] user_id w with
    | (Ok (conversion_id, conversion_dir), w0) =>
        bind (for_each content (render conversion_dir))
          (fun _ => ret (conversion_id, conversion_dir)) w0
    | (Raise e, w0) => (Raise e, w0)
    end.
Proof.
  unfold convert_markdown_to_html, bind.
  destruct (_create_conversion_dir user_id w) as [[dir|e] w1]; [|reflexivity].
  destruct (_create_base_css dir w1) as [[css|e] w2]; reflexivity.
Qed.

Lemma ends_hex (s : string) :
  String.length s = 8 -> PyStr.forallb lower_hex s = true ->
  exists s' c1 c2,
    s = s' ++ String c1 (String c2 "")
    /\ lower_hex c1 = true /\ lower_hex c2 = true.
Proof.
  intros L H.
  do 8 (destruct s as [|? s]; [discriminate L|]).
  destruct s; [|discriminate L].
  cbn [PyStr.forallb] in H.
  repeat match type of H with
         | (_ && _) = true => apply andb_true_iff in H as [? H]
         end.
  exists (String a (String a0 (String a1 (String a2 (String a3 (String a4 "")))))),
    a5, a6.
  auto.
Qed.

(** The name of a conversion directory ends with two characters of
    [[0-9a-f]]: it has neither the form of a markdown name nor that of a
    page name. *)
Lemma dir_name_not_document (identity : string) (t : datetime) (u : N)
    (a : string) :
  let name := identity ++ "_" ++ strftime_YmdHMS t ++ "_" ++ PyStr.take 8 (hex u) in
  a ++ ".md" <> name /\ a ++ ".html" <> name.
Proof.
  intros name.
  destruct (ends_hex _ (proj1 (suffix_shape u)) (proj2 (suffix_shape u)))
    as (s' & c1 & c2 & E & H1 & H2).
  assert (En : name
               = ((identity ++ "_" ++ strftime_YmdHMS t ++ "_" ++ s')
                  ++ String c1 "") ++ String c2 "").
  { unfold name. rewrite E. rewrite !append_assoc. cbn [append].
    rewrite ?append_assoc. reflexivity. }
  rewrite En. split; intros H.
  - change (a ++ ".md") with (a ++ "." ++ "m" ++ "d") in H.
    rewrite <- !append_assoc in H.
    apply append_inv_last in H as [H _].
    apply append_inv_last in H as [_ H]. subst c1. discriminate H1.
  - change (a ++ ".html") with (a ++ ".htm" ++ "l") in H.
    rewrite <- !append_assoc in H.
    apply append_inv_last in H as [_ H]. subst c2. discriminate H2.
Qed.

Lemma slot_not_dir (es : list (string * node)) (name n : string) (site : node) :
  (forall m wd sub, Entries.lookup n es <> Some (Dir m wd sub)) ->
  n <> name ->
  forall v, Entries.lookup n (es ++ [(name, site)]) = Some v -> is_dir v = false.
Proof.
  intros Hn Hne v. rewrite lookup_app.
  destruct (Entries.lookup n es) as [[mf df|m wd sub]|] eqn:E.
  - intros H. injection H as <-. reflexivity.
  - now destruct (Hn m wd sub).
  - cbn [Entries.lookup]. apply not_eq_sym, String.eqb_neq in Hne.
    rewrite Hne. discriminate.
Qed.

(** The path of a file named [../n] in a directory is that of [n] beside
    the directory. *)
Lemma components_join_up (dir n : string) (d : list string) (name : string) :
  PosixPath.components dir = Some (d ++ [name])%list ->
  PosixPath.plain_name n = true ->
  PosixPath.components (PosixPath.join dir ("../" ++ n))
  = Some (d ++ [n])%list.
Proof.
  intros Hd Hn. pose proof (plain_name_inv _ Hn) as (_ & _ & _ & Hsep & Hnul).
  rewrite (components_join_steps _ _ _ Hd); [|exact Hnul | reflexivity].
  change ("../" ++ n) with (".." ++ String PosixPath.sep n).
  rewrite split_app_sep, (split_plain n Hsep).
  change (PosixPath.split "..") with [".."].
  cbn [app fold_left].
  change (PosixPath.step (d ++ [name]) "..") with (removelast (d ++ [name])).
  now rewrite removelast_last, step_plain.
Qed.

(** X22. Keys are not checked. A batch of one document whose key is [../]
    and a name with no [.md] in it, converted into a writable storage root
    in which the name of the new directory is free: the call returns as for
    any batch, the new directory holds [css/style.css] and nothing else, and
    the markdown file and the page of the document are written beside it, in
    the storage root, under the name with [.md] and with [.html], over what
    regular files of these names were there. *)
Theorem convert_key_escapes (x text : string) (user_id : option string)
    (w : world) (ms : Q) (es : list (string * node)) :
  let now := posix (clock w) in
  let name := identity_of user_id ++ "_" ++ strftime_YmdHMS (clock w) ++ "_"
              ++ PyStr.take 8 (hex (entropy w (drawn w) mod 2 ^ 128)%N) in
  Fs.find sp (fs w) = inr (Dir ms true es) ->
  PyStr.mem PosixPath.sep (identity_of user_id) = false ->
  PyStr.mem PosixPath.nul (identity_of user_id) = false ->
  Entries.lookup name es = None ->
  PyStr.contains x ".md" = false ->
  PosixPath.plain_name (x ++ ".md") = true ->
  (forall m wd sub, Entries.lookup (x ++ ".md") es <> Some (Dir m wd sub)) ->
  (forall m wd sub, Entries.lookup (x ++ ".html") es <> Some (Dir m wd sub)) ->
  exists w',
    convert_markdown_to_html [("../" ++ x, text)] user_id w
    = (Ok (name, PosixPath.join STORAGE_PATH name), w')
    /\ Fs.find (sp ++ [name]) (fs w')
       = inr (Dir now true [("css", css_directory now)])
    /\ Fs.find (sp ++ [x ++ ".md"]) (fs w') = inr (File now text)
    /\ Fs.find (sp ++ [x ++ ".html"]) (fs w')
       = inr (File now (html_page ("../" ++ x ++ ".html") (markdown text))).
Proof.
  intros now name Hst Hsep Hnul Hfree Hx Hplain Hmd Hhtml.
  pose proof (plain_dir_name _ (clock w) (entropy w (drawn w) mod 2 ^ 128)%N
                Hsep Hnul) as Hname.
  fold name in Hname.
  pose proof (dir_name_not_document (identity_of user_id) (clock w)
                (entropy w (drawn w) mod 2 ^ 128)%N x) as Hne.
  cbv zeta in Hne. fold name in Hne. destruct Hne as [Hne1 Hne2].
  assert (Hplain2 : PosixPath.plain_name (x ++ ".html") = true).
  { rewrite <- (html_filename_simple _ Hx). apply plain_html_filename.
    now rewrite (md_filename_simple _ Hx). }
  assert (Hk : PyStr.contains ("../" ++ x) ".md" = false) by exact Hx.
  rewrite convert_split.
  rewrite (convert_run_put [] user_id w ms es Hst Hsep Hnul Hfree
             (Forall_nil _)).
  fold now name. cbn [rendered fold_left].
  set (site := Dir now true [("css", css_directory now)]).
  set (es0 := (es ++ [(name, site)])%list).
  set (w0 := mkWorld _ _ _ _).
  assert (Hst0 : Fs.find sp (fs w0) = inr (Dir now true es0))
    by (simpl; eapply find_plug; eauto).
  pose proof (components_join _ _ _ Hsp Hname) as Hc.
  pose proof (components_join_up _ _ _ _ Hc Hplain) as Hc1.
  pose proof (components_join_up _ _ _ _ Hc Hplain2) as Hc2.
  cbn [for_each]. unfold render. fold (html_filename ("../" ++ x)).
  rewrite (html_filename_simple _ Hk), (md_filename_simple _ Hk).
  change (("../" ++ x) ++ ".md") with ("../" ++ x ++ ".md").
  change (("../" ++ x) ++ ".html") with ("../" ++ x ++ ".html").
  set (Fm := File now text).
  set (Fh := File now (html_page ("../" ++ x ++ ".html") (markdown text))).
  set (es1 := put (x ++ ".md") Fm es0).
  set (es2 := put (x ++ ".html") Fh es1).
  set (w1 := set_fs w0 (Fs.plug sp (Dir now true es1) (fs w0))).
  assert (H1 : Os.write_text
                 (PosixPath.join (PosixPath.join STORAGE_PATH name)
                    ("../" ++ x ++ ".md")) text w0
               = (Ok tt, w1)).
  { rewrite (write_text_focus _ _ _ _ _ Hc1 Hst0) by discriminate.
    cbn [Fs.at_parent]. change (posix (clock w0)) with now.
    rewrite write_entry_put by (apply slot_not_dir; assumption).
    reflexivity. }
  assert (Hst1 : Fs.find sp (fs w1) = inr (Dir now true es1))
    by (simpl; eapply find_plug; eauto).
  set (w2 := set_fs w0 (Fs.plug sp (Dir now true es2) (fs w0))).
  assert (H2 : Os.write_text
                 (PosixPath.join (PosixPath.join STORAGE_PATH name)
                    ("../" ++ x ++ ".html"))
                 (html_page ("../" ++ x ++ ".html") (markdown text)) w1
               = (Ok tt, w2)).
  { rewrite (write_text_focus _ _ _ _ _ Hc2 Hst1) by discriminate.
    cbn [Fs.at_parent]. change (posix (clock w1)) with now.
    rewrite write_entry_put.
    - cbn [Os.commit fst snd]. unfold w1, w2.
      rewrite set_fs_set_fs. cbn [fs set_fs].
      now rewrite (plug_plug _ _ _ _ _ Hst0).
    - intros v. unfold es1. rewrite lookup_put.
      pose proof (md_neq_html x x) as E. apply String.eqb_neq in E.
      rewrite E. apply slot_not_dir; assumption. }
  exists w2. split.
  { unfold bind. rewrite H1, H2. reflexivity. }
  assert (Hfind : forall n,
             Fs.find (sp ++ [n]) (fs w2)
             = match Entries.lookup n es2 with
               | Some c => inr c
               | None => inl ENOENT
               end).
  { intros n. unfold w2. cbn [fs set_fs].
    rewrite (find_focus _ _ _ _ (find_plug _ _ _ _ Hst0)). apply find_entry. }
  rewrite !Hfind. unfold es2, es1. rewrite !lookup_put.
  pose proof (md_neq_html x x) as E. apply not_eq_sym in E.
  apply String.eqb_neq in E, Hne1, Hne2.
  rewrite E, Hne1, Hne2, !String.eqb_refl.
  unfold es0. rewrite (lookup_snoc _ _ _ Hfree). auto.
Qed.

Lemma for_each_raise {A} (l1 l2 : list A) (x : A) (body : A -> M unit)
    (w w1 w2 : world) (e : exn) :
  for_each l1 body w = (Ok tt, w1) ->
  body x w1 = (Raise e, w2) ->
  for_each (l1 ++ x :: l2) body w = (Raise e, w2).
Proof.
  revert w; induction l1 as [|a l1 IH]; intros w H1 H2.
  - injection H1 as <-. cbn [app for_each]. unfold bind. now rewrite H2.
  - cbn [app for_each] in *. unfold bind in *.
    destruct (body a w) as [[[]|e'] w'']; [|discriminate H1].
    now apply IH.
Qed.

(** The path of a file named [x/y] in a directory. *)
Lemma components_join_below (dir x y : string) (d : list string) :
  PosixPath.components dir = Some d ->
  PosixPath.plain_name x = true -> PosixPath.plain_name y = true ->
  PosixPath.components (PosixPath.join dir (x ++ "/" ++ y))
  = Some (d ++ [x; y])%list.
Proof.
  intros Hd Hx Hy.
  pose proof (plain_name_inv _ Hx) as (Hne & _ & _ & Hsx & Hnx).
  pose proof (plain_name_inv _ Hy) as (_ & _ & _ & Hsy & Hny).
  rewrite (components_join_steps _ _ _ Hd).
  - change (x ++ "/" ++ y) with (x ++ String PosixPath.sep y).
    rewrite split_app_sep, (split_plain x Hsx), (split_plain y Hsy).
    cbn [app fold_left]. rewrite !step_plain by assumption.
    now rewrite <- app_assoc.
  - rewrite !mem_app, Hnx, Hny. reflexivity.
  - destruct x as [|c x]; [congruence|].
    cbn [append PyStr.startswith]. cbn [PyStr.mem] in Hsx.
    apply orb_false_iff in Hsx as [Hc _]. now rewrite Hc.
Qed.

(** X23. A conversion is not undone when it fails. When a document of the
    batch is saved under a name [x/y] of two plain names, and [x] is not
    [css], the call raises at that document, with [ENOENT]
    ([FileNotFoundError]) when the conversion directory has nothing named
    [x] and [ENOTDIR] when a document written before has that name; the
    conversion directory stays, with the stylesheet and the files of the
    documents before that one, and the documents after it are not
    written. *)
Theorem convert_stops_at_nested_key (pre post : list (string * string))
    (k text x y : string) (user_id : option string) (w : world) (ms : Q)
    (es : list (string * node)) :
  let now := posix (clock w) in
  let name := identity_of user_id ++ "_" ++ strftime_YmdHMS (clock w) ++ "_"
              ++ PyStr.take 8 (hex (entropy w (drawn w) mod 2 ^ 128)%N) in
  let site := rendered now pre [("css", css_directory now)] in
  Fs.find sp (fs w) = inr (Dir ms true es) ->
  PyStr.mem PosixPath.sep (identity_of user_id) = false ->
  PyStr.mem PosixPath.nul (identity_of user_id) = false ->
  Entries.lookup name es = None ->
  Forall (fun k => PosixPath.plain_name (md_filename k) = true)
    (map fst pre) ->
  md_filename k = x ++ "/" ++ y ->
  PosixPath.plain_name x = true -> PosixPath.plain_name y = true ->
  x <> "css" ->
  exists w',
    convert_markdown_to_html (pre ++ (k, text) :: post) user_id w
    = (Raise (OSError (match Entries.lookup x site with
                       | Some _ => ENOTDIR
                       | None => ENOENT
                       end)
                (PosixPath.join (PosixPath.join STORAGE_PATH name)
                   (md_filename k))), w')
    /\ Fs.find (sp ++ [name]) (fs w') = inr (Dir now true site)
    /\ drawn w' = S (drawn w).
Proof.
  intros now name site Hst Hsep Hnul Hfree Hplain Hk Hx Hy Hcss.
  pose proof (plain_dir_name _ (clock w) (entropy w (drawn w) mod 2 ^ 128)%N
                Hsep Hnul) as Hname.
  fold name in Hname.
  rewrite convert_split.
  rewrite (convert_run_put [] user_id w ms es Hst Hsep Hnul Hfree
             (Forall_nil _)).
  fold now name. cbn [rendered fold_left].
  set (site0 := [("css", css_directory now)]).
  set (w0 := mkWorld _ _ _ _).
  assert (Hf0 : Fs.find (sp ++ [name]) (fs w0)
                = inr (Dir (posix (clock w0)) true site0)).
  { unfold w0. cbn [fs clock].
    rewrite (find_focus _ _ _ _ (find_plug _ _ _ _ Hst)), find_entry.
    now rewrite (lookup_snoc _ _ _ Hfree). }
  pose proof (components_join _ _ _ Hsp Hname) as Hc.
  assert (Hcss0 : css_only site0).
  { intros n v. unfold site0. cbn [Entries.lookup].
    destruct (String.eqb "css" n) eqn:E; [|discriminate].
    apply String.eqb_eq in E. now subst n. }
  pose proof (render_all_put _ _ pre w0 site0 Hc Hf0 Hplain Hcss0) as Hpre.
  change (posix (clock w0)) with now in Hpre. fold site in Hpre.
  set (w1 := set_fs w0 (Fs.plug (sp ++ [name]) (Dir now true site) (fs w0)))
    in *.
  assert (Hf1 : Fs.find (sp ++ [name]) (fs w1) = inr (Dir now true site))
    by (simpl; eapply find_plug; eauto).
  assert (Hsite : css_only site) by now apply css_only_rendered.
  pose proof (components_join_below _ x y _ Hc Hx Hy) as Hc1.
  rewrite <- Hk in Hc1.
  assert (Hitem : render (PosixPath.join STORAGE_PATH name) (k, text) w1
                  = (Raise (OSError (match Entries.lookup x site with
                                     | Some _ => ENOTDIR
                                     | None => ENOENT
                                     end)
                              (PosixPath.join (PosixPath.join STORAGE_PATH name)
                                 (md_filename k))), w1)).
  { unfold render. apply bind_Raise.
    rewrite (write_text_focus _ _ _ _ _ Hc1 Hf1) by discriminate.
    cbn [Fs.at_parent].
    destruct (Entries.lookup x site) as [c|] eqn:E.
    - pose proof (css_only_file _ _ Hsite Hcss _ E) as Hc0.
      destruct c as [mf df|]; [|discriminate Hc0].
      cbn [Fs.write_entry fst snd Os.commit].
      rewrite (set_lookup_id _ _ _ E).
      now rewrite (plug_self _ _ _ Hf1), set_fs_self.
    - cbn [fst snd Os.commit].
      now rewrite (plug_self _ _ _ Hf1), set_fs_self. }
  exists w1. split; [|split; [exact Hf1 | reflexivity]].
  unfold bind. now rewrite (for_each_raise _ _ _ _ _ _ _ _ Hpre Hitem).
Qed.

(** ** An archive that cannot be written *)

(** X24. When the conversion is there but its archive cannot be written
    beside it, [create_zip] raises on opening the archive, before it reads
    any file: [EISDIR] when a directory of the storage root has the name of
    the archive, [EACCES] when that name is free and the storage root is
    read-only. Nothing changes. *)
Theorem create_zip_cannot_write (conversion_id : string) (conv : node)
    (w : world) (ms : Q) (ws : bool) (es : list (string * node)) :
  Fs.find sp (fs w) = inr (Dir ms ws es) ->
  PosixPath.plain_name conversion_id = true ->
  Entries.lookup conversion_id es = Some conv ->
  can_write (conversion_id ++ ".zip") (Dir ms ws es) = false ->
  create_zip conversion_id w
  = (Raise (OSError (match Entries.lookup (conversion_id ++ ".zip") es with
                     | Some _ => EISDIR
                     | None => EACCES
                     end)
              (PosixPath.join STORAGE_PATH conversion_id ++ ".zip")), w).
Proof.
  intros Hst Hid Hconv Hslot.
  pose proof (components_join _ _ _ Hsp Hid) as Hc.
  pose proof (components_join _ _ _ Hsp (zip_name_plain _ Hid)) as Hz.
  rewrite (join_app _ _ _ Hid) in Hz.
  unfold create_zip.
  erewrite bind_Ok.
  2:{ rewrite (path_exists_focus _ _ _ _ _ Hc Hst).
      rewrite find_entry, Hconv. reflexivity. }
  cbn [negb]. apply bind_Raise.
  rewrite (write_text_focus _ _ _ _ _ Hz Hst) by discriminate.
  cbn [Fs.at_parent Fs.write_entry]. unfold can_write in Hslot.
  destruct (Entries.lookup (conversion_id ++ ".zip") es) as [[mf df|m wd sub]|];
    [discriminate Hslot | | subst ws];
    cbn [fst snd Os.commit];
    now rewrite (plug_self _ _ _ Hst), set_fs_self.
Qed.

(** ** A storage root that is read-only *)

(** X25. A batch converted into a read-only storage root in which the name
    of the new directory is free: the call raises [EACCES]
    ([PermissionError]) for the path of the directory, whatever the batch;
    nothing is written, and one random number is drawn all the same. *)
Theorem convert_read_only_root (content : list (string * string))
    (user_id : option string) (w : world) (ms : Q) (es : list (string * node)) :
  let name := identity_of user_id ++ "_" ++ strftime_YmdHMS (clock w) ++ "_"
              ++ PyStr.take 8 (hex (entropy w (drawn w) mod 2 ^ 128)%N) in
  Fs.find sp (fs w) = inr (Dir ms false es) ->
  PyStr.mem PosixPath.sep (identity_of user_id) = false ->
  PyStr.mem PosixPath.nul (identity_of user_id) = false ->
  Entries.lookup name es = None ->
  convert_markdown_to_html content user_id w
  = (Raise (OSError EACCES (PosixPath.join STORAGE_PATH name)),
     mkWorld (fs w) (clock w) (entropy w) (S (drawn w))).
Proof.
  intros name Hst Hsep Hnul Hfree.
  pose proof (plain_dir_name _ (clock w) (entropy w (drawn w) mod 2 ^ 128)%N
                Hsep Hnul) as Hname.
  fold name in Hname.
  pose proof (components_join _ _ _ Hsp Hname) as Hc.
  unfold convert_markdown_to_html. apply bind_Raise.
  rewrite create_conversion_dir_run. fold name.
  set (w1 := mkWorld (fs w) (clock w) (entropy w) (S (drawn w))).
  rewrite (makedirs_focus_os _ _ _ _ w1 Hc Hst).
  cbn [Fs.makedirs]. rewrite Hfree. cbn [fst snd Os.commit].
  unfold w1, set_fs. cbn [fs clock entropy drawn].
  rewrite (plug_self _ _ _ Hst). reflexivity.
Qed.

(** ** A sweep that fails after it removed *)


End InStorage.

(** ** The storage root and the stylesheet, made again *)

Lemma makedirs_existing now (p : list string) (n : node) (m : Q) (wd : bool)
    (es : list (string * node)) :
  Fs.find p n = inr (Dir m wd es) -> Fs.makedirs now p n = (None, n).
Proof.
  revert n; induction p as [|name p IH]; intros n H.
  - simpl in H. injection H as ->. reflexivity.
  - apply find_cons_inv in H as (m0 & w0 & es0 & c & -> & Hc & Hx).
    cbn [Fs.makedirs]. rewrite Hc, (IH _ Hx). now rewrite set_lookup_id.
Qed.

Lemma makedirs_on_file now (p : list string) (n : node) (m : Q) (data : string) :
  Fs.find p n = inr (File m data) -> Fs.makedirs now p n = (Some EEXIST, n).
Proof.
  revert n; induction p as [|name p IH]; intros n H.
  - simpl in H. injection H as ->. reflexivity.
  - apply find_cons_inv in H as (m0 & w0 & es0 & c & -> & Hc & Hx).
    cbn [Fs.makedirs]. rewrite Hc, (IH _ Hx). now rewrite set_lookup_id.
Qed.

(** What [makedirs] makes is a directory. *)
Lemma makedirs_find_dir now (p : list string) (n n' : node) :
  Fs.makedirs now p n = (None, n') ->
  exists m wd es, Fs.find p n' = inr (Dir m wd es).
Proof.
  revert n n'; induction p as [|name p IH]; intros n n' H.
  - cbn [Fs.makedirs] in H. destruct n as [|m wd es]; [discriminate|].
    injection H as <-. simpl. eauto.
  - cbn [Fs.makedirs] in H. destruct n as [|m wd es]; [discriminate|].
    destruct (Entries.lookup name es) as [c|] eqn:E.
    + destruct (Fs.makedirs now p c) as [e c'] eqn:Ec.
      injection H as -> <-. cbn [Fs.find].
      rewrite (lookup_set_same _ _ _ _ E). eauto.
    + destruct wd; [|discriminate].
      destruct (Fs.makedirs now p (Dir now true [])) as [e c'] eqn:Ec.
      injection H as -> <-. cbn [Fs.find].
      rewrite (lookup_snoc _ _ _ E). eauto.
Qed.

Lemma makedirs_inv (path : string) (w w' : world) :
  Os.makedirs path w = (Ok tt, w') ->
  exists p n',
    PosixPath.components path = Some p
    /\ Fs.makedirs (posix (clock w)) p (fs w) = (None, n')
    /\ w' = set_fs w n'.
Proof.
  unfold Os.makedirs, bind, Os.resolve, Os.now_posix.
  destruct (PosixPath.components path) as [p|]; [|discriminate].
  unfold ret, Os.commit.
  destruct (Fs.makedirs _ p (fs w)) as [[e|] n'] eqn:E; [discriminate|].
  intros H; injection H as <-. now exists p, n'.
Qed.

Lemma makedirs_existing_os (path : string) (p : list string) (w : world)
    (m : Q) (wd : bool) (es : list (string * node)) :
  PosixPath.components path = Some p ->
  Fs.find p (fs w) = inr (Dir m wd es) ->
  Os.makedirs path w = (Ok tt, w).
Proof.
  intros Hp Hf. unfold Os.makedirs, bind, Os.resolve, Os.now_posix.
  rewrite Hp. unfold ret. rewrite (makedirs_existing _ _ _ _ _ _ Hf).
  cbn [Os.commit]. now rewrite set_fs_self.
Qed.

(** X9. Once the service is made, the storage root is a directory, and
    making the service again changes nothing. *)
Theorem init_makes_storage_root (w w' : world) :
  init w = (Ok tt, w') ->
  Os.path_isdir STORAGE_PATH w' = (Ok true, w')
  /\ init w' = (Ok tt, w').
Proof.
  intros H. apply makedirs_inv in H as (p & n' & Hp & Hm & ->).
  destruct (makedirs_find_dir _ _ _ _ Hm) as (m & wd & es & Hf).
  split.
  - unfold Os.path_isdir. rewrite Hp. cbn [fs set_fs]. now rewrite Hf.
  - now apply (makedirs_existing_os _ p _ m wd es).
Qed.

(** X10. When a regular file is at the path of the storage root, making
    the service raises [FileExistsError] and changes nothing. *)
Theorem init_refuses_regular_file (w : world) (p : list string) (m : Q)
    (data : string) :
  PosixPath.components STORAGE_PATH = Some p ->
  Fs.find p (fs w) = inr (File m data) ->
  init w = (Raise (OSError EEXIST STORAGE_PATH), w).
Proof.
  intros Hp Hf. unfold init, Os.makedirs, bind, Os.resolve, Os.now_posix.
  rewrite Hp. unfold ret. rewrite (makedirs_on_file _ _ _ _ _ Hf).
  cbn [Os.commit]. now rewrite set_fs_self.
Qed.

Lemma find_snoc_parent (p : list string) (name : string) (n x : node) :
  Fs.find (p ++ [name]) n = inr x ->
  exists m wd es, Fs.find p n = inr (Dir m wd es).
Proof.
  rewrite find_app. destruct (Fs.find p n) as [e|[m d|m wd es]];
    try discriminate; eauto.
Qed.

(** X11. Once the stylesheet is written into a directory, the file
    [css/style.css] of the directory holds the stylesheet, and writing it
    again changes nothing. *)
Theorem create_base_css_idempotent (output_dir css_file : string) (w w' : world) :
  _create_base_css output_dir w = (Ok css_file, w') ->
  css_file = PosixPath.join (PosixPath.join output_dir "css") "style.css"
  /\ Os.read_bytes css_file w' = (Ok BASE_CSS, w')
  /\ _create_base_css output_dir w' = (Ok css_file, w').
Proof.
  unfold _create_base_css, bind.
  destruct (Os.makedirs _ w) as [[[]|e] w1] eqn:E1; [|discriminate].
  destruct (Os.write_text _ BASE_CSS w1) as [[[]|e] w2] eqn:E2; [|discriminate].
  unfold ret. intros H; injection H as <- <-.
  apply makedirs_inv in E1 as (q & n1 & Hq & _ & ->).
  pose proof (components_join _ "style.css" _ Hq eq_refl) as Hp.
  pose proof E2 as E2'.
  apply write_text_inv in E2' as (p & n2 & Hp' & Hw & ->).
  rewrite Hp in Hp'. injection Hp' as <-. cbn [clock set_fs fs] in Hw.
  pose proof (at_parent_write_find _ _ _ _ _ Hw) as Hf.
  destruct (find_snoc_parent _ _ _ _ Hf) as (m & wd & es & Hd).
  split; [reflexivity|]. split.
  - eapply read_bytes_find; [exact Hp | exact Hf].
  - set (w2 := set_fs (set_fs w n1) n2) in *.
    change (Fs.find q (fs w2) = inr (Dir m wd es)) in Hd.
    change (Fs.find (q ++ ["style.css"]) (fs w2)
            = inr (File (posix (clock w2)) BASE_CSS)) in Hf.
    rewrite (makedirs_existing_os _ q w2 m wd es Hq Hd).
    rewrite (write_text_same _ _ _ _ Hp) ; [reflexivity | | exact Hf].
    intros E. apply app_eq_nil in E as [_ E]. discriminate.
Qed.

(** ** The names of a document *)

(** X12. The name under which a document is saved always ends with [.md],
    and normalizing it again changes nothing: a key and the key with [.md]
    name the same file. *)
Theorem md_filename_normal (filename : string) :
  PyStr.endswith (md_filename filename) ".md" = true
  /\ md_filename (md_filename filename) = md_filename filename
  /\ html_filename (md_filename filename) = html_filename filename.
Proof.
  assert (H : PyStr.endswith (md_filename filename) ".md" = true).
  { destruct (md_filename_stem filename) as [a ->]. apply endswith_app. }
  assert (H2 : md_filename (md_filename filename) = md_filename filename).
  { unfold md_filename at 1. now rewrite H. }
  repeat split; try assumption.
  unfold html_filename. now rewrite H2.
Qed.

Lemma replace_cons (c : ascii) (s : string) :
  exists t, PyStr.replace_from 0 ".md" ".html" (String c s) = String c t.
Proof.
  cbn [PyStr.replace_from].
  destruct (PyStr.startswith (String c s) ".md") eqn:E.
  - cbn [PyStr.startswith] in E. apply andb_true_iff in E as [E _].
    apply Ascii.eqb_eq in E. subst c. eexists. reflexivity.
  - eexists. reflexivity.
Qed.

(** What [replace] leaves does not start with [.md]. *)
Lemma replace_not_startswith (s : string) :
  PyStr.startswith (PyStr.replace_from 0 ".md" ".html" s) ".md" = false.
Proof.
  destruct s as [|c s]; [reflexivity|].
  cbn [PyStr.replace_from].
  destruct (PyStr.startswith (String c s) ".md") eqn:E; [reflexivity|].
  destruct (PyStr.startswith
              (String c (PyStr.replace_from 0 ".md" ".html" s)) ".md") eqn:E';
    [|reflexivity].
  exfalso. cbn [PyStr.startswith] in E'.
  apply andb_true_iff in E' as [Ec E'].
  destruct s as [|c2 s2]; [discriminate|].
  destruct (replace_cons c2 s2) as [t2 Ht2]. rewrite Ht2 in E'.
  apply andb_true_iff in E' as [Ec2 E'].
  assert (Hno : PyStr.startswith (String c2 s2) ".md" = false).
  { cbn [PyStr.startswith]. apply Ascii.eqb_eq in Ec2. subst c2. reflexivity. }
  cbn [PyStr.replace_from] in Ht2. rewrite Hno in Ht2. injection Ht2 as <-.
  destruct s2 as [|c3 s3]; [discriminate|].
  destruct (replace_cons c3 s3) as [t3 Ht3]. rewrite Ht3 in E'.
  apply andb_true_iff in E' as [Ec3 _].
  cbn [PyStr.startswith] in E. rewrite Ec, Ec2, Ec3 in E. discriminate.
Qed.

Lemma contains_cons_false (c : ascii) (s sub : string) :
  PyStr.startswith (String c s) sub = false ->
  PyStr.contains (String c s) sub = PyStr.contains s sub.
Proof. intros H. cbn [PyStr.contains]. now rewrite H. Qed.

Lemma length_drop (k : nat) (s : string) :
  String.length (PyStr.drop k s) <= String.length s.
Proof.
  revert k; induction s as [|c s IH]; intros [|k]; simpl; try lia.
  specialize (IH k). lia.
Qed.

(** What [replace] leaves has no [.md] in it. *)
Lemma replace_no_md (s : string) :
  PyStr.contains (PyStr.replace_from 0 ".md" ".html" s) ".md" = false.
Proof.
  remember (String.length s) as k eqn:Hk.
  revert s Hk; induction k as [k IH] using lt_wf_ind; intros s Hk.
  destruct s as [|c s]; [reflexivity|].
  pose proof (replace_not_startswith (String c s)) as Hns.
  cbn [PyStr.replace_from] in *.
  destruct (PyStr.startswith (String c s) ".md") eqn:E.
  - rewrite replace_from_skip.
    cbn [append String.length Nat.sub].
    rewrite !contains_cons_false by reflexivity.
    apply (IH (String.length (PyStr.drop 2 s))); [|reflexivity].
    pose proof (length_drop 2 s). simpl in Hk. lia.
  - rewrite contains_cons_false by assumption.
    apply (IH (String.length s)); [|reflexivity]. simpl in Hk. lia.
Qed.

(** X13. The name of the page of a document has no [.md] left in it,
    wherever [.md] stood in the name of the markdown file; it ends with
    [.html]; and it is not the name of the markdown file. *)
Theorem html_filename_has_no_md (filename : string) :
  PyStr.contains (html_filename filename) ".md" = false
  /\ PyStr.endswith (html_filename filename) ".html" = true
  /\ html_filename filename <> md_filename filename.
Proof.
  repeat split.
  - apply replace_no_md.
  - destruct (html_filename_ends filename) as [b ->]. apply endswith_app.
  - apply not_eq_sym, md_filename_neq_html.
Qed.

(** X14. For a key with no [.md] in it, the key and the key with [.md] are
    saved under the same name, the key with [.md], and their page is the key
    with [.html]. *)
Theorem names_of_simple_key (key : string) :
  PyStr.contains key ".md" = false ->
  md_filename key = key ++ ".md"
  /\ md_filename (key ++ ".md") = key ++ ".md"
  /\ html_filename key = key ++ ".html"
  /\ html_filename (key ++ ".md") = key ++ ".html".
Proof.
  intros H.
  assert (H1 : md_filename key = key ++ ".md").
  { unfold md_filename. destruct (PyStr.endswith key ".md") eqn:E; [|reflexivity].
    apply endswith_contains in E. congruence. }
  assert (H2 : md_filename (key ++ ".md") = key ++ ".md").
  { unfold md_filename. now rewrite endswith_app. }
  repeat split; try assumption.
  - unfold html_filename. rewrite H1. now apply replace_simple.
  - unfold html_filename. rewrite H2. now apply replace_simple.
Qed.

(** ** Two allocations *)

Lemma take_app_short (k : nat) (a b : string) :
  k <= String.length a -> PyStr.take k (a ++ b) = PyStr.take k a.
Proof.
  revert k; induction a as [|c a IH]; intros [|k] H; simpl in *;
    try reflexivity; try lia.
  rewrite IH; [reflexivity | lia].
Qed.

Lemma take_all (s : string) : PyStr.take (String.length s) s = s.
Proof. induction s; simpl; congruence. Qed.

(** The first digits of a number are the digits of its quotient. *)
Lemma take_fixed (base : N) (width j : nat) (n : N) :
  PyStr.take width (fixed base (width + j) n)
  = fixed base width (n / base ^ N.of_nat j)%N.
Proof.
  revert n; induction j as [|j IH]; intros n.
  - rewrite Nat.add_0_r. simpl N.of_nat. rewrite N.pow_0_r, N.div_1_r.
    rewrite <- (length_fixed base width n) at 1. apply take_all.
  - rewrite Nat.add_succ_r. cbn [fixed].
    rewrite take_app_short by (rewrite length_fixed; lia).
    rewrite IH, Nat2N.inj_succ, N.pow_succ_r', N.Div0.div_div. reflexivity.
Qed.

Lemma digit_inj (d1 d2 : N) :
  (d1 < 16)%N -> (d2 < 16)%N -> digit d1 = digit d2 -> d1 = d2.
Proof.
  intros H1 H2 E. apply (f_equal N_of_ascii) in E. unfold digit in E.
  destruct (N.ltb_spec d1 10), (N.ltb_spec d2 10);
    rewrite !N_ascii_embedding in E by lia; lia.
Qed.

Lemma fixed_hex_inj (width : nat) (n1 n2 : N) :
  (n1 < 16 ^ N.of_nat width)%N -> (n2 < 16 ^ N.of_nat width)%N ->
  fixed 16 width n1 = fixed 16 width n2 -> n1 = n2.
Proof.
  revert n1 n2; induction width as [|k IH]; intros n1 n2 H1 H2 E.
  - simpl in H1, H2. lia.
  - cbn [fixed] in E. apply append_inv_last in E as [Eq Ed].
    rewrite Nat2N.inj_succ, N.pow_succ_r' in H1, H2.
    apply IH in Eq; try (apply N.Div0.div_lt_upper_bound; assumption).
    apply digit_inj in Ed; try (apply N.mod_lt; discriminate).
    rewrite (N.div_mod n1 16), (N.div_mod n2 16) by discriminate.
    now rewrite Eq, Ed.
Qed.

(** The suffix of a name tells the 32 high bits of the number drawn, and
    nothing else. *)
Lemma suffix_eq_iff (u1 u2 : N) :
  (u1 < 2 ^ 128)%N -> (u2 < 2 ^ 128)%N ->
  (PyStr.take 8 (hex u1) = PyStr.take 8 (hex u2)
   <-> (u1 / 2 ^ 96 = u2 / 2 ^ 96)%N).
Proof.
  intros H1 H2. unfold hex.
  change 32 with (8 + 24). rewrite !take_fixed.
  change (16 ^ N.of_nat 24)%N with (2 ^ 96)%N.
  split; [|now intros ->].
  apply fixed_hex_inj; apply N.Div0.div_lt_upper_bound;
    change (2 ^ 96 * 16 ^ N.of_nat 8)%N with (2 ^ 128)%N; assumption.
Qed.

Lemma join_inj_tail (d a x y : string) :
  PyStr.startswith x "/" = false -> PyStr.startswith y "/" = false ->
  x <> "" -> y <> "" ->
  PosixPath.join d (a ++ x) = PosixPath.join d (a ++ y) -> x = y.
Proof.
  intros Hx Hy Hxe Hye. unfold PosixPath.join.
  assert (Hs : PyStr.startswith (a ++ x) (String PosixPath.sep "")
               = PyStr.startswith (a ++ y) (String PosixPath.sep "")).
  { destruct a as [|c a]; [|reflexivity]. simpl append.
    change (String PosixPath.sep "") with "/". now rewrite Hx, Hy. }
  rewrite <- Hs.
  destruct (PyStr.startswith (a ++ x) (String PosixPath.sep "")).
  - apply append_inv_head.
  - destruct (String.eqb d "" || PyStr.endswith d (String PosixPath.sep "")).
    + intros E. now apply append_inv_head, append_inv_head in E.
    + intros E. apply append_inv_head in E. injection E as E.
      now apply append_inv_head in E.
Qed.

(** X15. Two allocations for the same hint within the same second get the
    same directory exactly when the two numbers drawn have the same 32 high
    bits. *)
Theorem allocations_collide_iff (user_id : option string)
    (w1 w1' w2 w2' : world) (dir1 dir2 : string) :
  clock w1 = clock w2 ->
  _create_conversion_dir user_id w1 = (Ok dir1, w1') ->
  _create_conversion_dir user_id w2 = (Ok dir2, w2') ->
  (dir1 = dir2
   <-> ((entropy w1 (drawn w1) mod 2 ^ 128) / 2 ^ 96
        = (entropy w2 (drawn w2) mod 2 ^ 128) / 2 ^ 96)%N).
Proof.
  intros Hc H1 H2.
  apply create_conversion_dir_inv in H1 as [-> _].
  apply create_conversion_dir_inv in H2 as [-> _].
  rewrite <- Hc.
  set (u1 := (entropy w1 (drawn w1) mod 2 ^ 128)%N).
  set (u2 := (entropy w2 (drawn w2) mod 2 ^ 128)%N).
  assert (B1 : (u1 < 2 ^ 128)%N) by (apply N.mod_lt; discriminate).
  assert (B2 : (u2 < 2 ^ 128)%N) by (apply N.mod_lt; discriminate).
  rewrite <- (suffix_eq_iff u1 u2 B1 B2).
  set (s1 := PyStr.take 8 (hex u1)). set (s2 := PyStr.take 8 (hex u2)).
  set (stamp := strftime_YmdHMS (clock w1)).
  split.
  - intros E. apply join_inj_tail in E; try reflexivity; try discriminate.
    apply (append_inv_head "_") in E. apply append_inv_head in E.
    now apply (append_inv_head "_") in E.
  - now intros ->.
Qed.


(** ** Archiving again, and sweeping with nothing to take *)

Section Again.

Variable sp : list string.
Hypothesis Hsp : PosixPath.components STORAGE_PATH = Some sp.

Lemma write_in_twice (name d1 d2 : string) (w : world) (n : node) :
  Fs.find sp (fs w) = inr n ->
  can_write name n = true ->
  write_in sp name d2 (write_in sp name d1 w) = write_in sp name d2 w.
Proof.
  intros Hf Hc. unfold write_in at 1 2. rewrite Hf. cbn [fs set_fs clock].
  rewrite (find_plug _ _ _ _ Hf), (with_file_twice _ _ _ _ _ Hc).
  rewrite set_fs_set_fs, (plug_plug _ _ _ _ _ Hf).
  unfold write_in. now rewrite Hf.
Qed.

(** X17. Archiving a conversion again, right after its archive was made,
    overwrites the archive with the same bytes and changes nothing: the
    archive stands beside the conversion, so it is no member of itself. *)
Theorem create_zip_again (w : world) (ms : Q) (ws : bool)
    (es : list (string * node)) (conversion_id : string) (conv : node)
    (zip_path : string) (w' : world) :
  Fs.find sp (fs w) = inr (Dir ms ws es) ->
  PosixPath.plain_name conversion_id = true ->
  Entries.lookup conversion_id es = Some conv ->
  can_write (conversion_id ++ ".zip") (Dir ms ws es) = true ->
  well_formed conv = true ->
  create_zip conversion_id w = (Ok zip_path, w') ->
  create_zip conversion_id w' = (Ok zip_path, w').
Proof.
  intros Hst Hid Hconv Hslot Hwf Hrun.
  rewrite (create_zip_run sp Hsp w ms ws es conversion_id conv
             Hst Hid Hconv Hslot Hwf) in Hrun.
  injection Hrun as <- <-.
  set (archive := zip_bytes (members [] conv)).
  set (zn := conversion_id ++ ".zip") in *.
  destruct (with_file_lookup (posix (clock w)) archive zn ms ws es Hslot)
    as (m1 & es1 & Hw & Hl & Hother).
  assert (Hst' : Fs.find sp (fs (write_in sp zn archive w))
                 = inr (Dir m1 ws es1)).
  { unfold write_in. rewrite Hst. cbn [fs set_fs]. rewrite <- Hw.
    eapply find_plug; eauto. }
  assert (Hconv' : Entries.lookup conversion_id es1 = Some conv).
  { rewrite (Hother _ (zip_name_neq conversion_id)). exact Hconv. }
  assert (Hslot' : can_write zn (Dir m1 ws es1) = true).
  { unfold can_write. now rewrite Hl. }
  rewrite (create_zip_run sp Hsp _ m1 ws es1 conversion_id conv
             Hst' Hid Hconv' Hslot' Hwf).
  fold zn archive.
  now rewrite (write_in_twice zn archive archive w _ Hst Hslot).
Qed.


End Again.

End ConversionService.

(* ================================================================== *)
(** * Part III: the properties at sample inputs *)
(* ================================================================== *)

Lemma valid_new_year : valid_datetime new_year.
Proof. unfold valid_datetime; simpl; lia. Qed.

(** The allocation for the hint [u1] on 2024-01-01T00:00:00. *)
Lemma conversion_id_form_witness :
  (valid_datetime (clock empty_world)
   /\ _create_conversion_dir "storage" (Some "u1") empty_world
      = (Ok "storage/u1_20240101000000_89abcdef",
         snd (_create_conversion_dir "storage" (Some "u1") empty_world)))
  /\ PosixPath.basename "storage/u1_20240101000000_89abcdef"
     = "u1_20240101000000_89abcdef"
  /\ id_has_form "u1" "20240101000000" "u1_20240101000000_89abcdef".
Proof.
  assert (H : _create_conversion_dir "storage" (Some "u1") empty_world
              = (Ok "storage/u1_20240101000000_89abcdef",
                 snd (_create_conversion_dir "storage" (Some "u1") empty_world)))
    by (vm_compute; reflexivity).
  split; [split; [exact valid_new_year | exact H]|].
  destruct (conversion_id_form "storage" (Some "u1") empty_world _ _
              valid_new_year H) as (_ & Hform & _ & _ & _ & Hbase).
  split; [exact (Hbase eq_refl) | exact Hform].
Defined.

(** An empty hint is supplied, and the identifier is not the hint, an
    underscore and the rest: it starts with [anonymous]. *)
Lemma empty_hint_is_anonymous :
  fst (_create_conversion_dir "storage" (Some "") empty_world)
  = Ok "storage/anonymous_20240101000000_89abcdef"
  /\ ~ id_has_form (hint_or_anonymous (Some "")) "20240101000000"
         (PosixPath.basename "storage/anonymous_20240101000000_89abcdef").
Proof.
  split; [vm_compute; reflexivity|].
  intros (suffix & H & _). vm_compute in H. discriminate.
Qed.

(** The page of the document [notes] rendered into [storage]. *)
Lemma page_is_standalone_document_witness :
  let w' := snd (render sample_markdown "storage" ("notes", "# Hi") empty_world) in
  render sample_markdown "storage" ("notes", "# Hi") empty_world = (Ok tt, w')
  /\ Os.read_bytes "storage/notes.html" w'
     = (Ok (html_page "notes.html" "<p># Hi</p>"), w').
Proof.
  intros w'.
  assert (H : render sample_markdown "storage" ("notes", "# Hi") empty_world
              = (Ok tt, w')) by (vm_compute; reflexivity).
  split; [exact H|].
  exact (proj1 (page_is_standalone_document sample_markdown "storage" "notes"
                  "# Hi" empty_world w' H)).
Defined.

(** The document [notes] rendered in two places, and again in the first. *)
Lemma render_verbatim_and_idempotent_witness :
  let w1 := snd (render sample_markdown "storage" ("notes", "# Hi") empty_world) in
  let w2 := snd (render sample_markdown "" ("notes", "# Hi") empty_world) in
  (render sample_markdown "storage" ("notes", "# Hi") empty_world = (Ok tt, w1)
   /\ render sample_markdown "" ("notes", "# Hi") empty_world = (Ok tt, w2))
  /\ Os.read_bytes "storage/notes.md" w1 = (Ok "# Hi", w1)
  /\ render sample_markdown "storage" ("notes", "# Hi") w1 = (Ok tt, w1).
Proof.
  intros w1 w2.
  assert (H1 : render sample_markdown "storage" ("notes", "# Hi") empty_world
               = (Ok tt, w1)) by (vm_compute; reflexivity).
  assert (H2 : render sample_markdown "" ("notes", "# Hi") empty_world
               = (Ok tt, w2)) by (vm_compute; reflexivity).
  split; [split; [exact H1 | exact H2]|].
  destruct (render_verbatim_and_idempotent sample_markdown "notes" "# Hi"
              "storage" "" empty_world w1 empty_world w2 H1 H2)
    as (Hmd & _ & _ & Hagain).
  split; [exact Hmd | exact Hagain].
Defined.

Ltac computed := vm_compute; reflexivity.

Ltac distinct_names :=
  vm_compute;
  repeat (apply NoDup_cons; [intros H; cbv in H; intuition discriminate|]);
  apply NoDup_nil.

(** A batch of two documents converted for the hint [u1]. *)
Lemma convert_builds_site_witness :
  let content := [("notes", "# Hi"); ("guide.md", "Read me")] in
  (PosixPath.components "storage" = Some ["storage"]
   /\ Fs.find ["storage"] (fs empty_world) = inr (Dir 0 true [])
   /\ NoDup (map md_filename (map fst content))
   /\ NoDup (map html_filename (map fst content)))
  /\ exists w',
       convert_markdown_to_html "storage" sample_markdown content (Some "u1")
         empty_world
       = (Ok ("u1_20240101000000_89abcdef",
              "storage/u1_20240101000000_89abcdef"), w')
       /\ Entries.names
            (match Fs.find ["storage"; "u1_20240101000000_89abcdef"] (fs w') with
             | inr (Dir _ _ es) => es
             | _ => []
             end)
          = ["css"; "notes.md"; "notes.html"; "guide.md"; "guide.html"].
Proof.
  intros content.
  assert (H0 : PosixPath.components "storage" = Some ["storage"]) by computed.
  assert (H1 : Fs.find ["storage"] (fs empty_world) = inr (Dir 0 true []))
    by reflexivity.
  assert (H2 : NoDup (map md_filename (map fst content))) by distinct_names.
  assert (H3 : NoDup (map html_filename (map fst content))) by distinct_names.
  split; [auto|].
  destruct (convert_builds_site "storage" sample_markdown ["storage"] H0
              content (Some "u1") empty_world 0 [] H1 eq_refl eq_refl eq_refl
              ltac:(repeat constructor) H2 H3)
    as (w' & Hrun & Hsite & _).
  exists w'. split; [exact Hrun|].
  exact (f_equal
           (fun r => Entries.names
                       (match r with inr (Dir _ _ es) => es | _ => [] end))
           Hsite).
Defined.

(** An empty batch converted for no hint. *)
Lemma convert_empty_mapping_witness :
  (PosixPath.components "storage" = Some ["storage"]
   /\ Fs.find ["storage"] (fs empty_world) = inr (Dir 0 true []))
  /\ exists w',
       convert_markdown_to_html "storage" sample_markdown [] None empty_world
       = (Ok ("anonymous_20240101000000_89abcdef",
              "storage/anonymous_20240101000000_89abcdef"), w')
       /\ Os.read_bytes
            "storage/anonymous_20240101000000_89abcdef/css/style.css" w'
          = (Ok BASE_CSS, w').
Proof.
  assert (H0 : PosixPath.components "storage" = Some ["storage"]) by computed.
  assert (H1 : Fs.find ["storage"] (fs empty_world) = inr (Dir 0 true []))
    by reflexivity.
  split; [auto|].
  destruct (convert_empty_mapping "storage" sample_markdown ["storage"] H0
              None empty_world 0 [] H1 eq_refl eq_refl eq_refl)
    as (w' & Hrun & _ & Hcss).
  exists w'. split; [exact Hrun | exact Hcss].
Defined.






(** An identifier nobody allocated. *)
Lemma create_zip_not_found_witness :
  (forall p,
     PosixPath.components (PosixPath.join "storage" "missing") = Some p ->
     exists e, Fs.find p (fs empty_world) = inl e)
  /\ create_zip "storage" sample_zip_bytes "missing" empty_world
     = (Raise (FileNotFoundError "Conversion missing not found"), empty_world).
Proof.
  assert (H : forall p,
             PosixPath.components (PosixPath.join "storage" "missing") = Some p ->
             exists e, Fs.find p (fs empty_world) = inl e).
  { intros p Hp. vm_compute in Hp. injection Hp as <-.
    exists ENOENT. reflexivity. }
  split; [exact H|].
  exact (create_zip_not_found "storage" sample_zip_bytes "missing" empty_world H).
Defined.


(** An identifier that names a regular file in the storage root. *)
Lemma create_zip_of_regular_file_witness :
  let w := stored true [("c1", File 5 "x")] in
  (PosixPath.components "storage" = Some ["storage"]
   /\ Fs.find ["storage"] (fs w) = inr (Dir 0 true [("c1", File 5 "x")])
   /\ can_write "c1.zip" (Dir 0 true [("c1", File 5 "x")]) = true)
  /\ create_zip "storage" sample_zip_bytes "c1" w
     = (Ok "storage/c1.zip", write_in ["storage"] "c1.zip" "" w).
Proof.
  intros w.
  assert (H0 : PosixPath.components "storage" = Some ["storage"]) by computed.
  assert (H1 : Fs.find ["storage"] (fs w) = inr (Dir 0 true [("c1", File 5 "x")]))
    by reflexivity.
  assert (H2 : can_write "c1.zip" (Dir 0 true [("c1", File 5 "x")]) = true)
    by computed.
  split; [auto|].
  exact (proj1 (create_zip_of_regular_file "storage" sample_zip_bytes
                  ["storage"] H0 w 0 true [("c1", File 5 "x")] "c1"
                  (File 5 "x") H1 eq_refl eq_refl H2 5%Q "x" eq_refl)).
Defined.

(** The conversion [c1] archived twice. *)
Lemma create_zip_again_witness :
  let w := stored true [("c1", small_site)] in
  let w' := snd (create_zip "storage" sample_zip_bytes "c1" w) in
  (PosixPath.components "storage" = Some ["storage"]
   /\ Fs.find ["storage"] (fs w) = inr (Dir 0 true [("c1", small_site)])
   /\ can_write "c1.zip" (Dir 0 true [("c1", small_site)]) = true
   /\ well_formed small_site = true
   /\ create_zip "storage" sample_zip_bytes "c1" w = (Ok "storage/c1.zip", w'))
  /\ create_zip "storage" sample_zip_bytes "c1" w' = (Ok "storage/c1.zip", w').
Proof.
  intros w w'.
  assert (H0 : PosixPath.components "storage" = Some ["storage"]) by computed.
  assert (H1 : Fs.find ["storage"] (fs w) = inr (Dir 0 true [("c1", small_site)]))
    by reflexivity.
  assert (H2 : can_write "c1.zip" (Dir 0 true [("c1", small_site)]) = true)
    by computed.
  assert (H3 : well_formed small_site = true) by computed.
  assert (H4 : create_zip "storage" sample_zip_bytes "c1" w
               = (Ok "storage/c1.zip", w')) by computed.
  split; [auto 6|].
  exact (create_zip_again "storage" sample_zip_bytes ["storage"] H0 w 0 true
           [("c1", small_site)] "c1" small_site "storage/c1.zip" w' H1
           eq_refl eq_refl H2 H3 H4).
Defined.

(** A working directory without a storage root. *)
Lemma init_makes_storage_root_witness :
  let w := mkWorld (Dir 0 true []) new_year sample_entropy 0 in
  let w' := snd (init "storage" w) in
  init "storage" w = (Ok tt, w')
  /\ Os.path_isdir "storage" w' = (Ok true, w')
  /\ init "storage" w' = (Ok tt, w').
Proof.
  intros w w'.
  assert (H : init "storage" w = (Ok tt, w')) by computed.
  split; [exact H|].
  exact (init_makes_storage_root "storage" w w' H).
Defined.

(** A regular file where the storage root should be. *)
Lemma init_refuses_regular_file_witness :
  let w := mkWorld (Dir 0 true [("storage", File 0 "x")]) new_year
             sample_entropy 0 in
  (PosixPath.components "storage" = Some ["storage"]
   /\ Fs.find ["storage"] (fs w) = inr (File 0 "x"))
  /\ init "storage" w = (Raise (OSError EEXIST "storage"), w).
Proof.
  intros w.
  assert (H0 : PosixPath.components "storage" = Some ["storage"]) by computed.
  assert (H1 : Fs.find ["storage"] (fs w) = inr (File 0 "x")) by reflexivity.
  split; [auto|].
  exact (init_refuses_regular_file "storage" w ["storage"] 0 "x" H0 H1).
Defined.

(** The style sheet written into [storage], twice. *)
Lemma create_base_css_idempotent_witness :
  let w' := snd (_create_base_css "storage" empty_world) in
  _create_base_css "storage" empty_world = (Ok "storage/css/style.css", w')
  /\ Os.read_bytes "storage/css/style.css" w' = (Ok BASE_CSS, w')
  /\ _create_base_css "storage" w' = (Ok "storage/css/style.css", w').
Proof.
  intros w'.
  assert (H : _create_base_css "storage" empty_world
              = (Ok "storage/css/style.css", w')) by computed.
  split; [exact H|].
  exact (proj2 (create_base_css_idempotent "storage" "storage/css/style.css"
                  empty_world w' H)).
Defined.

(** The key [notes], with and without its extension. *)
Lemma names_of_simple_key_witness :
  PyStr.contains "notes" ".md" = false
  /\ md_filename "notes" = "notes.md"
  /\ html_filename "notes.md" = "notes.html".
Proof.
  assert (H : PyStr.contains "notes" ".md" = false) by reflexivity.
  split; [exact H|].
  destruct (names_of_simple_key "notes" H) as (H1 & _ & _ & H4).
  split; [exact H1 | exact H4].
Defined.

(** Two allocations in the same second, from the first and the second
    random draw. *)
Lemma allocations_collide_iff_witness :
  let w1 := empty_world in
  let w2 := mkWorld (fs empty_world) new_year sample_entropy 1 in
  let w1' := snd (_create_conversion_dir "storage" (Some "u1") w1) in
  let w2' := snd (_create_conversion_dir "storage" (Some "u1") w2) in
  (clock w1 = clock w2
   /\ _create_conversion_dir "storage" (Some "u1") w1
      = (Ok "storage/u1_20240101000000_89abcdef", w1')
   /\ _create_conversion_dir "storage" (Some "u1") w2
      = (Ok "storage/u1_20240101000000_12345678", w2'))
  /\ ("storage/u1_20240101000000_89abcdef"
      = "storage/u1_20240101000000_12345678"
      <-> (entropy w1 (drawn w1) mod 2 ^ 128 / 2 ^ 96
           = entropy w2 (drawn w2) mod 2 ^ 128 / 2 ^ 96)%N).
Proof.
  intros w1 w2 w1' w2'.
  assert (H1 : _create_conversion_dir "storage" (Some "u1") w1
               = (Ok "storage/u1_20240101000000_89abcdef", w1')) by computed.
  assert (H2 : _create_conversion_dir "storage" (Some "u1") w2
               = (Ok "storage/u1_20240101000000_12345678", w2')) by computed.
  split; [split; [reflexivity | split; [exact H1 | exact H2]]|].
  exact (allocations_collide_iff "storage" (Some "u1") w1 w1' w2 w2' _ _
           eq_refl H1 H2).
Defined.


(** The keys [notes] and [notes.md] in one batch: one markdown file, with
    the text of the second. *)
Lemma convert_last_document_wins_witness :
  let content := [("notes", "# One"); ("notes.md", "# Two")] in
  (PosixPath.components "storage" = Some ["storage"]
   /\ Fs.find ["storage"] (fs empty_world) = inr (Dir 0 true [])
   /\ Forall (fun k => PosixPath.plain_name (md_filename k) = true)
        (map fst content))
  /\ exists w' site,
       convert_markdown_to_html "storage" sample_markdown content (Some "u1")
         empty_world
       = (Ok ("u1_20240101000000_89abcdef",
              "storage/u1_20240101000000_89abcdef"), w')
       /\ Fs.find ["storage"; "u1_20240101000000_89abcdef"] (fs w')
          = inr (Dir 1704067200 true site)
       /\ NoDup (Entries.names site)
       /\ Entries.lookup "notes.md" site = Some (File 1704067200 "# Two").
Proof.
  intros content.
  assert (H0 : PosixPath.components "storage" = Some ["storage"]) by computed.
  assert (H1 : Fs.find ["storage"] (fs empty_world) = inr (Dir 0 true []))
    by reflexivity.
  assert (H2 : Forall (fun k => PosixPath.plain_name (md_filename k) = true)
                 (map fst content)) by (repeat constructor).
  split; [auto|].
  destruct (convert_last_document_wins "storage" sample_markdown ["storage"]
              H0 content (Some "u1") empty_world 0 [] H1 eq_refl eq_refl
              eq_refl H2)
    as (w' & site & Hrun & Hsite & Hnd & _ & Hmd & _).
  exists w', site. split; [exact Hrun|]. split; [exact Hsite|].
  split; [exact Hnd|].
  exact (Hmd [("notes", "# One")] "notes.md" "# Two" [] eq_refl (fun H => H)).
Defined.



(** The key [../leak]: its two files land in the storage root. *)
Lemma convert_key_escapes_witness :
  (PosixPath.components "storage" = Some ["storage"]
   /\ Fs.find ["storage"] (fs empty_world) = inr (Dir 0 true [])
   /\ PyStr.contains "leak" ".md" = false
   /\ PosixPath.plain_name "leak.md" = true)
  /\ exists w',
       convert_markdown_to_html "storage" sample_markdown
         [("../leak", "# Hi")] (Some "u1") empty_world
       = (Ok ("u1_20240101000000_89abcdef",
              "storage/u1_20240101000000_89abcdef"), w')
       /\ Fs.find ["storage"; "u1_20240101000000_89abcdef"] (fs w')
          = inr (Dir 1704067200 true [("css", css_directory 1704067200)])
       /\ Fs.find ["storage"; "leak.md"] (fs w') = inr (File 1704067200 "# Hi").
Proof.
  assert (H0 : PosixPath.components "storage" = Some ["storage"]) by computed.
  assert (H1 : Fs.find ["storage"] (fs empty_world) = inr (Dir 0 true []))
    by reflexivity.
  split; [repeat split; assumption || reflexivity|].
  destruct (convert_key_escapes "storage" sample_markdown ["storage"] H0
              "leak" "# Hi" (Some "u1") empty_world 0 [] H1 eq_refl eq_refl
              eq_refl eq_refl eq_refl
              ltac:(intros m wd sub H; discriminate H)
              ltac:(intros m wd sub H; discriminate H))
    as (w' & Hrun & Hsite & Hmd & _).
  exists w'. split; [exact Hrun|]. split; [exact Hsite | exact Hmd].
Defined.

(** The key [sub/b] between two others: the call raises, the first
    document stays. *)
Lemma convert_stops_at_nested_key_witness :
  (PosixPath.components "storage" = Some ["storage"]
   /\ Fs.find ["storage"] (fs empty_world) = inr (Dir 0 true [])
   /\ md_filename "sub/b" = "sub" ++ "/" ++ "b.md")
  /\ exists w',
       convert_markdown_to_html "storage" sample_markdown
         [("a", "A"); ("sub/b", "B"); ("c", "C")] (Some "u1") empty_world
       = (Raise (FileNotFoundError
                   "storage/u1_20240101000000_89abcdef/sub/b.md"), w')
       /\ Fs.find ["storage"; "u1_20240101000000_89abcdef"] (fs w')
          = inr (Dir 1704067200 true
                   [("css", css_directory 1704067200);
                    ("a.md", File 1704067200 "A");
                    ("a.html",
                     File 1704067200 (html_page "a.html" "<p>A</p>"))]).
Proof.
  assert (H0 : PosixPath.components "storage" = Some ["storage"]) by computed.
  assert (H1 : Fs.find ["storage"] (fs empty_world) = inr (Dir 0 true []))
    by reflexivity.
  split; [repeat split; assumption || reflexivity|].
  destruct (convert_stops_at_nested_key "storage" sample_markdown ["storage"]
              H0 [("a", "A")] [("c", "C")] "sub/b" "B" "sub" "b.md"
              (Some "u1") empty_world 0 [] H1 eq_refl eq_refl eq_refl
              ltac:(repeat constructor) eq_refl eq_refl eq_refl
              ltac:(discriminate))
    as (w' & Hrun & Hsite & _).
  exists w'. split; [exact Hrun | exact Hsite].
Defined.

(** A directory named [c1.zip] beside the conversion [c1]. *)
Lemma create_zip_cannot_write_witness :
  let es := [("c1", small_site); ("c1.zip", Dir 5 true [])] in
  let w := stored true es in
  (PosixPath.components "storage" = Some ["storage"]
   /\ Fs.find ["storage"] (fs w) = inr (Dir 0 true es)
   /\ can_write "c1.zip" (Dir 0 true es) = false)
  /\ create_zip "storage" sample_zip_bytes "c1" w
     = (Raise (OSError EISDIR "storage/c1.zip"), w).
Proof.
  intros es w.
  assert (H0 : PosixPath.components "storage" = Some ["storage"]) by computed.
  assert (H1 : Fs.find ["storage"] (fs w) = inr (Dir 0 true es))
    by reflexivity.
  assert (H2 : can_write "c1.zip" (Dir 0 true es) = false) by computed.
  split; [auto|].
  exact (create_zip_cannot_write "storage" sample_zip_bytes ["storage"] H0
           "c1" small_site w 0 true es H1 eq_refl eq_refl H2).
Defined.

(** A read-only, empty storage root. *)
Lemma convert_read_only_root_witness :
  let w := stored false [] in
  (PosixPath.components "storage" = Some ["storage"]
   /\ Fs.find ["storage"] (fs w) = inr (Dir 0 false []))
  /\ convert_markdown_to_html "storage" sample_markdown [("notes", "# Hi")]
       (Some "u1") w
     = (Raise (OSError EACCES "storage/u1_20240101000000_89abcdef"),
        mkWorld (fs w) (clock w) (entropy w) 1).
Proof.
  intros w.
  assert (H0 : PosixPath.components "storage" = Some ["storage"]) by computed.
  assert (H1 : Fs.find ["storage"] (fs w) = inr (Dir 0 false []))
    by reflexivity.
  split; [auto|].
  exact (convert_read_only_root "storage" sample_markdown ["storage"] H0
           [("notes", "# Hi")] (Some "u1") w 0 [] H1 eq_refl eq_refl eq_refl).
Defined.

